(** * Surprise-bag marketplace: order workflow, listings and notifications

    A shallow embedding of [models.py], [schemas.py], [services.py] and the
    [read_order] endpoint of [main.py].

    Conventions of the embedding.
    - A table is the list of its rows, in storage order; [Query.first()] is
      [find] with the filter as a boolean predicate.
    - The SQLAlchemy session is modelled by its unit of work: attribute
      assignments and [db.add] build a list of [change]s and [db.commit()]
      flushes that list atomically.  A flush checks the constraints that
      [models.py] declares column by column (primary keys, [unique=True]); a
      violated constraint discards the whole unit of work and surfaces as
      [IntegrityError].  Foreign keys are declared but their enforcement is
      the engine's; no foreign-key check is made.
    - [uuid.uuid4()] is an arbitrary sequence of strings [uuid4 : nat ->
      string]; the world records how many draws were made.
    - [datetime.utcnow()] and the server side [func.now()] are one clock
      reading [now], given to each request.
    - A [float] price is the rational it denotes ([Q]).  A [Numeric(10, 2)]
      column gives a price back with two decimals: a row holds the price
      as it reads after [db.refresh], [numeric_10_2] of the value assigned.
    - An [Integer] column takes the integers the driver can bind
      ([fits_integer]); committing a row with another value raises
      [OverflowError] and writes nothing.
    - Where the engine decides (the two column types above, a negative
      [OFFSET] or [LIMIT], the order of a query without [ORDER BY]), the
      embedding follows SQLite as SQLAlchemy drives it; rows come back in
      storage order.
    - [datetime] values are integers (timestamps). *)

From Stdlib Require Import ZArith QArith Qabs List String Ascii Bool Lia.
From Stdlib Require Import DecimalString.
Import ListNotations.

Local Open Scope string_scope.
Local Open Scope Z_scope.

Definition datetime := Z.

(** JSON values held by the [contents] column. *)
#[warnings="-register-all"]
Inductive json : Type :=
| JNull
| JBool (b : bool)
| JNumber (q : Q)
| JString (s : string)
| JArray (items : list json)
| JObject (members : list (string * json)).

(** ** Enumerations ([models.py] 13-31, [schemas.py] 7-25) *)

Module UserRole.
Inductive t := customer | business_owner.
Definition eqb (a b : t) : bool :=
  match a, b with
  | customer, customer | business_owner, business_owner => true
  | _, _ => false
  end.
End UserRole.

Module OrderStatus.
Inductive t := pending | confirmed | cancelled | completed.
Definition eqb (a b : t) : bool :=
  match a, b with
  | pending, pending | confirmed, confirmed
  | cancelled, cancelled | completed, completed => true
  | _, _ => false
  end.
End OrderStatus.

Module NotificationType.
Inductive t := order_confirmation | pickup_reminder | new_bag | order_update.
End NotificationType.

Module RelatedEntityType.
Inductive t := order | bag.
End RelatedEntityType.

(** ** Rows ([models.py] 34-134) *)

Module User.
Record t := {
  id : Z;
  email : string;
  password_hash : string;
  name : string;
  phone : option string;
  created_at : datetime;
  is_active : bool;
  role : UserRole.t
}.
End User.

Module BusinessOwner.
Record t := {
  owner_id : Z;
  business_name : string;
  business_description : option string;
  address : string;
  logo_url : option string;
  registration_date : datetime;
  business_hours : option string;
  is_verified : bool;
  created_at : datetime
}.
End BusinessOwner.

Module SurpriseBag.
Record t := {
  id : Z;
  business_id : Z;
  title : string;
  description : string;
  contents : option (list (string * json));
  original_price : Q;
  discount_price : Q;
  quantity_available : Z;
  quantity_sold : Z;
  pickup_start : datetime;
  pickup_end : datetime;
  created_at : datetime;
  image_urls : option (list string);
  is_active : bool
}.

Definition set_quantity_sold (v : Z) (b : t) : t :=
  {| id := id b; business_id := business_id b; title := title b;
     description := description b; contents := contents b;
     original_price := original_price b; discount_price := discount_price b;
     quantity_available := quantity_available b; quantity_sold := v;
     pickup_start := pickup_start b; pickup_end := pickup_end b;
     created_at := created_at b; image_urls := image_urls b;
     is_active := is_active b |}.

Definition set_is_active (v : bool) (b : t) : t :=
  {| id := id b; business_id := business_id b; title := title b;
     description := description b; contents := contents b;
     original_price := original_price b; discount_price := discount_price b;
     quantity_available := quantity_available b;
     quantity_sold := quantity_sold b;
     pickup_start := pickup_start b; pickup_end := pickup_end b;
     created_at := created_at b; image_urls := image_urls b;
     is_active := v |}.
End SurpriseBag.

Module Order.
Record t := {
  order_id : string;
  customer_id : option Z;
  bag_id : Z;
  total_price : Q;
  status : OrderStatus.t;
  created_at : datetime;
  updated_at : datetime;
  pickup_code : string;
  rating : option Z;
  feedback : option string
}.

Definition set_status (s : OrderStatus.t) (o : t) : t :=
  {| order_id := order_id o; customer_id := customer_id o;
     bag_id := bag_id o; total_price := total_price o; status := s;
     created_at := created_at o; updated_at := updated_at o;
     pickup_code := pickup_code o; rating := rating o;
     feedback := feedback o |}.

Definition set_updated_at (d : datetime) (o : t) : t :=
  {| order_id := order_id o; customer_id := customer_id o;
     bag_id := bag_id o; total_price := total_price o; status := status o;
     created_at := created_at o; updated_at := d;
     pickup_code := pickup_code o; rating := rating o;
     feedback := feedback o |}.
End Order.

Module Notification.
Record t := {
  notification_id : string;
  user_id : Z;
  type : NotificationType.t;
  title : string;
  message : string;
  is_read : bool;
  created_at : datetime;
  related_entity_type : RelatedEntityType.t;
  related_entity_id : string
}.

Definition set_is_read (v : bool) (n : t) : t :=
  {| notification_id := notification_id n; user_id := user_id n;
     type := type n; title := title n; message := message n;
     is_read := v; created_at := created_at n;
     related_entity_type := related_entity_type n;
     related_entity_id := related_entity_id n |}.
End Notification.

(** ** Request bodies ([schemas.py] 70-103)

    A field with a default ([contents], [image_urls]) may be left unset by
    the caller: [None] is "not set", [Some v] is "set to [v]" ([v] may itself
    be Python's [None]).  [.dict()] fills an unset field with its default,
    [.dict(exclude_unset=True)] leaves it out. *)

Module SurpriseBagCreate.
Record t := {
  title : string;
  description : string;
  contents : option (option (list (string * json)));
  original_price : Q;
  discount_price : Q;
  quantity_available : Z;
  pickup_start : datetime;
  pickup_end : datetime;
  image_urls : option (option (list string))
}.

(** The [Field] constraints: [gt=0], [gt=0], [ge=0]. *)
Definition valid (b : t) : bool :=
  negb (Qle_bool (original_price b) 0)
  && negb (Qle_bool (discount_price b) 0)
  && (0 <=? quantity_available b).
End SurpriseBagCreate.

Module OrderCreate.
Record t := {
  bag_id : Z;
  total_price : Q
}.

Definition valid (o : t) : bool := negb (Qle_bool (total_price o) 0).
End OrderCreate.

(** ** The database and the world around it *)

Record Database := {
  users : list User.t;
  business_owners : list BusinessOwner.t;
  surprise_bags : list SurpriseBag.t;
  orders : list Order.t;
  notifications : list Notification.t;
  (** last value handed out for the autoincrement key of [surprise_bags] *)
  surprise_bags_id_seq : Z
}.

Record World := {
  db : Database;
  (** number of [uuid.uuid4()] calls made so far *)
  uuid_drawn : nat
}.

Definition with_db (w : World) (d : Database) : World :=
  {| db := d; uuid_drawn := uuid_drawn w |}.

(** ** Outcomes *)

Inductive exn :=
| HTTPException (status_code : Z) (detail : string)
| IntegrityError
| OverflowError.

Inductive result (A : Type) :=
| Return (a : A)
| Raise (e : exn).
Arguments Return {A} a.
Arguments Raise {A} e.

(** A JSON body [{"message": ...}]. *)
Record Message := { message : string }.

(** ** Unit of work *)

Inductive change :=
| InsertBag (b : SurpriseBag.t)
| SetBag (pk : Z) (assign : SurpriseBag.t -> SurpriseBag.t)
| InsertOrder (o : Order.t)
| SetOrder (pk : string) (assign : Order.t -> Order.t)
| InsertNotification (n : Notification.t)
| SetNotification (pk : string) (assign : Notification.t -> Notification.t)
| DeleteNotification (pk : string).

Definition bag_ids (d : Database) : list Z := map SurpriseBag.id (surprise_bags d).
Definition order_ids (d : Database) : list string := map Order.order_id (orders d).
Definition pickup_codes (d : Database) : list string := map Order.pickup_code (orders d).
Definition notification_ids (d : Database) : list string :=
  map Notification.notification_id (notifications d).

Definition mem_string (s : string) (l : list string) : bool :=
  existsb (String.eqb s) l.

Definition mem_Z (z : Z) (l : list Z) : bool := existsb (Z.eqb z) l.

(** [UPDATE t SET ... WHERE pk = ?] *)
Definition update_where {A : Type} (p : A -> bool) (assign : A -> A) (rows : list A) : list A :=
  map (fun r => if p r then assign r else r) rows.

Definition apply_change (c : change) (d : Database) : option Database :=
  match c with
  | InsertBag b =>
      if mem_Z (SurpriseBag.id b) (bag_ids d) then None
      else Some {| users := users d; business_owners := business_owners d;
                   surprise_bags := surprise_bags d ++ [b];
                   orders := orders d; notifications := notifications d;
                   surprise_bags_id_seq := Z.max (surprise_bags_id_seq d) (SurpriseBag.id b) |}
  | SetBag pk assign =>
      Some {| users := users d; business_owners := business_owners d;
              surprise_bags :=
                update_where (fun b => SurpriseBag.id b =? pk) assign (surprise_bags d);
              orders := orders d; notifications := notifications d;
              surprise_bags_id_seq := surprise_bags_id_seq d |}
  | InsertOrder o =>
      if mem_string (Order.order_id o) (order_ids d)
         || mem_string (Order.pickup_code o) (pickup_codes d)
      then None
      else Some {| users := users d; business_owners := business_owners d;
                   surprise_bags := surprise_bags d;
                   orders := orders d ++ [o]; notifications := notifications d;
                   surprise_bags_id_seq := surprise_bags_id_seq d |}
  | SetOrder pk assign =>
      Some {| users := users d; business_owners := business_owners d;
              surprise_bags := surprise_bags d;
              orders :=
                update_where (fun o => String.eqb (Order.order_id o) pk) assign (orders d);
              notifications := notifications d;
              surprise_bags_id_seq := surprise_bags_id_seq d |}
  | InsertNotification n =>
      if mem_string (Notification.notification_id n) (notification_ids d) then None
      else Some {| users := users d; business_owners := business_owners d;
                   surprise_bags := surprise_bags d; orders := orders d;
                   notifications := notifications d ++ [n];
                   surprise_bags_id_seq := surprise_bags_id_seq d |}
  | SetNotification pk assign =>
      Some {| users := users d; business_owners := business_owners d;
              surprise_bags := surprise_bags d; orders := orders d;
              notifications :=
                update_where (fun n => String.eqb (Notification.notification_id n) pk)
                             assign (notifications d);
              surprise_bags_id_seq := surprise_bags_id_seq d |}
  | DeleteNotification pk =>
      Some {| users := users d; business_owners := business_owners d;
              surprise_bags := surprise_bags d; orders := orders d;
              notifications :=
                filter (fun n => negb (String.eqb (Notification.notification_id n) pk))
                       (notifications d);
              surprise_bags_id_seq := surprise_bags_id_seq d |}
  end.

Fixpoint flush (changes : list change) (d : Database) : option Database :=
  match changes with
  | [] => Some d
  | c :: rest =>
      match apply_change c d with
      | Some d' => flush rest d'
      | None => None
      end
  end.

(** [db.commit()]: the pending changes reach the database together or not
    at all ([None] is the [IntegrityError] of a failed flush). *)
Definition commit (changes : list change) (w : World) : option World :=
  match flush changes (db w) with
  | Some d' => Some (with_db w d')
  | None => None
  end.

(** ** Column types ([models.py])

    [Integer]: the driver binds a signed 64-bit integer and raises
    [OverflowError] on any other, at the flush, before a statement runs. *)
Definition fits_integer (z : Z) : bool :=
  (-9223372036854775808 <=? z) && (z <=? 9223372036854775807).

(** The integer nearest to [q], a tie going to the even one. *)
Definition round_half_even (q : Q) : Z :=
  let n := Qnum q in
  let d := Z.pos (Qden q) in
  let f := n / d in
  let r := 2 * (n - f * d) in
  if r <? d then f
  else if d <? r then f + 1
  else if Z.even f then f else f + 1.

(** [Numeric(10, 2)]: the float is stored as it is and read back through
    ['%.2f'], that is rounded to the nearest hundredth. *)
Definition numeric_10_2 (q : Q) : Q :=
  Qred (round_half_even (q * (100 # 1)) # 100).

(** ** Helpers for Python expressions *)

(** [s[:8]] *)
Definition prefix8 (s : string) : string := substring 0 8 s.

(** [str(n)] for an [int]. *)
Definition str_of_int (z : Z) : string := NilZero.string_of_int (Z.to_int z).

(** [Order.customer_id == customer_id] on a nullable column: [NULL] matches
    nothing. *)
Definition customer_is (customer_id : Z) (o : Order.t) : bool :=
  match Order.customer_id o with
  | Some c => c =? customer_id
  | None => false
  end.

(** [sub in s] *)
Definition contains (sub s : string) : Prop :=
  exists before after, s = (before ++ sub ++ after)%string.

(** * Services ([services.py]) *)

Section Services.

(** The values successive calls of [uuid.uuid4()] return, as strings. *)
Variable uuid4 : nat -> string.

(** How an f-string renders an [OrderStatus] member (the member's value or
    its qualified name, depending on the interpreter version). *)
Variable format_status : OrderStatus.t -> string.

(** [str(uuid.uuid4())] *)
Definition draw_uuid (w : World) : string * World :=
  (uuid4 (uuid_drawn w), {| db := db w; uuid_drawn := S (uuid_drawn w) |}).

(** ** Surprise bag services *)

(** [bag.dict()] merged with the column defaults, as the row reads after
    [db.refresh]. *)
Definition new_bag_row (id : Z) (business_id : Z) (now : datetime)
  (bag : SurpriseBagCreate.t) : SurpriseBag.t :=
  {| SurpriseBag.id := id;
     SurpriseBag.business_id := business_id;
     SurpriseBag.title := SurpriseBagCreate.title bag;
     SurpriseBag.description := SurpriseBagCreate.description bag;
     SurpriseBag.contents :=
       match SurpriseBagCreate.contents bag with Some v => v | None => None end;
     SurpriseBag.original_price :=
       numeric_10_2 (SurpriseBagCreate.original_price bag);
     SurpriseBag.discount_price :=
       numeric_10_2 (SurpriseBagCreate.discount_price bag);
     SurpriseBag.quantity_available := SurpriseBagCreate.quantity_available bag;
     SurpriseBag.quantity_sold := 0;
     SurpriseBag.pickup_start := SurpriseBagCreate.pickup_start bag;
     SurpriseBag.pickup_end := SurpriseBagCreate.pickup_end bag;
     SurpriseBag.created_at := now;
     SurpriseBag.image_urls :=
       match SurpriseBagCreate.image_urls bag with Some v => v | None => None end;
     SurpriseBag.is_active := true |}.

(** The loop of [create_surprise_bag], lines 87-97: one notification, and
    one uuid, per customer. *)
Fixpoint new_bag_notifications (now : datetime) (db_bag : SurpriseBag.t)
  (db_business : BusinessOwner.t) (customers : list User.t) (w : World)
  : list Notification.t * World :=
  match customers with
  | [] => ([], w)
  | customer :: rest =>
      let '(nid, w1) := draw_uuid w in
      let notification :=
        {| Notification.notification_id := nid;
           Notification.user_id := User.id customer;
           Notification.type := NotificationType.new_bag;
           Notification.title := "New Surprise Bag Available!";
           Notification.message :=
             ("A new surprise bag '" ++ SurpriseBag.title db_bag
              ++ "' is available at " ++ BusinessOwner.business_name db_business
              ++ "!")%string;
           Notification.is_read := false;
           Notification.created_at := now;
           Notification.related_entity_type := RelatedEntityType.bag;
           Notification.related_entity_id := str_of_int (SurpriseBag.id db_bag) |} in
      let '(more, w2) := new_bag_notifications now db_bag db_business rest w1 in
      (notification :: more, w2)
  end.

(** The first [db.commit()] (line 82) writes [quantity_available] to an
    [Integer] column: a value that does not fit makes it raise before the
    row is written. *)
Definition create_surprise_bag (now : datetime) (w : World)
  (bag : SurpriseBagCreate.t) (business_id : Z) : result SurpriseBag.t * World :=
  match find (fun b => BusinessOwner.owner_id b =? business_id)
             (business_owners (db w)) with
  | None => (Raise (HTTPException 404 "Business not found"), w)
  | Some db_business =>
      if Qle_bool (SurpriseBagCreate.original_price bag)
                  (SurpriseBagCreate.discount_price bag)
      then (Raise (HTTPException 400
                     "Discount price must be less than original price"), w)
      else if SurpriseBagCreate.pickup_end bag <=? SurpriseBagCreate.pickup_start bag
      then (Raise (HTTPException 400
                     "Pickup end time must be after pickup start time"), w)
      else
        let db_bag :=
          new_bag_row (surprise_bags_id_seq (db w) + 1) business_id now bag in
        if negb (fits_integer (SurpriseBagCreate.quantity_available bag))
        then (Raise OverflowError, w)
        else
        match commit [InsertBag db_bag] w with
        | None => (Raise IntegrityError, w)
        | Some w1 =>
            let customers :=
              filter (fun u => UserRole.eqb (User.role u) UserRole.customer)
                     (users (db w1)) in
            let '(pending, w2) :=
              new_bag_notifications now db_bag db_business customers w1 in
            match commit (map InsertNotification pending) w2 with
            | None => (Raise IntegrityError, w2)
            | Some w3 => (Return db_bag, w3)
            end
        end
  end.

Definition get_surprise_bag (w : World) (bag_id : Z) : option SurpriseBag.t :=
  find (fun b => SurpriseBag.id b =? bag_id) (surprise_bags (db w)).

(** The [setattr] loop over [bag_update.dict(exclude_unset=True)], as the
    row reads after the commit and [db.refresh]. *)
Definition assign_fields (bag_update : SurpriseBagCreate.t) (b : SurpriseBag.t)
  : SurpriseBag.t :=
  {| SurpriseBag.id := SurpriseBag.id b;
     SurpriseBag.business_id := SurpriseBag.business_id b;
     SurpriseBag.title := SurpriseBagCreate.title bag_update;
     SurpriseBag.description := SurpriseBagCreate.description bag_update;
     SurpriseBag.contents :=
       match SurpriseBagCreate.contents bag_update with
       | Some v => v
       | None => SurpriseBag.contents b
       end;
     SurpriseBag.original_price :=
       numeric_10_2 (SurpriseBagCreate.original_price bag_update);
     SurpriseBag.discount_price :=
       numeric_10_2 (SurpriseBagCreate.discount_price bag_update);
     SurpriseBag.quantity_available := SurpriseBagCreate.quantity_available bag_update;
     SurpriseBag.quantity_sold := SurpriseBag.quantity_sold b;
     SurpriseBag.pickup_start := SurpriseBagCreate.pickup_start bag_update;
     SurpriseBag.pickup_end := SurpriseBagCreate.pickup_end bag_update;
     SurpriseBag.created_at := SurpriseBag.created_at b;
     SurpriseBag.image_urls :=
       match SurpriseBagCreate.image_urls bag_update with
       | Some v => v
       | None => SurpriseBag.image_urls b
       end;
     SurpriseBag.is_active := SurpriseBag.is_active b |}.

(** The filter shared by [update_surprise_bag] and [delete_surprise_bag]. *)
Definition owned_bag (bag_id business_id : Z) (b : SurpriseBag.t) : bool :=
  (SurpriseBag.id b =? bag_id) && (SurpriseBag.business_id b =? business_id).

(** [db.commit()] (line 113) writes [quantity_available] as above. *)
Definition update_surprise_bag (w : World) (bag_id business_id : Z)
  (bag_update : SurpriseBagCreate.t) : result SurpriseBag.t * World :=
  match find (owned_bag bag_id business_id) (surprise_bags (db w)) with
  | None => (Raise (HTTPException 404 "Surprise bag not found or not authorized"), w)
  | Some db_bag =>
      if negb (fits_integer (SurpriseBagCreate.quantity_available bag_update))
      then (Raise OverflowError, w)
      else
        match commit [SetBag (SurpriseBag.id db_bag) (assign_fields bag_update)] w with
        | None => (Raise IntegrityError, w)
        | Some w1 => (Return (assign_fields bag_update db_bag), w1)
        end
  end.

(** [Order.bag_id == bag_id] and [Order.status.in_([pending, confirmed])]. *)
Definition active_order_on (bag_id : Z) (o : Order.t) : bool :=
  (Order.bag_id o =? bag_id)
  && (OrderStatus.eqb (Order.status o) OrderStatus.pending
      || OrderStatus.eqb (Order.status o) OrderStatus.confirmed).

Definition delete_surprise_bag (w : World) (bag_id business_id : Z)
  : result Message * World :=
  match find (owned_bag bag_id business_id) (surprise_bags (db w)) with
  | None => (Raise (HTTPException 404 "Surprise bag not found or not authorized"), w)
  | Some db_bag =>
      let active_orders :=
        Z.of_nat (List.length (filter (active_order_on bag_id) (orders (db w)))) in
      if 0 <? active_orders
      then (Raise (HTTPException 400 "Cannot delete surprise bag with active orders"), w)
      else
        match commit [SetBag (SurpriseBag.id db_bag) (SurpriseBag.set_is_active false)] w with
        | None => (Raise IntegrityError, w)
        | Some w1 => (Return {| message := "Surprise bag deactivated" |}, w1)
        end
  end.

(** ** Order services *)

(** [db.query(Order).filter(Order.pickup_code == pickup_code).first()],
    as a truth value. *)
Definition pickup_code_taken (w : World) (pickup_code : string) : bool :=
  existsb (fun o => String.eqb (Order.pickup_code o) pickup_code) (orders (db w)).

(** The [while] loop of [create_order], lines 142-143.  [fuel] bounds the
    number of times the body runs; [None] means the condition still held
    after [fuel] runs of the body. *)
Fixpoint regenerate (fuel : nat) (w : World) (pickup_code : string)
  : option (string * World) :=
  if pickup_code_taken w pickup_code then
    match fuel with
    | O => None
    | S fuel' =>
        let '(u, w') := draw_uuid w in
        regenerate fuel' w' (prefix8 u)
    end
  else Some (pickup_code, w).

(** Lines 141-143. *)
Definition generate_pickup_code (fuel : nat) (w : World) : option (string * World) :=
  let '(u, w1) := draw_uuid w in
  regenerate fuel w1 (prefix8 u).

(** The [Order(...)] of lines 145-152 as the row reads after the insert and
    [db.refresh]: [total_price] comes back from its [Numeric(10, 2)] column,
    [created_at] and [updated_at] take the server default, [rating] and
    [feedback] are [NULL]. *)
Definition new_order_row (order_id : string) (customer_id : Z)
  (order : OrderCreate.t) (pickup_code : string) (now : datetime) : Order.t :=
  {| Order.order_id := order_id;
     Order.customer_id := Some customer_id;
     Order.bag_id := OrderCreate.bag_id order;
     Order.total_price := numeric_10_2 (OrderCreate.total_price order);
     Order.status := OrderStatus.pending;
     Order.created_at := now;
     Order.updated_at := now;
     Order.pickup_code := pickup_code;
     Order.rating := None;
     Order.feedback := None |}.

Definition order_confirmation_for (notification_id : string) (customer_id : Z)
  (db_bag : SurpriseBag.t) (pickup_code : string) (db_order : Order.t)
  (now : datetime) : Notification.t :=
  {| Notification.notification_id := notification_id;
     Notification.user_id := customer_id;
     Notification.type := NotificationType.order_confirmation;
     Notification.title := "Order Confirmed!";
     Notification.message :=
       ("Your order for '" ++ SurpriseBag.title db_bag
        ++ "' has been placed. Pickup code: " ++ pickup_code)%string;
     Notification.is_read := false;
     Notification.created_at := now;
     Notification.related_entity_type := RelatedEntityType.order;
     Notification.related_entity_id := Order.order_id db_order |}.

(** [None]: the pickup-code loop did not finish within [fuel] runs. *)
Definition create_order (fuel : nat) (now : datetime) (w : World)
  (order : OrderCreate.t) (customer_id : Z) : option (result Order.t * World) :=
  match get_surprise_bag w (OrderCreate.bag_id order) with
  | None =>
      Some (Raise (HTTPException 404 "Surprise bag not found or not available"), w)
  | Some db_bag =>
      if negb (SurpriseBag.is_active db_bag)
      then Some (Raise (HTTPException 404 "Surprise bag not found or not available"), w)
      else if SurpriseBag.quantity_available db_bag <=? SurpriseBag.quantity_sold db_bag
      then Some (Raise (HTTPException 400 "Surprise bag is sold out"), w)
      else
        match generate_pickup_code fuel w with
        | None => None
        | Some (pickup_code, w1) =>
            let '(order_id, w2) := draw_uuid w1 in
            let db_order := new_order_row order_id customer_id order pickup_code now in
            match commit [SetBag (SurpriseBag.id db_bag)
                            (SurpriseBag.set_quantity_sold
                               (SurpriseBag.quantity_sold db_bag + 1));
                          InsertOrder db_order] w2 with
            | None => Some (Raise IntegrityError, w2)
            | Some w3 =>
                let '(notification_id, w4) := draw_uuid w3 in
                let notification :=
                  order_confirmation_for notification_id customer_id db_bag
                                         pickup_code db_order now in
                match commit [InsertNotification notification] w4 with
                | None => Some (Raise IntegrityError, w4)
                | Some w5 => Some (Return db_order, w5)
                end
            end
        end
  end.

Definition get_order (w : World) (order_id : string) : option Order.t :=
  find (fun o => String.eqb (Order.order_id o) order_id) (orders (db w)).

(** The filter shared by [update_order_status] and [delete_order]. *)
Definition owned_order (order_id : string) (customer_id : Z) (o : Order.t) : bool :=
  String.eqb (Order.order_id o) order_id && customer_is customer_id o.

Definition order_update_for (notification_id : string) (customer_id : Z)
  (title message : string) (order_id : string) (now : datetime) : Notification.t :=
  {| Notification.notification_id := notification_id;
     Notification.user_id := customer_id;
     Notification.type := NotificationType.order_update;
     Notification.title := title;
     Notification.message := message;
     Notification.is_read := false;
     Notification.created_at := now;
     Notification.related_entity_type := RelatedEntityType.order;
     Notification.related_entity_id := order_id |}.

Definition update_order_status (now : datetime) (w : World) (order_id : string)
  (customer_id : Z) (status : OrderStatus.t) : result Order.t * World :=
  match find (owned_order order_id customer_id) (orders (db w)) with
  | None => (Raise (HTTPException 404 "Order not found or not authorized"), w)
  | Some db_order =>
      let assign o := Order.set_updated_at now (Order.set_status status o) in
      match commit [SetOrder (Order.order_id db_order) assign] w with
      | None => (Raise IntegrityError, w)
      | Some w1 =>
          let '(notification_id, w2) := draw_uuid w1 in
          let notification :=
            order_update_for notification_id customer_id "Order Status Updated"
              ("Your order status has been updated to '" ++ format_status status
               ++ "'.")%string
              order_id now in
          match commit [InsertNotification notification] w2 with
          | None => (Raise IntegrityError, w2)
          | Some w3 => (Return (assign db_order), w3)
          end
      end
  end.

Definition delete_order (now : datetime) (w : World) (order_id : string)
  (customer_id : Z) : result Message * World :=
  match find (owned_order order_id customer_id) (orders (db w)) with
  | None => (Raise (HTTPException 404 "Order not found or not authorized"), w)
  | Some db_order =>
      if negb (OrderStatus.eqb (Order.status db_order) OrderStatus.pending)
      then (Raise (HTTPException 400 "Can only delete pending orders"), w)
      else
        let bag_changes :=
          match get_surprise_bag w (Order.bag_id db_order) with
          | Some db_bag =>
              [SetBag (SurpriseBag.id db_bag)
                 (SurpriseBag.set_quantity_sold (SurpriseBag.quantity_sold db_bag - 1))]
          | None => []
          end in
        let assign o :=
          Order.set_updated_at now (Order.set_status OrderStatus.cancelled o) in
        match commit (bag_changes ++ [SetOrder (Order.order_id db_order) assign]) w with
        | None => (Raise IntegrityError, w)
        | Some w1 =>
            let '(notification_id, w2) := draw_uuid w1 in
            let notification :=
              order_update_for notification_id customer_id "Order Cancelled"
                "Your order has been cancelled." order_id now in
            match commit [InsertNotification notification] w2 with
            | None => (Raise IntegrityError, w2)
            | Some w3 => (Return {| message := "Order cancelled" |}, w3)
            end
        end
  end.

(** ** Notification services *)

Definition owned_notification (notification_id : string) (user_id : Z)
  (n : Notification.t) : bool :=
  String.eqb (Notification.notification_id n) notification_id
  && (Notification.user_id n =? user_id).

Definition mark_notification_as_read (w : World) (notification_id : string)
  (user_id : Z) : result Message * World :=
  match find (owned_notification notification_id user_id) (notifications (db w)) with
  | None => (Raise (HTTPException 404 "Notification not found or not authorized"), w)
  | Some db_notification =>
      match commit [SetNotification (Notification.notification_id db_notification)
                      (Notification.set_is_read true)] w with
      | None => (Raise IntegrityError, w)
      | Some w1 => (Return {| message := "Notification marked as read" |}, w1)
      end
  end.

Definition delete_notification (w : World) (notification_id : string)
  (user_id : Z) : result Message * World :=
  match find (owned_notification notification_id user_id) (notifications (db w)) with
  | None => (Raise (HTTPException 404 "Notification not found or not authorized"), w)
  | Some db_notification =>
      match commit [DeleteNotification (Notification.notification_id db_notification)] w with
      | None => (Raise IntegrityError, w)
      | Some w1 => (Return {| message := "Notification deleted" |}, w1)
      end
  end.

(** * Endpoints ([main.py]) *)

(** [GET /orders/{order_id}], lines 121-126; [current_user] is what
    [get_current_user] resolved the bearer token to. *)
Definition read_order (w : World) (order_id : string) (current_user : User.t)
  : result Order.t :=
  match get_order w order_id with
  | None => Raise (HTTPException 404 "Order not found or not authorized")
  | Some db_order =>
      if negb (customer_is (User.id current_user) db_order)
      then Raise (HTTPException 404 "Order not found or not authorized")
      else Return db_order
  end.

(** [PUT /notifications/{notification_id}/read], lines 157-163. *)
Definition mark_as_read (w : World) (notification_id : string) (current_user : User.t)
  : result Message * World :=
  mark_notification_as_read w notification_id (User.id current_user).

(** [DELETE /notifications/{notification_id}], lines 165-171. *)
Definition delete_existing_notification (w : World) (notification_id : string)
  (current_user : User.t) : result Message * World :=
  delete_notification w notification_id (User.id current_user).

End Services.

(** * Accounts, listings pages and the remaining endpoints *)

(** ** Request bodies ([schemas.py] 28-53) *)

Module UserCreate.
Record t := {
  email : string;
  password : string;
  name : string;
  phone : option string;
  role : UserRole.t
}.
End UserCreate.

Module BusinessOwnerCreate.
Record t := {
  business_name : string;
  business_description : option string;
  address : string;
  logo_url : option string;
  business_hours : option string
}.
End BusinessOwnerCreate.

(** ** Unit of work on the account tables

    As for the other tables: an insert checks the declared keys
    ([users.id], [users.email] unique, [business_owners.owner_id]), an
    update assigns columns of the rows with the given primary key. *)

Inductive account_change :=
| InsertUser (u : User.t)
| SetUser (pk : Z) (assign : User.t -> User.t)
| InsertBusinessOwner (b : BusinessOwner.t)
| SetBusinessOwner (pk : Z) (assign : BusinessOwner.t -> BusinessOwner.t).

Definition user_ids (d : Database) : list Z := map User.id (users d).
Definition user_emails (d : Database) : list string := map User.email (users d).
Definition business_owner_ids (d : Database) : list Z :=
  map BusinessOwner.owner_id (business_owners d).

Definition with_users (d : Database) (rows : list User.t) : Database :=
  {| users := rows; business_owners := business_owners d;
     surprise_bags := surprise_bags d; orders := orders d;
     notifications := notifications d;
     surprise_bags_id_seq := surprise_bags_id_seq d |}.

Definition with_business_owners (d : Database) (rows : list BusinessOwner.t)
  : Database :=
  {| users := users d; business_owners := rows;
     surprise_bags := surprise_bags d; orders := orders d;
     notifications := notifications d;
     surprise_bags_id_seq := surprise_bags_id_seq d |}.

Definition apply_account_change (c : account_change) (d : Database)
  : option Database :=
  match c with
  | InsertUser u =>
      if mem_Z (User.id u) (user_ids d) || mem_string (User.email u) (user_emails d)
      then None
      else Some (with_users d (users d ++ [u]))
  | SetUser pk assign =>
      Some (with_users d (update_where (fun u => User.id u =? pk) assign (users d)))
  | InsertBusinessOwner b =>
      if mem_Z (BusinessOwner.owner_id b) (business_owner_ids d) then None
      else Some (with_business_owners d (business_owners d ++ [b]))
  | SetBusinessOwner pk assign =>
      Some (with_business_owners d
              (update_where (fun b => BusinessOwner.owner_id b =? pk) assign
                 (business_owners d)))
  end.

Fixpoint flush_accounts (changes : list account_change) (d : Database)
  : option Database :=
  match changes with
  | [] => Some d
  | c :: rest =>
      match apply_account_change c d with
      | Some d' => flush_accounts rest d'
      | None => None
      end
  end.

Definition commit_accounts (changes : list account_change) (w : World)
  : option World :=
  match flush_accounts changes (db w) with
  | Some d' => Some (with_db w d')
  | None => None
  end.

Definition User_set_is_active (v : bool) (u : User.t) : User.t :=
  {| User.id := User.id u; User.email := User.email u;
     User.password_hash := User.password_hash u; User.name := User.name u;
     User.phone := User.phone u; User.created_at := User.created_at u;
     User.is_active := v; User.role := User.role u |}.

Definition BusinessOwner_set_is_verified (v : bool) (b : BusinessOwner.t)
  : BusinessOwner.t :=
  {| BusinessOwner.owner_id := BusinessOwner.owner_id b;
     BusinessOwner.business_name := BusinessOwner.business_name b;
     BusinessOwner.business_description := BusinessOwner.business_description b;
     BusinessOwner.address := BusinessOwner.address b;
     BusinessOwner.logo_url := BusinessOwner.logo_url b;
     BusinessOwner.registration_date := BusinessOwner.registration_date b;
     BusinessOwner.business_hours := BusinessOwner.business_hours b;
     BusinessOwner.is_verified := v;
     BusinessOwner.created_at := BusinessOwner.created_at b |}.

Section Accounts.

(** [auth.get_password_hash], which is not part of the sources at hand: the
    hash it answered for the password of the call. *)
Variable get_password_hash : string -> string.

(** ** User services ([services.py] 10-37)

    [new_id] is the value the engine hands out for the autoincrement key
    [users.id] at this insert. *)

Definition create_user (new_id : Z) (now : datetime) (w : World)
  (user : UserCreate.t) : result User.t * World :=
  match find (fun u => String.eqb (User.email u) (UserCreate.email user))
             (users (db w)) with
  | Some _ => (Raise (HTTPException 400 "Email already registered"), w)
  | None =>
      let hashed_password := get_password_hash (UserCreate.password user) in
      let db_user :=
        {| User.id := new_id;
           User.email := UserCreate.email user;
           User.password_hash := hashed_password;
           User.name := UserCreate.name user;
           User.phone := UserCreate.phone user;
           User.created_at := now;
           User.is_active := true;
           User.role := UserCreate.role user |} in
      match commit_accounts [InsertUser db_user] w with
      | None => (Raise IntegrityError, w)
      | Some w1 => (Return db_user, w1)
      end
  end.

Definition get_user_by_id (w : World) (user_id : Z) : option User.t :=
  find (fun u => User.id u =? user_id) (users (db w)).

Definition delete_user (w : World) (user_id : Z) : result Message * World :=
  match get_user_by_id w user_id with
  | None => (Raise (HTTPException 404 "User not found"), w)
  | Some db_user =>
      match commit_accounts [SetUser (User.id db_user) (User_set_is_active false)] w with
      | None => (Raise IntegrityError, w)
      | Some w1 => (Return {| message := "User deactivated" |}, w1)
      end
  end.

(** ** Business owner services ([services.py] 40-66) *)

Definition create_business_owner (now : datetime) (w : World)
  (business_owner : BusinessOwnerCreate.t) (user_id : Z)
  : result BusinessOwner.t * World :=
  let refused :=
    (Raise (HTTPException 403 "User must be a business owner"), w) in
  match get_user_by_id w user_id with
  | None => refused
  | Some db_user =>
      if negb (UserRole.eqb (User.role db_user) UserRole.business_owner)
      then refused
      else
        let db_business :=
          {| BusinessOwner.owner_id := user_id;
             BusinessOwner.business_name :=
               BusinessOwnerCreate.business_name business_owner;
             BusinessOwner.business_description :=
               BusinessOwnerCreate.business_description business_owner;
             BusinessOwner.address := BusinessOwnerCreate.address business_owner;
             BusinessOwner.logo_url := BusinessOwnerCreate.logo_url business_owner;
             BusinessOwner.registration_date := now;
             BusinessOwner.business_hours :=
               BusinessOwnerCreate.business_hours business_owner;
             BusinessOwner.is_verified := false;
             BusinessOwner.created_at := now |} in
        match commit_accounts [InsertBusinessOwner db_business] w with
        | None => (Raise IntegrityError, w)
        | Some w1 => (Return db_business, w1)
        end
  end.

Definition get_business_owner (w : World) (user_id : Z) : option BusinessOwner.t :=
  find (fun b => BusinessOwner.owner_id b =? user_id) (business_owners (db w)).

Definition delete_business_owner (w : World) (user_id : Z)
  : result Message * World :=
  match get_business_owner w user_id with
  | None => (Raise (HTTPException 404 "Business owner not found"), w)
  | Some db_business =>
      let user_changes :=
        match get_user_by_id w user_id with
        | Some db_user => [SetUser (User.id db_user) (User_set_is_active false)]
        | None => []
        end in
      match commit_accounts
              (SetBusinessOwner (BusinessOwner.owner_id db_business)
                 (BusinessOwner_set_is_verified false) :: user_changes) w with
      | None => (Raise IntegrityError, w)
      | Some w1 =>
          (Return {| message := "Business owner and associated user deactivated" |},
           w1)
      end
  end.

End Accounts.

(** ** Pages ([services.py] 104-105 and 229-230)

    [offset(skip).limit(limit)]: [skip] and [limit] are any integers, as
    the endpoints pass them on.  A negative [OFFSET] skips nothing and a
    negative [LIMIT] is no limit. *)

Definition offset_limit {A : Type} (skip limit : Z) (rows : list A) : list A :=
  let rest := skipn (Z.to_nat skip) rows in
  if limit <? 0 then rest else firstn (Z.to_nat limit) rest.

Definition get_surprise_bags (w : World) (skip limit : Z) : list SurpriseBag.t :=
  offset_limit skip limit (filter SurpriseBag.is_active (surprise_bags (db w))).

Definition get_notifications (w : World) (user_id : Z) (skip limit : Z)
  : list Notification.t :=
  offset_limit skip limit
    (filter (fun n => Notification.user_id n =? user_id) (notifications (db w))).

(** ** The endpoints with a role check ([main.py] 65-145)

    [current_user] is what [get_current_user] resolved the bearer token
    to. *)

Section Endpoints.

Variable uuid4 : nat -> string.
Variable format_status : OrderStatus.t -> string.

Definition is_business_owner (u : User.t) : bool :=
  UserRole.eqb (User.role u) UserRole.business_owner.

Definition is_customer (u : User.t) : bool :=
  UserRole.eqb (User.role u) UserRole.customer.

Definition delete_current_business_owner (w : World) (current_user : User.t)
  : result Message * World :=
  if negb (is_business_owner current_user)
  then (Raise (HTTPException 403
                 "Only business owners can delete their business profile"), w)
  else delete_business_owner w (User.id current_user).

Definition create_new_surprise_bag (now : datetime) (w : World)
  (bag : SurpriseBagCreate.t) (current_user : User.t)
  : result SurpriseBag.t * World :=
  if negb (is_business_owner current_user)
  then (Raise (HTTPException 403
                 "Only business owners can create surprise bags"), w)
  else create_surprise_bag uuid4 now w bag (User.id current_user).

Definition update_existing_surprise_bag (w : World) (bag_id : Z)
  (bag_update : SurpriseBagCreate.t) (current_user : User.t)
  : result SurpriseBag.t * World :=
  if negb (is_business_owner current_user)
  then (Raise (HTTPException 403
                 "Only business owners can update surprise bags"), w)
  else update_surprise_bag w bag_id (User.id current_user) bag_update.

Definition delete_existing_surprise_bag (w : World) (bag_id : Z)
  (current_user : User.t) : result Message * World :=
  if negb (is_business_owner current_user)
  then (Raise (HTTPException 403
                 "Only business owners can delete surprise bags"), w)
  else delete_surprise_bag w bag_id (User.id current_user).

Definition create_new_order (fuel : nat) (now : datetime) (w : World)
  (order : OrderCreate.t) (current_user : User.t)
  : option (result Order.t * World) :=
  if negb (is_customer current_user)
  then Some (Raise (HTTPException 403 "Only customers can place orders"), w)
  else create_order uuid4 fuel now w order (User.id current_user).

Definition update_order_status_endpoint (now : datetime) (w : World)
  (order_id : string) (status : OrderStatus.t) (current_user : User.t)
  : result Order.t * World :=
  update_order_status uuid4 format_status now w order_id (User.id current_user)
    status.

Definition delete_existing_order (now : datetime) (w : World) (order_id : string)
  (current_user : User.t) : result Message * World :=
  if negb (is_customer current_user)
  then (Raise (HTTPException 403 "Only customers can delete their orders"), w)
  else delete_order uuid4 now w order_id (User.id current_user).

(** A request to one of the endpoints that write to the listing or order
    tables. *)
Inductive Request :=
| PostSurpriseBag (bag : SurpriseBagCreate.t)
| PutSurpriseBag (bag_id : Z) (bag_update : SurpriseBagCreate.t)
| DeleteSurpriseBag (bag_id : Z)
| PostOrder (order : OrderCreate.t)
| PutOrderStatus (order_id : string) (status : OrderStatus.t)
| DeleteOrder (order_id : string).

(** The world a request leaves behind ([None]: the pickup-code loop did not
    finish within [fuel]). *)
Definition serve (fuel : nat) (now : datetime) (r : Request)
  (current_user : User.t) (w : World) : option World :=
  match r with
  | PostSurpriseBag bag =>
      Some (snd (create_new_surprise_bag now w bag current_user))
  | PutSurpriseBag bag_id bag_update =>
      Some (snd (update_existing_surprise_bag w bag_id bag_update current_user))
  | DeleteSurpriseBag bag_id =>
      Some (snd (delete_existing_surprise_bag w bag_id current_user))
  | PostOrder order =>
      option_map snd (create_new_order fuel now w order current_user)
  | PutOrderStatus order_id status =>
      Some (snd (update_order_status_endpoint now w order_id status current_user))
  | DeleteOrder order_id =>
      Some (snd (delete_existing_order now w order_id current_user))
  end.

End Endpoints.

(** * Vocabulary of the statements *)

(** The world after [n] further uuid draws. *)
Definition drawn (n : nat) (w : World) : World :=
  {| db := db w; uuid_drawn := (uuid_drawn w + n)%nat |}.

(** A string no order, resp. no notification, has as primary key. *)
Definition unused_order_id (w : World) (s : string) : Prop :=
  ~ In s (order_ids (db w)).

Definition unused_notification_id (w : World) (s : string) : Prop :=
  ~ In s (notification_ids (db w)).

(** The capacity invariant of one listing, and of all of them. *)
Definition within_stock (b : SurpriseBag.t) : Prop :=
  0 <= SurpriseBag.quantity_sold b <= SurpriseBag.quantity_available b.

Definition stock_invariant (w : World) : Prop :=
  Forall within_stock (surprise_bags (db w)).

(** The constraints [models.py] declares: primary keys and the unique
    pickup code. *)
Record constraints_hold (d : Database) : Prop := {
  bag_ids_unique : NoDup (bag_ids d);
  order_ids_unique : NoDup (order_ids d);
  pickup_codes_unique : NoDup (pickup_codes d);
  notification_ids_unique : NoDup (notification_ids d)
}.

(** A valid state: the declared constraints hold and no listing is
    oversold or undersold. *)
Definition valid_state (w : World) : Prop :=
  constraints_hold (db w) /\ stock_invariant w.

(** An assignment that leaves key columns alone. *)
Definition keeps_keys (c : change) : Prop :=
  match c with
  | SetBag _ assign => forall b, SurpriseBag.id (assign b) = SurpriseBag.id b
  | SetOrder _ assign =>
      forall o, Order.order_id (assign o) = Order.order_id o
                /\ Order.pickup_code (assign o) = Order.pickup_code o
  | SetNotification _ assign =>
      forall n, Notification.notification_id (assign n) = Notification.notification_id n
  | _ => True
  end.

(** The three mutable tables after one change has been applied. *)
Definition bags_after (c : change) (rows : list SurpriseBag.t) : list SurpriseBag.t :=
  match c with
  | InsertBag b => rows ++ [b]
  | SetBag pk assign => update_where (fun b => SurpriseBag.id b =? pk) assign rows
  | _ => rows
  end.

Definition orders_after (c : change) (rows : list Order.t) : list Order.t :=
  match c with
  | InsertOrder o => rows ++ [o]
  | SetOrder pk assign =>
      update_where (fun o => String.eqb (Order.order_id o) pk) assign rows
  | _ => rows
  end.

Definition notifications_after (c : change) (rows : list Notification.t)
  : list Notification.t :=
  match c with
  | InsertNotification n => rows ++ [n]
  | SetNotification pk assign =>
      update_where (fun n => String.eqb (Notification.notification_id n) pk)
                   assign rows
  | DeleteNotification pk =>
      filter (fun n => negb (String.eqb (Notification.notification_id n) pk)) rows
  | _ => rows
  end.

(** The database after any number of successful flushes of key-keeping
    changes. *)
Inductive db_evolves : Database -> Database -> Prop :=
| db_evolves_refl d : db_evolves d d
| db_evolves_flush d changes d1 d' :
    Forall keeps_keys changes -> flush changes d = Some d1 ->
    db_evolves d1 d' -> db_evolves d d'.

(** The mutating operations of the service layer. *)
Inductive Op :=
| PlaceOrder (order : OrderCreate.t) (customer_id : Z)
| CancelOrder (order_id : string) (customer_id : Z)
| UpdateStatus (order_id : string) (customer_id : Z) (status : OrderStatus.t)
| CreateListing (bag : SurpriseBagCreate.t) (business_id : Z)
| UpdateListing (bag_id business_id : Z) (bag_update : SurpriseBagCreate.t)
| DeleteListing (bag_id business_id : Z)
| MarkRead (notification_id : string) (user_id : Z)
| DeleteNotification_ (notification_id : string) (user_id : Z).

Section Vocabulary.

Variable uuid4 : nat -> string.
Variable format_status : OrderStatus.t -> string.

(** The [i]-th pickup code tried by [create_order] in world [w] (the first
    is number 0): the first eight characters of the [i]-th next uuid. *)
Definition candidate (w : World) (i : nat) : string :=
  prefix8 (uuid4 (uuid_drawn w + i)%nat).

(** [k] candidates collide with an existing order and the next one does not. *)
Definition first_unused (w : World) (k : nat) : Prop :=
  (forall i, (i < k)%nat -> pickup_code_taken w (candidate w i) = true)
  /\ pickup_code_taken w (candidate w k) = false.

(** The world one operation leaves behind, whatever it answered. *)
Definition perform (fuel : nat) (now : datetime) (op : Op) (w : World)
  : option World :=
  match op with
  | PlaceOrder order customer_id =>
      option_map snd (create_order uuid4 fuel now w order customer_id)
  | CancelOrder order_id customer_id =>
      Some (snd (delete_order uuid4 now w order_id customer_id))
  | UpdateStatus order_id customer_id status =>
      Some (snd (update_order_status uuid4 format_status now w order_id
                   customer_id status))
  | CreateListing bag business_id =>
      Some (snd (create_surprise_bag uuid4 now w bag business_id))
  | UpdateListing bag_id business_id bag_update =>
      Some (snd (update_surprise_bag w bag_id business_id bag_update))
  | DeleteListing bag_id business_id =>
      Some (snd (delete_surprise_bag w bag_id business_id))
  | MarkRead notification_id user_id =>
      Some (snd (mark_notification_as_read w notification_id user_id))
  | DeleteNotification_ notification_id user_id =>
      Some (snd (delete_notification w notification_id user_id))
  end.

Inductive step (w : World) (op : Op) (w' : World) : Prop :=
| step_intro (fuel : nat) (now : datetime) :
    perform fuel now op w = Some w' -> step w op w'.

(** [execution w ops ws]: running [ops] from [w] visits the worlds [ws],
    one after each operation. *)
Inductive execution : World -> list Op -> list World -> Prop :=
| execution_nil w : execution w [] []
| execution_cons w op w1 ops ws :
    step w op w1 -> execution w1 ops ws -> execution w (op :: ops) (w1 :: ws).

(** What an operation must respect for the capacity invariant to survive
    it: a schema-valid payload on creation, an update that does not go
    below what is sold, a cancellation on a listing that has a sale. *)
Definition keeps_stock (w : World) (op : Op) : Prop :=
  match op with
  | CreateListing bag _ => SurpriseBagCreate.valid bag = true
  | UpdateListing bag_id business_id bag_update =>
      forall b, find (owned_bag bag_id business_id) (surprise_bags (db w)) = Some b ->
                SurpriseBag.quantity_sold b
                <= SurpriseBagCreate.quantity_available bag_update
  | CancelOrder order_id customer_id =>
      forall o b, find (owned_order order_id customer_id) (orders (db w)) = Some o ->
                  Order.status o = OrderStatus.pending ->
                  get_surprise_bag w (Order.bag_id o) = Some b ->
                  1 <= SurpriseBag.quantity_sold b
  | _ => True
  end.

Inductive guarded_execution : World -> list Op -> list World -> Prop :=
| guarded_nil w : guarded_execution w [] []
| guarded_cons w op w1 ops ws :
    keeps_stock w op -> step w op w1 -> guarded_execution w1 ops ws ->
    guarded_execution w (op :: ops) (w1 :: ws).

End Vocabulary.

(** ** Vocabulary of the further properties *)

(** Two order rows that differ at most in [status] and [updated_at]. *)
Definition same_order_but_status (o o' : Order.t) : Prop :=
  Order.order_id o' = Order.order_id o
  /\ Order.customer_id o' = Order.customer_id o
  /\ Order.bag_id o' = Order.bag_id o
  /\ Order.total_price o' = Order.total_price o
  /\ Order.created_at o' = Order.created_at o
  /\ Order.pickup_code o' = Order.pickup_code o
  /\ Order.rating o' = Order.rating o
  /\ Order.feedback o' = Order.feedback o.

(** Two notification rows that differ at most in [is_read]. *)
Definition same_notification_but_read (n n' : Notification.t) : Prop :=
  Notification.set_is_read false n' = Notification.set_is_read false n.

(** A change whose assignment leaves alone what identifies a row: a
    listing's id, business and creation time, everything of an order but
    its status and [updated_at], everything of a notification but
    [is_read]. *)
Definition gentle (c : change) : Prop :=
  match c with
  | SetBag _ assign =>
      forall b, SurpriseBag.id (assign b) = SurpriseBag.id b
                /\ SurpriseBag.business_id (assign b) = SurpriseBag.business_id b
                /\ SurpriseBag.created_at (assign b) = SurpriseBag.created_at b
  | SetOrder _ assign => forall o, same_order_but_status o (assign o)
  | SetNotification _ assign => forall n, same_notification_but_read n (assign n)
  | _ => True
  end.

(** What a world keeps of an earlier one. *)
Definition keeps_rows (d d' : Database) : Prop :=
  users d' = users d
  /\ business_owners d' = business_owners d
  /\ (forall b, In b (surprise_bags d) ->
        exists b', In b' (surprise_bags d')
                   /\ SurpriseBag.id b' = SurpriseBag.id b
                   /\ SurpriseBag.business_id b' = SurpriseBag.business_id b
                   /\ SurpriseBag.created_at b' = SurpriseBag.created_at b)
  /\ (forall o, In o (orders d) ->
        exists o', In o' (orders d') /\ same_order_but_status o o').

(** The database after any number of successful flushes of gentle
    changes. *)
Inductive db_path : Database -> Database -> Prop :=
| db_path_refl d : db_path d d
| db_path_flush d changes d1 d' :
    Forall gentle changes -> flush changes d = Some d1 ->
    db_path d1 d' -> db_path d d'.

(** * Sample data *)

Module Demo.

(** Distinct uuids: ["a1b2c3d4-..."], ["b1b2c3d4-..."], ... *)
Definition uuid4 (n : nat) : string :=
  String (ascii_of_nat (97 + n)) "1b2c3d4-0000-4000-8000-000000000000".

(** A generator that returns the same uuid for ever. *)
Definition stuck_uuid4 (n : nat) : string :=
  "a1b2c3d4-0000-4000-8000-000000000000".

Definition format_status (s : OrderStatus.t) : string :=
  match s with
  | OrderStatus.pending => "pending"
  | OrderStatus.confirmed => "confirmed"
  | OrderStatus.cancelled => "cancelled"
  | OrderStatus.completed => "completed"
  end.

Definition alice : User.t :=
  {| User.id := 1; User.email := "alice@example.com"; User.password_hash := "x";
     User.name := "Alice"; User.phone := None; User.created_at := 0;
     User.is_active := true; User.role := UserRole.customer |}.

Definition bob : User.t :=
  {| User.id := 2; User.email := "bob@example.com"; User.password_hash := "y";
     User.name := "Bob"; User.phone := None; User.created_at := 0;
     User.is_active := true; User.role := UserRole.business_owner |}.

Definition carol : User.t :=
  {| User.id := 3; User.email := "carol@example.com"; User.password_hash := "z";
     User.name := "Carol"; User.phone := None; User.created_at := 0;
     User.is_active := true; User.role := UserRole.customer |}.

Definition bakery : BusinessOwner.t :=
  {| BusinessOwner.owner_id := 2; BusinessOwner.business_name := "Bakery";
     BusinessOwner.business_description := None;
     BusinessOwner.address := "1 Main St"; BusinessOwner.logo_url := None;
     BusinessOwner.registration_date := 0; BusinessOwner.business_hours := None;
     BusinessOwner.is_verified := false; BusinessOwner.created_at := 0 |}.

(** Two customers, one business owner with a profile, nothing else. *)
Definition start : World :=
  {| db := {| users := [alice; bob; carol]; business_owners := [bakery];
              surprise_bags := []; orders := []; notifications := [];
              surprise_bags_id_seq := 0 |};
     uuid_drawn := 0 |}.

(** Users but no business profile. *)
Definition no_business : World :=
  {| db := {| users := [alice; bob; carol]; business_owners := [];
              surprise_bags := []; orders := []; notifications := [];
              surprise_bags_id_seq := 0 |};
     uuid_drawn := 0 |}.

(** available=1, original=10.00, discount=5.00, pickup from 100 to 200 *)
Definition pastries : SurpriseBagCreate.t :=
  {| SurpriseBagCreate.title := "Pastries";
     SurpriseBagCreate.description := "Assorted";
     SurpriseBagCreate.contents := None;
     SurpriseBagCreate.original_price := 10 # 1;
     SurpriseBagCreate.discount_price := 5 # 1;
     SurpriseBagCreate.quantity_available := 1;
     SurpriseBagCreate.pickup_start := 100;
     SurpriseBagCreate.pickup_end := 200;
     SurpriseBagCreate.image_urls := None |}.

(** A payload that breaks every rule of creation: discount above original,
    pickup window ending before it starts, nothing available. *)
Definition nonsense : SurpriseBagCreate.t :=
  {| SurpriseBagCreate.title := "Pastries";
     SurpriseBagCreate.description := "Assorted";
     SurpriseBagCreate.contents := None;
     SurpriseBagCreate.original_price := 5 # 1;
     SurpriseBagCreate.discount_price := 10 # 1;
     SurpriseBagCreate.quantity_available := 0;
     SurpriseBagCreate.pickup_start := 200;
     SurpriseBagCreate.pickup_end := 100;
     SurpriseBagCreate.image_urls := None |}.

Definition one_pastry : OrderCreate.t :=
  {| OrderCreate.bag_id := 1; OrderCreate.total_price := 5 # 1 |}.

Definition listing (available sold : Z) (active : bool) : SurpriseBag.t :=
  {| SurpriseBag.id := 1; SurpriseBag.business_id := 2;
     SurpriseBag.title := "Pastries"; SurpriseBag.description := "Assorted";
     SurpriseBag.contents := None; SurpriseBag.original_price := 10 # 1;
     SurpriseBag.discount_price := 5 # 1;
     SurpriseBag.quantity_available := available;
     SurpriseBag.quantity_sold := sold; SurpriseBag.pickup_start := 100;
     SurpriseBag.pickup_end := 200; SurpriseBag.created_at := 0;
     SurpriseBag.image_urls := None; SurpriseBag.is_active := active |}.

Definition order_of (order_id pickup_code : string) (customer_id : Z)
  (status : OrderStatus.t) : Order.t :=
  {| Order.order_id := order_id; Order.customer_id := Some customer_id;
     Order.bag_id := 1; Order.total_price := 5 # 1; Order.status := status;
     Order.created_at := 0; Order.updated_at := 0;
     Order.pickup_code := pickup_code; Order.rating := None;
     Order.feedback := None |}.

Definition note_for (notification_id : string) (user_id : Z) : Notification.t :=
  {| Notification.notification_id := notification_id;
     Notification.user_id := user_id;
     Notification.type := NotificationType.order_update;
     Notification.title := "Order Cancelled";
     Notification.message := "Your order has been cancelled.";
     Notification.is_read := false; Notification.created_at := 0;
     Notification.related_entity_type := RelatedEntityType.order;
     Notification.related_entity_id := "o-1" |}.

(** A world given by its listings, orders and notifications. *)
Definition world_of (bags : list SurpriseBag.t) (ords : list Order.t)
  (notes : list Notification.t) : World :=
  {| db := {| users := [alice; bob; carol]; business_owners := [bakery];
              surprise_bags := bags; orders := ords; notifications := notes;
              surprise_bags_id_seq := 1 |};
     uuid_drawn := 0 |}.

(** One active listing with one unit, none sold. *)
Definition shop : World := world_of [listing 1 0 true] [] [].

(** The listing sold out to Alice, her order still pending. *)
Definition sold_out : World :=
  world_of [listing 1 1 true] [order_of "o-1" "zzzzzzzz" 1 OrderStatus.pending] [].

(** The same, her order confirmed. *)
Definition confirmed_sale : World :=
  world_of [listing 1 1 true] [order_of "o-1" "zzzzzzzz" 1 OrderStatus.confirmed] [].

(** Two orders whose pickup codes are the first eight characters of the
    first two uuids of [uuid4] (and of every uuid of [stuck_uuid4]); one
    unit left. *)
Definition colliding : World :=
  world_of [listing 3 2 true]
    [order_of "o-1" "a1b2c3d4" 1 OrderStatus.pending;
     order_of "o-2" "b1b2c3d4" 3 OrderStatus.pending] [].

(** A notification for Alice and one for Carol. *)
Definition inbox : World :=
  world_of [listing 1 1 true] [order_of "o-1" "zzzzzzzz" 1 OrderStatus.pending]
    [note_for "n-1" 1; note_for "n-2" 3].

(** [pastries] with nothing available, resp. two units. *)
Definition withdrawn : SurpriseBagCreate.t :=
  {| SurpriseBagCreate.title := "Pastries";
     SurpriseBagCreate.description := "Assorted";
     SurpriseBagCreate.contents := None;
     SurpriseBagCreate.original_price := 10 # 1;
     SurpriseBagCreate.discount_price := 5 # 1;
     SurpriseBagCreate.quantity_available := 0;
     SurpriseBagCreate.pickup_start := 100;
     SurpriseBagCreate.pickup_end := 200;
     SurpriseBagCreate.image_urls := None |}.

Definition restocked : SurpriseBagCreate.t :=
  {| SurpriseBagCreate.title := "Pastries";
     SurpriseBagCreate.description := "Assorted";
     SurpriseBagCreate.contents := None;
     SurpriseBagCreate.original_price := 10 # 1;
     SurpriseBagCreate.discount_price := 5 # 1;
     SurpriseBagCreate.quantity_available := 2;
     SurpriseBagCreate.pickup_start := 100;
     SurpriseBagCreate.pickup_end := 200;
     SurpriseBagCreate.image_urls := None |}.




(** The id of the order that the first [PlaceOrder] of the scripts below
    creates: the listing's two broadcast notifications take uuids 0 and 1,
    the pickup code uuid 2, the order uuid 3. *)
Definition first_order : string := uuid4 3.

(** Bob lists one bag, Alice buys it, Bob sets the quantity to zero. *)
Definition oversell : list Op :=
  [CreateListing pastries 2; PlaceOrder one_pastry 1; UpdateListing 1 2 withdrawn].

(** Alice buys, cancels, sets her cancelled order back to pending, and
    cancels again. *)
Definition recancel : list Op :=
  [CreateListing pastries 2; PlaceOrder one_pastry 1;
   CancelOrder first_order 1;
   UpdateStatus first_order 1 OrderStatus.pending;
   CancelOrder first_order 1].

(** Alice buys and marks her order completed, Bob takes the listing down,
    Alice sets her order back to pending. *)
Definition retire : list Op :=
  [CreateListing pastries 2; PlaceOrder one_pastry 1;
   UpdateStatus first_order 1 OrderStatus.completed;
   DeleteListing 1 2;
   UpdateStatus first_order 1 OrderStatus.pending].

(** The scenario of the specification, with a restock at the end. *)
Definition scenario : list Op :=
  [CreateListing pastries 2; PlaceOrder one_pastry 1; PlaceOrder one_pastry 3;
   CancelOrder first_order 1; PlaceOrder one_pastry 3;
   UpdateListing 1 2 restocked].

(** [shop] with a notification whose key is the third uuid of [uuid4], the
    one [create_order] draws for its notification when the first pickup
    code is free. *)
Definition shop_with_clash : World :=
  world_of [listing 1 0 true] [] [note_for (uuid4 2) 1].

(** [sold_out] with a notification whose key is the first uuid of [uuid4]. *)
Definition sold_out_with_clash : World :=
  world_of [listing 1 1 true] [order_of "o-1" "zzzzzzzz" 1 OrderStatus.pending]
    [note_for (uuid4 0) 1].

(** [start] with a notification whose key is the second uuid of [uuid4]. *)
Definition start_with_clash : World :=
  {| db := {| users := [alice; bob; carol]; business_owners := [bakery];
              surprise_bags := []; orders := [];
              notifications := [note_for (uuid4 1) 3];
              surprise_bags_id_seq := 0 |};
     uuid_drawn := 0 |}.

(** Alice's order is confirmed, Bob restocks, Carol buys. *)
Definition aftermath : list Op :=
  [UpdateStatus "o-1" 1 OrderStatus.confirmed; UpdateListing 1 2 restocked;
   PlaceOrder one_pastry 3].

Definition hash (password : string) : string := ("hash:" ++ password)%string.

Definition dave : UserCreate.t :=
  {| UserCreate.email := "dave@example.com"; UserCreate.password := "secret";
     UserCreate.name := "Dave"; UserCreate.phone := None;
     UserCreate.role := UserRole.customer |}.

Definition second_alice : UserCreate.t :=
  {| UserCreate.email := "alice@example.com"; UserCreate.password := "other";
     UserCreate.name := "Alice II"; UserCreate.phone := None;
     UserCreate.role := UserRole.business_owner |}.

Definition cafe : BusinessOwnerCreate.t :=
  {| BusinessOwnerCreate.business_name := "Cafe";
     BusinessOwnerCreate.business_description := None;
     BusinessOwnerCreate.address := "2 Main St";
     BusinessOwnerCreate.logo_url := None;
     BusinessOwnerCreate.business_hours := None |}.

End Demo.

(** * Properties *)

Lemma OrderStatus_eqb_eq (a b : OrderStatus.t) :
  OrderStatus.eqb a b = true <-> a = b.
Proof. destruct a, b; simpl; split; congruence. Qed.

(** ** Rows and queries *)

Lemma update_where_length {A : Type} (p : A -> bool) (f : A -> A) (rows : list A) :
  List.length (update_where p f rows) = List.length rows.
Proof. unfold update_where. apply length_map. Qed.

Lemma map_update_where {A B : Type} (g : A -> B) (p : A -> bool) (f : A -> A)
  (rows : list A) :
  (forall r, g (f r) = g r) ->
  map g (update_where p f rows) = map g rows.
Proof.
  intros Hg. unfold update_where. rewrite map_map.
  apply map_ext. intros r. destruct (p r); auto.
Qed.

Lemma find_update_where {A : Type} (p q : A -> bool) (f : A -> A) (rows : list A) :
  (forall r, q (f r) = q r) ->
  find q (update_where p f rows)
  = option_map (fun r => if p r then f r else r) (find q rows).
Proof.
  intros Hq. induction rows as [|r rows IH]; simpl; [reflexivity|].
  assert (Hr : q (if p r then f r else r) = q r) by (destruct (p r); auto).
  rewrite Hr. destruct (q r); simpl; auto.
Qed.

Lemma Forall_update_where {A : Type} (P : A -> Prop) (p : A -> bool) (f : A -> A)
  (rows : list A) :
  Forall P rows ->
  (forall r, In r rows -> p r = true -> P (f r)) ->
  Forall P (update_where p f rows).
Proof.
  intros HP Hf. unfold update_where. rewrite Forall_forall in *.
  intros x Hx. apply in_map_iff in Hx. destruct Hx as [r [<- Hr]].
  destruct (p r) eqn:E; auto.
Qed.

Lemma mem_string_false (s : string) (l : list string) :
  mem_string s l = false <-> ~ In s l.
Proof.
  unfold mem_string. split.
  - intros H Hin. assert (existsb (String.eqb s) l = true).
    { apply existsb_exists. exists s. split; auto. apply String.eqb_refl. }
    congruence.
  - intros H. destruct (existsb (String.eqb s) l) eqn:E; auto.
    apply existsb_exists in E. destruct E as [x [Hx Hs]].
    apply String.eqb_eq in Hs. subst. contradiction.
Qed.

Lemma mem_Z_false (z : Z) (l : list Z) : mem_Z z l = false <-> ~ In z l.
Proof.
  unfold mem_Z. split.
  - intros H Hin. assert (existsb (Z.eqb z) l = true).
    { apply existsb_exists. exists z. split; auto. apply Z.eqb_refl. }
    congruence.
  - intros H. destruct (existsb (Z.eqb z) l) eqn:E; auto.
    apply existsb_exists in E. destruct E as [x [Hx Hs]].
    apply Z.eqb_eq in Hs. subst. contradiction.
Qed.

Lemma pickup_code_taken_mem (w : World) (c : string) :
  pickup_code_taken w c = mem_string c (pickup_codes (db w)).
Proof.
  unfold pickup_code_taken, mem_string, pickup_codes.
  induction (orders (db w)) as [|o l IH]; simpl; [reflexivity|].
  rewrite IH. f_equal. apply String.eqb_sym.
Qed.

Lemma append_assoc (a b c : string) : ((a ++ b) ++ c = a ++ (b ++ c))%string.
Proof. induction a as [|x a IH]; simpl; [reflexivity | now rewrite IH]. Qed.

Lemma append_empty_r (a : string) : (a ++ "" = a)%string.
Proof. induction a as [|x a IH]; simpl; [reflexivity | now rewrite IH]. Qed.

Lemma order_confirmation_mentions_code (notification_id : string)
  (customer_id : Z) (db_bag : SurpriseBag.t) (pickup_code : string)
  (db_order : Order.t) (now : datetime) :
  contains pickup_code
    (Notification.message
       (order_confirmation_for notification_id customer_id db_bag pickup_code
          db_order now)).
Proof.
  exists ("Your order for '" ++ SurpriseBag.title db_bag
          ++ "' has been placed. Pickup code: ")%string, EmptyString.
  unfold order_confirmation_for, Notification.message.
  rewrite append_empty_r, !append_assoc. reflexivity.
Qed.

(** ** Column types *)


Lemma round_half_even_nearest (n : Z) (d : positive) :
  2 * Z.abs (round_half_even (n # d) * Z.pos d - n) <= Z.pos d.
Proof.
  unfold round_half_even. cbn [Qnum Qden].
  pose proof (Z.div_mod n (Z.pos d) ltac:(lia)) as Hdm.
  pose proof (Z.mod_pos_bound n (Z.pos d) ltac:(lia)) as Hb.
  set (f := n / Z.pos d) in *. set (m := n mod Z.pos d) in *.
  replace (n - f * Z.pos d) with m by lia.
  destruct (2 * m <? Z.pos d) eqn:E1.
  - apply Z.ltb_lt in E1. lia.
  - apply Z.ltb_ge in E1. destruct (Z.pos d <? 2 * m) eqn:E2.
    + apply Z.ltb_lt in E2. lia.
    + apply Z.ltb_ge in E2. destruct (Z.even f); lia.
Qed.


(** Any price comes back within half a hundredth of what went in. *)
Lemma numeric_10_2_nearest (q : Q) :
  (Qabs (numeric_10_2 q - q) <= 1 # 200)%Q.
Proof.
  unfold numeric_10_2. rewrite Qred_correct.
  destruct q as [a b]. unfold Qmult. cbn [Qnum Qden]. rewrite Pos.mul_1_r.
  pose proof (round_half_even_nearest (a * 100) b) as H.
  set (k := round_half_even (a * 100 # b)) in *.
  unfold Qle, Qabs, Qminus, Qplus, Qopp. cbn [Qnum Qden].
  rewrite Pos2Z.inj_mul. lia.
Qed.

(** 19.875, 0.125 (a tie), 0.004 and 5 as the column gives them back. *)
Lemma numeric_10_2_samples :
  numeric_10_2 (159 # 8) = 497 # 25
  /\ numeric_10_2 (1 # 8) = 3 # 25
  /\ numeric_10_2 (1 # 250) = 0 # 1
  /\ numeric_10_2 (5 # 1) = 5 # 1.
Proof. repeat split; reflexivity. Qed.

Section Properties.

Variable uuid4 : nat -> string.
Variable format_status : OrderStatus.t -> string.

Lemma pickup_code_taken_drawn (n : nat) (w : World) (c : string) :
  pickup_code_taken (drawn n w) c = pickup_code_taken w c.
Proof. reflexivity. Qed.

Lemma regenerate_runs (k : nat) :
  forall (fuel : nat) (w : World) (code : string),
    (forall i, (i < k)%nat ->
       pickup_code_taken w
         (match i with O => code | S j => candidate uuid4 w j end) = true) ->
    pickup_code_taken w (match k with O => code | S j => candidate uuid4 w j end) = false ->
    regenerate uuid4 fuel w code
    = if (k <=? fuel)%nat
      then Some (match k with O => code | S j => candidate uuid4 w j end, drawn k w)
      else None.
Proof.
  induction k as [|k IH]; intros fuel w code Hbusy Hfree.
  - destruct fuel; simpl; rewrite Hfree; unfold drawn;
      rewrite Nat.add_0_r; destruct w; reflexivity.
  - assert (H0 : pickup_code_taken w code = true) by (apply (Hbusy O); lia).
    destruct fuel as [|fuel]; simpl; rewrite H0; [reflexivity|].
    rewrite (IH fuel _ (prefix8 (uuid4 (uuid_drawn w)))).
    + assert (Hd : drawn k {| db := db w; uuid_drawn := S (uuid_drawn w) |}
                   = drawn (S k) w).
      { unfold drawn; simpl. f_equal. lia. }
      rewrite Hd. destruct k as [|k]; simpl.
      * unfold candidate. rewrite Nat.add_0_r. reflexivity.
      * unfold candidate; simpl. replace (S (uuid_drawn w + k))%nat
          with (uuid_drawn w + S k)%nat by lia. reflexivity.
    + intros i Hi. specialize (Hbusy (S i) ltac:(lia)).
      destruct i as [|i]; simpl in *.
      * unfold candidate in Hbusy. rewrite Nat.add_0_r in Hbusy. exact Hbusy.
      * specialize (Hbusy). unfold candidate in *; simpl.
        replace (S (uuid_drawn w + i))%nat with (uuid_drawn w + S i)%nat by lia.
        exact Hbusy.
    + destruct k as [|k]; simpl in *.
      * unfold candidate in Hfree. rewrite Nat.add_0_r in Hfree. exact Hfree.
      * unfold candidate in *; simpl.
        replace (S (uuid_drawn w + k))%nat with (uuid_drawn w + S k)%nat by lia.
        exact Hfree.
Qed.

Lemma generate_pickup_code_first_unused (w : World) (k fuel : nat) :
  first_unused uuid4 w k ->
  generate_pickup_code uuid4 fuel w
  = if (k <=? fuel)%nat then Some (candidate uuid4 w k, drawn (S k) w) else None.
Proof.
  intros [Hbusy Hfree]. unfold generate_pickup_code, draw_uuid.
  set (w1 := {| db := db w; uuid_drawn := S (uuid_drawn w) |}).
  assert (Hc : forall i, candidate uuid4 w (S i) = candidate uuid4 w1 i).
  { intros i. unfold candidate, w1; simpl. f_equal. f_equal. lia. }
  assert (Hc0 : prefix8 (uuid4 (uuid_drawn w)) = candidate uuid4 w O).
  { unfold candidate. now rewrite Nat.add_0_r. }
  rewrite (regenerate_runs k fuel w1).
  - assert (Hd : drawn k w1 = drawn (S k) w).
    { unfold drawn, w1; simpl. f_equal. lia. }
    rewrite Hd. destruct k; [rewrite Hc0 | rewrite <- Hc]; reflexivity.
  - intros i Hi. specialize (Hbusy i Hi).
    destruct i; [rewrite Hc0 | rewrite <- Hc]; exact Hbusy.
  - destruct k; [rewrite Hc0 | rewrite <- Hc]; exact Hfree.
Qed.

Lemma regenerate_never (fuel : nat) :
  forall (w : World) (code : string),
    pickup_code_taken w code = true ->
    (forall i, pickup_code_taken w (candidate uuid4 w i) = true) ->
    regenerate uuid4 fuel w code = None.
Proof.
  induction fuel as [|fuel IH]; intros w code H0 Hall; simpl; rewrite H0;
    [reflexivity|].
  apply IH.
  - specialize (Hall O). unfold candidate in Hall.
    rewrite Nat.add_0_r in Hall. exact Hall.
  - intros i. specialize (Hall (S i)). unfold candidate in *; simpl.
    replace (S (uuid_drawn w + i))%nat with (uuid_drawn w + S i)%nat by lia.
    exact Hall.
Qed.

Lemma generate_pickup_code_never (w : World) (fuel : nat) :
  (forall i, pickup_code_taken w (candidate uuid4 w i) = true) ->
  generate_pickup_code uuid4 fuel w = None.
Proof.
  intros Hall. unfold generate_pickup_code, draw_uuid.
  apply regenerate_never.
  - specialize (Hall O). unfold candidate in Hall.
    rewrite Nat.add_0_r in Hall. exact Hall.
  - intros i. specialize (Hall (S i)). unfold candidate in *; simpl.
    replace (S (uuid_drawn w + i))%nat with (uuid_drawn w + S i)%nat by lia.
    exact Hall.
Qed.

(** ** placeOrder *)

Lemma get_surprise_bag_id (w : World) (bag_id : Z) (b : SurpriseBag.t) :
  get_surprise_bag w bag_id = Some b -> SurpriseBag.id b = bag_id.
Proof.
  unfold get_surprise_bag. intros H. apply find_some in H.
  destruct H as [_ H]. now apply Z.eqb_eq.
Qed.

Lemma create_order_success (fuel : nat) (now : datetime) (w : World)
  (order : OrderCreate.t) (customer_id : Z) (b : SurpriseBag.t) (k : nat) :
  get_surprise_bag w (OrderCreate.bag_id order) = Some b ->
  SurpriseBag.is_active b = true ->
  SurpriseBag.quantity_sold b < SurpriseBag.quantity_available b ->
  first_unused uuid4 w k -> (k <= fuel)%nat ->
  unused_order_id w (uuid4 (uuid_drawn w + S k)%nat) ->
  unused_notification_id w (uuid4 (uuid_drawn w + S (S k))%nat) ->
  exists o n w',
    create_order uuid4 fuel now w order customer_id = Some (Return o, w')
    /\ get_surprise_bag w' (OrderCreate.bag_id order)
       = Some (SurpriseBag.set_quantity_sold (SurpriseBag.quantity_sold b + 1) b)
    /\ (forall other, other <> OrderCreate.bag_id order ->
          get_surprise_bag w' other = get_surprise_bag w other)
    /\ orders (db w') = (orders (db w) ++ [o])%list
    /\ Order.status o = OrderStatus.pending
    /\ Order.total_price o = numeric_10_2 (OrderCreate.total_price order)
    /\ Order.customer_id o = Some customer_id
    /\ Order.bag_id o = OrderCreate.bag_id order
    /\ Order.pickup_code o = candidate uuid4 w k
    /\ notifications (db w') = (notifications (db w) ++ [n])%list
    /\ Notification.type n = NotificationType.order_confirmation
    /\ Notification.user_id n = customer_id
    /\ contains (Order.pickup_code o) (Notification.message n).
Proof.
  intros Hsome Hon Hroom Hfirst Hfuel Hoid Hnid.
  pose proof (get_surprise_bag_id _ _ _ Hsome) as Hid.
  assert (Hcode : mem_string (candidate uuid4 w k) (pickup_codes (db w)) = false).
  { rewrite <- pickup_code_taken_mem. apply Hfirst. }
  apply mem_string_false in Hoid. apply mem_string_false in Hnid.
  unfold create_order. rewrite Hsome, Hon. simpl.
  assert (E : (SurpriseBag.quantity_available b <=? SurpriseBag.quantity_sold b) = false)
    by (apply Z.leb_gt; lia).
  rewrite E, (generate_pickup_code_first_unused w k fuel Hfirst).
  assert (Ek : (k <=? fuel)%nat = true) by (apply Nat.leb_le; lia).
  rewrite Ek. unfold draw_uuid, commit, flush, apply_change, drawn.
  unfold order_ids, pickup_codes, notification_ids in *. simpl.
  rewrite Hoid, Hcode. simpl.
  replace (S (uuid_drawn w + S k))%nat with (uuid_drawn w + S (S k))%nat by lia.
  rewrite Hnid. simpl.
  eexists _, _, _. split; [reflexivity|].
  unfold get_surprise_bag, with_db. cbn [db surprise_bags orders notifications]. rewrite Hid.
  repeat split.
  + rewrite find_update_where by reflexivity.
    fold (get_surprise_bag w (OrderCreate.bag_id order)). rewrite Hsome. simpl.
    unfold get_surprise_bag in Hsome. apply find_some in Hsome.
    destruct Hsome as [_ Hb]. now rewrite Hb.
  + intros other Hother. rewrite find_update_where by reflexivity.
    destruct (find (fun b0 => SurpriseBag.id b0 =? other) (surprise_bags (db w)))
      as [r|] eqn:Hr; simpl; [|reflexivity].
    apply find_some in Hr. destruct Hr as [_ Hr]. apply Z.eqb_eq in Hr.
    assert (Hne : (SurpriseBag.id r =? OrderCreate.bag_id order) = false)
      by (apply Z.eqb_neq; congruence).
    now rewrite Hne.
  + apply order_confirmation_mentions_code.
Qed.


(** ** The pickup-code loop *)

(** C4, as the code has it.  The loop has no retry bound and raises no
    conflict: it runs its body once per colliding candidate.  When the first
    [k] candidates are taken and the next is not, it ends after exactly [k]
    regenerations ([k + 1] draws) with that unused code, and [fuel < k] runs
    of the body do not finish it; when every candidate is taken it never
    ends. *)
Theorem pickup_code_loop_runs_until_unused :
  forall (w : World),
    (forall k, first_unused uuid4 w k ->
       forall fuel,
         generate_pickup_code uuid4 fuel w
         = if (k <=? fuel)%nat
           then Some (candidate uuid4 w k, drawn (S k) w)
           else None)
    /\ ((forall i, pickup_code_taken w (candidate uuid4 w i) = true) ->
        forall fuel, generate_pickup_code uuid4 fuel w = None).
Proof.
  intros w. split.
  - intros k Hk fuel. now apply generate_pickup_code_first_unused.
  - intros Hall fuel. now apply generate_pickup_code_never.
Qed.

(** ** cancelOrder and updateStatus *)

Lemma owned_order_assign (order_id : string) (customer_id : Z)
  (s : OrderStatus.t) (d : datetime) (o : Order.t) :
  owned_order order_id customer_id (Order.set_updated_at d (Order.set_status s o))
  = owned_order order_id customer_id o.
Proof. reflexivity. Qed.

Lemma owned_order_found (order_id : string) (customer_id : Z) (rows : list Order.t)
  (o : Order.t) :
  find (owned_order order_id customer_id) rows = Some o ->
  In o rows /\ Order.order_id o = order_id /\ Order.customer_id o = Some customer_id.
Proof.
  intros H. apply find_some in H. destruct H as [Hin H].
  unfold owned_order, customer_is in H. apply andb_true_iff in H.
  destruct H as [H1 H2]. apply String.eqb_eq in H1.
  destruct (Order.customer_id o) as [c|]; [|discriminate].
  apply Z.eqb_eq in H2. subst. auto.
Qed.

Lemma owned_order_missing (order_id : string) (customer_id : Z) (rows : list Order.t) :
  find (owned_order order_id customer_id) rows = None <->
  (forall o, In o rows ->
     ~ (Order.order_id o = order_id /\ Order.customer_id o = Some customer_id)).
Proof.
  split.
  - intros H o Hin [H1 H2]. pose proof (find_none _ _ H o Hin) as Hf.
    unfold owned_order, customer_is in Hf. rewrite H1, H2 in Hf.
    now rewrite String.eqb_refl, Z.eqb_refl in Hf.
  - intros H. destruct (find (owned_order order_id customer_id) rows) as [o|] eqn:E;
      [|reflexivity].
    apply owned_order_found in E. destruct E as [Hin [H1 H2]].
    exfalso. apply (H o Hin). auto.
Qed.

Lemma find_owned_order_after_assign (order_id : string) (customer_id : Z)
  (s : OrderStatus.t) (d : datetime) (rows : list Order.t) (o : Order.t) :
  find (owned_order order_id customer_id) rows = Some o ->
  find (owned_order order_id customer_id)
       (update_where (fun x => String.eqb (Order.order_id x) (Order.order_id o))
          (fun x => Order.set_updated_at d (Order.set_status s x)) rows)
  = Some (Order.set_updated_at d (Order.set_status s o)).
Proof.
  intros H. rewrite find_update_where by (intros; apply owned_order_assign).
  rewrite H. simpl. now rewrite String.eqb_refl.
Qed.

Lemma find_bag_after_set_same (k : Z) (f : SurpriseBag.t -> SurpriseBag.t)
  (rows : list SurpriseBag.t) (b : SurpriseBag.t) :
  (forall r, SurpriseBag.id (f r) = SurpriseBag.id r) ->
  find (fun r => SurpriseBag.id r =? k) rows = Some b ->
  find (fun r => SurpriseBag.id r =? k)
       (update_where (fun r => SurpriseBag.id r =? k) f rows) = Some (f b).
Proof.
  intros Hf H. rewrite find_update_where by (intros r; now rewrite Hf).
  rewrite H. simpl. apply find_some in H. destruct H as [_ H]. now rewrite H.
Qed.

Lemma find_bag_after_set_other (k other : Z) (f : SurpriseBag.t -> SurpriseBag.t)
  (rows : list SurpriseBag.t) :
  (forall r, SurpriseBag.id (f r) = SurpriseBag.id r) ->
  other <> k ->
  find (fun r => SurpriseBag.id r =? other)
       (update_where (fun r => SurpriseBag.id r =? k) f rows)
  = find (fun r => SurpriseBag.id r =? other) rows.
Proof.
  intros Hf Hne. rewrite find_update_where by (intros r; now rewrite Hf).
  destruct (find (fun r => SurpriseBag.id r =? other) rows) as [x|] eqn:Hx;
    simpl; [|reflexivity].
  apply find_some in Hx. destruct Hx as [_ Hx]. apply Z.eqb_eq in Hx.
  assert (E : (SurpriseBag.id x =? k) = false) by (apply Z.eqb_neq; congruence).
  now rewrite E.
Qed.

Lemma delete_order_pending (now : datetime) (w : World) (order_id : string)
  (customer_id : Z) (o : Order.t) :
  find (owned_order order_id customer_id) (orders (db w)) = Some o ->
  Order.status o = OrderStatus.pending ->
  exists r w',
    delete_order uuid4 now w order_id customer_id = (r, w')
    /\ (forall b, get_surprise_bag w (Order.bag_id o) = Some b ->
          get_surprise_bag w' (Order.bag_id o)
          = Some (SurpriseBag.set_quantity_sold (SurpriseBag.quantity_sold b - 1) b))
    /\ (forall other, other <> Order.bag_id o ->
          get_surprise_bag w' other = get_surprise_bag w other)
    /\ orders (db w')
       = update_where (fun x => String.eqb (Order.order_id x) order_id)
           (fun x => Order.set_updated_at now
                       (Order.set_status OrderStatus.cancelled x))
           (orders (db w))
    /\ find (owned_order order_id customer_id) (orders (db w'))
       = Some (Order.set_updated_at now (Order.set_status OrderStatus.cancelled o))
    /\ uuid_drawn w' = S (uuid_drawn w)
    /\ (unused_notification_id w (uuid4 (uuid_drawn w)) ->
        r = Return {| message := "Order cancelled" |}
        /\ exists n,
             notifications (db w') = (notifications (db w) ++ [n])%list
             /\ Notification.notification_id n = uuid4 (uuid_drawn w)
             /\ Notification.type n = NotificationType.order_update
             /\ Notification.user_id n = customer_id
             /\ Notification.related_entity_id n = order_id).
Proof.
  intros Hfind Hpending.
  destruct (owned_order_found _ _ _ _ Hfind) as [_ [Hoid _]]. subst order_id.
  unfold delete_order. rewrite Hfind, Hpending. cbn [negb OrderStatus.eqb].
  set (assign := fun x => Order.set_updated_at now
                            (Order.set_status OrderStatus.cancelled x)).
  assert (Horders :
    find (owned_order (Order.order_id o) customer_id)
      (update_where (fun x => String.eqb (Order.order_id x) (Order.order_id o))
         assign (orders (db w))) = Some (assign o))
    by (now apply find_owned_order_after_assign).
  destruct (get_surprise_bag w (Order.bag_id o)) as [b|] eqn:Hbag.
  - pose proof (get_surprise_bag_id _ _ _ Hbag) as Hid.
    unfold commit, draw_uuid, with_db, notification_ids. simpl.
    match goal with |- context [mem_string ?a ?l] =>
      destruct (mem_string a l) eqn:Hmem end.
    all: eexists _, _; (split; [reflexivity|]).
    all: unfold get_surprise_bag; simpl; rewrite Hid.
    all: split;
      [ intros b0 Hb0; inversion Hb0; subst b0;
        now apply find_bag_after_set_same |].
    all: split;
      [ intros other Hother; now apply find_bag_after_set_other |].
    all: do 3 (split; [solve [reflexivity | exact Horders]|]).
    all: intros Hfresh; apply mem_string_false in Hfresh;
      unfold notification_ids in Hfresh, Hmem; simpl in Hmem.
    + congruence.
    + split; [reflexivity|]. eexists. repeat split.
  - unfold commit, draw_uuid, with_db, notification_ids. simpl.
    match goal with |- context [mem_string ?a ?l] =>
      destruct (mem_string a l) eqn:Hmem end.
    all: eexists _, _; (split; [reflexivity|]).
    all: split; [intros b0 Hb0; discriminate|].
    all: split; [intros other Hother; reflexivity|].
    all: do 3 (split; [solve [reflexivity | exact Horders]|]).
    all: intros Hfresh; apply mem_string_false in Hfresh;
      unfold notification_ids in Hfresh, Hmem; simpl in Hmem.
    + congruence.
    + split; [reflexivity|]. eexists. repeat split.
Qed.


(** C7. [update_order_status] answers 404 exactly when no order has that id
    and that customer.  Otherwise, whatever the order's current status and
    whatever the target, it stores the target status and the current time
    as [updated_at], touches no listing, and (the uuid drawn for the
    notification being unused) returns the updated order after appending
    one [order_update] notification for the customer. *)
Theorem update_order_status_outcomes :
  forall (now : datetime) (w : World) (order_id : string) (customer_id : Z)
         (status : OrderStatus.t),
    ((forall o, In o (orders (db w)) ->
        ~ (Order.order_id o = order_id /\ Order.customer_id o = Some customer_id)) ->
     update_order_status uuid4 format_status now w order_id customer_id status
     = (Raise (HTTPException 404 "Order not found or not authorized"), w))
    /\ (forall o,
          find (owned_order order_id customer_id) (orders (db w)) = Some o ->
          unused_notification_id w (uuid4 (uuid_drawn w)) ->
          exists n w',
            update_order_status uuid4 format_status now w order_id customer_id status
            = (Return (Order.set_updated_at now (Order.set_status status o)), w')
            /\ find (owned_order order_id customer_id) (orders (db w'))
               = Some (Order.set_updated_at now (Order.set_status status o))
            /\ Order.status (Order.set_updated_at now (Order.set_status status o))
               = status
            /\ Order.updated_at (Order.set_updated_at now (Order.set_status status o))
               = now
            /\ surprise_bags (db w') = surprise_bags (db w)
            /\ notifications (db w') = (notifications (db w) ++ [n])%list
            /\ Notification.type n = NotificationType.order_update
            /\ Notification.user_id n = customer_id
            /\ Notification.related_entity_id n = order_id).
Proof.
  intros now w order_id customer_id status. split.
  - intros Hnone. apply owned_order_missing in Hnone.
    unfold update_order_status. now rewrite Hnone.
  - intros o Hfind Hfresh.
    destruct (owned_order_found _ _ _ _ Hfind) as [_ [Hoid _]]. subst order_id.
    apply mem_string_false in Hfresh. unfold notification_ids in Hfresh.
    unfold update_order_status. rewrite Hfind.
    unfold commit, draw_uuid, with_db. simpl. unfold notification_ids. simpl.
    rewrite Hfresh. eexists _, _. split; [reflexivity|]. simpl.
    split; [now apply find_owned_order_after_assign|].
    repeat split.
Qed.

(** ** Ownership checks *)

Lemma unique_key_row {A K : Type} (key : A -> K) (rows : list A) (x y : A) :
  NoDup (map key rows) -> In x rows -> In y rows -> key x = key y -> x = y.
Proof.
  induction rows as [|r rows IH]; simpl; intros Hnd Hx Hy Hk; [contradiction|].
  inversion Hnd as [|? ? Hnotin Hnd']; subst.
  destruct Hx as [-> | Hx], Hy as [-> | Hy]; auto.
  - exfalso. apply Hnotin. rewrite Hk. now apply in_map.
  - exfalso. apply Hnotin. rewrite <- Hk. now apply in_map.
Qed.

Lemma owned_notification_found (w : World) (n : Notification.t) :
  In n (notifications (db w)) ->
  exists x,
    find (owned_notification (Notification.notification_id n) (Notification.user_id n))
         (notifications (db w)) = Some x.
Proof.
  intros Hin.
  destruct (find (owned_notification (Notification.notification_id n)
                    (Notification.user_id n)) (notifications (db w))) as [x|] eqn:E;
    [now exists x|].
  pose proof (find_none _ _ E n Hin) as Hf. unfold owned_notification in Hf.
  now rewrite String.eqb_refl, Z.eqb_refl in Hf.
Qed.

Lemma owned_notification_not_found (w : World) (n : Notification.t) (user_id : Z) :
  NoDup (notification_ids (db w)) ->
  In n (notifications (db w)) ->
  Notification.user_id n <> user_id ->
  find (owned_notification (Notification.notification_id n) user_id)
       (notifications (db w)) = None.
Proof.
  intros Hnd Hin Hne.
  destruct (find (owned_notification (Notification.notification_id n) user_id)
              (notifications (db w))) as [x|] eqn:E; [|reflexivity].
  apply find_some in E. destruct E as [Hx E]. unfold owned_notification in E.
  apply andb_true_iff in E. destruct E as [E1 E2].
  apply String.eqb_eq in E1. apply Z.eqb_eq in E2.
  assert (x = n) by (eapply unique_key_row; eauto). subst x. contradiction.
Qed.

Lemma owned_notification_absent (w : World) (notification_id : string) (user_id : Z) :
  ~ In notification_id (notification_ids (db w)) ->
  find (owned_notification notification_id user_id) (notifications (db w)) = None.
Proof.
  intros Hno.
  destruct (find (owned_notification notification_id user_id)
              (notifications (db w))) as [x|] eqn:E; [|reflexivity].
  apply find_some in E. destruct E as [Hx E]. unfold owned_notification in E.
  apply andb_true_iff in E. destruct E as [E1 _]. apply String.eqb_eq in E1.
  exfalso. apply Hno. unfold notification_ids. rewrite <- E1. now apply in_map.
Qed.

(** C8. [read_order] returns the order with the given id exactly when its
    [customer_id] is the caller's id; marking a notification read and
    deleting it succeed exactly when its [user_id] is the caller's id
    (notification ids being unique, as the primary key has it).  In every
    other case, entity absent or owned by someone else, the answer is the
    same 404. *)
Theorem ownership_conflated_with_existence :
  forall (w : World) (current_user : User.t),
    (forall order_id o,
       get_order w order_id = Some o ->
       (read_order w order_id current_user = Return o
        <-> Order.customer_id o = Some (User.id current_user))
       /\ (Order.customer_id o <> Some (User.id current_user) ->
           read_order w order_id current_user
           = Raise (HTTPException 404 "Order not found or not authorized")))
    /\ (forall order_id,
          get_order w order_id = None ->
          read_order w order_id current_user
          = Raise (HTTPException 404 "Order not found or not authorized"))
    /\ (NoDup (notification_ids (db w)) ->
        forall n,
          In n (notifications (db w)) ->
          ((exists m w',
              mark_notification_as_read w (Notification.notification_id n)
                (User.id current_user) = (Return m, w'))
           <-> Notification.user_id n = User.id current_user)
          /\ ((exists m w',
                 delete_notification w (Notification.notification_id n)
                   (User.id current_user) = (Return m, w'))
              <-> Notification.user_id n = User.id current_user)
          /\ (Notification.user_id n <> User.id current_user ->
              mark_notification_as_read w (Notification.notification_id n)
                (User.id current_user)
              = (Raise (HTTPException 404 "Notification not found or not authorized"), w)
              /\ delete_notification w (Notification.notification_id n)
                   (User.id current_user)
                 = (Raise (HTTPException 404 "Notification not found or not authorized"), w)))
    /\ (forall notification_id,
          ~ In notification_id (notification_ids (db w)) ->
          mark_notification_as_read w notification_id (User.id current_user)
          = (Raise (HTTPException 404 "Notification not found or not authorized"), w)
          /\ delete_notification w notification_id (User.id current_user)
             = (Raise (HTTPException 404 "Notification not found or not authorized"), w)).
Proof.
  intros w current_user. split; [|split; [|split]].
  - intros order_id o Hget. unfold read_order. rewrite Hget.
    unfold customer_is. destruct (Order.customer_id o) as [c|]; simpl.
    + destruct (c =? User.id current_user) eqn:E; simpl.
      * apply Z.eqb_eq in E. subst c. split; [tauto | congruence].
      * apply Z.eqb_neq in E. split; [|reflexivity].
        split; intros H; [discriminate | congruence].
    + split; [|reflexivity]. split; intros H; discriminate.
  - intros order_id Hget. unfold read_order. now rewrite Hget.
  - intros Hnd n Hin.
    assert (Hfail : Notification.user_id n <> User.id current_user ->
              mark_notification_as_read w (Notification.notification_id n)
                (User.id current_user)
              = (Raise (HTTPException 404 "Notification not found or not authorized"), w)
              /\ delete_notification w (Notification.notification_id n)
                   (User.id current_user)
                 = (Raise (HTTPException 404 "Notification not found or not authorized"), w)).
    { intros Hne. unfold mark_notification_as_read, delete_notification.
      now rewrite (owned_notification_not_found w n _ Hnd Hin Hne). }
    assert (Hdec : Notification.user_id n = User.id current_user
                   \/ Notification.user_id n <> User.id current_user) by lia.
    split; [|split]; [| |exact Hfail].
    + split.
      * intros [m [w' H]]. destruct Hdec as [|Hne]; [assumption|].
        destruct (Hfail Hne) as [H1 _]. rewrite H1 in H. discriminate.
      * intros Hu. destruct (owned_notification_found w n Hin) as [x Hx].
        rewrite Hu in Hx. unfold mark_notification_as_read. rewrite Hx.
        simpl. eauto.
    + split.
      * intros [m [w' H]]. destruct Hdec as [|Hne]; [assumption|].
        destruct (Hfail Hne) as [_ H2]. rewrite H2 in H. discriminate.
      * intros Hu. destruct (owned_notification_found w n Hin) as [x Hx].
        rewrite Hu in Hx. unfold delete_notification. rewrite Hx.
        simpl. eauto.
  - intros notification_id Hno.
    unfold mark_notification_as_read, delete_notification.
    now rewrite (owned_notification_absent w notification_id _ Hno).
Qed.

(** ** Listings *)

(** C9, as the code has it.  Without a business profile for the caller
    [create_surprise_bag] answers 404 before looking at the payload.  With
    one, it answers 400 when [discount_price >= original_price] and 400 when
    [pickup_end <= pickup_start].  In each of these failures the world is
    returned as it was: no listing is stored, no notification is added. *)
Theorem create_surprise_bag_validation :
  forall (now : datetime) (w : World) (bag : SurpriseBagCreate.t) (business_id : Z),
    (find (fun b => BusinessOwner.owner_id b =? business_id)
          (business_owners (db w)) = None ->
     create_surprise_bag uuid4 now w bag business_id
     = (Raise (HTTPException 404 "Business not found"), w))
    /\ (forall db_business,
          find (fun b => BusinessOwner.owner_id b =? business_id)
               (business_owners (db w)) = Some db_business ->
          ((SurpriseBagCreate.discount_price bag >= SurpriseBagCreate.original_price bag)%Q ->
           create_surprise_bag uuid4 now w bag business_id
           = (Raise (HTTPException 400
                       "Discount price must be less than original price"), w))
          /\ (SurpriseBagCreate.pickup_end bag <= SurpriseBagCreate.pickup_start bag ->
              exists detail,
                create_surprise_bag uuid4 now w bag business_id
                = (Raise (HTTPException 400 detail), w))).
Proof.
  intros now w bag business_id. split.
  - intros Hnone. unfold create_surprise_bag. now rewrite Hnone.
  - intros db_business Hsome. split.
    + intros Hprice. apply Qle_bool_iff in Hprice.
      unfold create_surprise_bag. now rewrite Hsome, Hprice.
    + intros Htime. apply Z.leb_le in Htime.
      unfold create_surprise_bag. rewrite Hsome, Htime.
      destruct (Qle_bool (SurpriseBagCreate.original_price bag)
                  (SurpriseBagCreate.discount_price bag)); eauto.
Qed.

Lemma update_surprise_bag_accepts (w : World) (bag_id business_id : Z)
  (bag_update : SurpriseBagCreate.t) (b : SurpriseBag.t) :
  find (owned_bag bag_id business_id) (surprise_bags (db w)) = Some b ->
  fits_integer (SurpriseBagCreate.quantity_available bag_update) = true ->
  update_surprise_bag w bag_id business_id bag_update
  = (Return (assign_fields bag_update b),
     with_db w
       {| users := users (db w); business_owners := business_owners (db w);
          surprise_bags :=
            update_where (fun r => SurpriseBag.id r =? SurpriseBag.id b)
              (assign_fields bag_update) (surprise_bags (db w));
          orders := orders (db w); notifications := notifications (db w);
          surprise_bags_id_seq := surprise_bags_id_seq (db w) |}).
Proof.
  intros H Hfits. unfold update_surprise_bag. rewrite H, Hfits. reflexivity.
Qed.

(** ** What every flush preserves *)

Lemma NoDup_snoc {A : Type} (l : list A) (x : A) :
  NoDup l -> ~ In x l -> NoDup (l ++ [x]).
Proof.
  intros Hl Hx. apply NoDup_app; [assumption | repeat constructor; auto |].
  intros a Ha [<- | []]. contradiction.
Qed.

Lemma NoDup_map_filter {A K : Type} (key : A -> K) (p : A -> bool) (l : list A) :
  NoDup (map key l) -> NoDup (map key (filter p l)).
Proof.
  induction l as [|a l IH]; simpl; intros H; [constructor|].
  inversion H as [|? ? Hnotin Hl]; subst.
  destruct (p a); simpl; auto. constructor; auto.
  intros Hin. apply Hnotin. apply in_map_iff in Hin.
  destruct Hin as [x [Hx Hf]]. apply filter_In in Hf.
  apply in_map_iff. exists x. tauto.
Qed.

Lemma apply_change_constraints (c : change) (d d' : Database) :
  keeps_keys c -> apply_change c d = Some d' ->
  constraints_hold d -> constraints_hold d'.
Proof.
  intros Hk Happ [Hb Ho Hp Hn]. destruct c; simpl in *.
  - destruct (mem_Z (SurpriseBag.id b) (bag_ids d)) eqn:E; [discriminate|].
    inversion Happ; subst. apply mem_Z_false in E.
    constructor; auto. unfold bag_ids in *; simpl.
    rewrite map_app. now apply NoDup_snoc.
  - inversion Happ; subst. constructor; auto.
    unfold bag_ids; simpl. now rewrite map_update_where.
  - destruct (mem_string (Order.order_id o) (order_ids d)) eqn:E1;
      [discriminate|].
    destruct (mem_string (Order.pickup_code o) (pickup_codes d)) eqn:E2;
      [discriminate|].
    inversion Happ; subst. apply mem_string_false in E1, E2.
    constructor; auto; unfold order_ids, pickup_codes in *; simpl;
      rewrite map_app; now apply NoDup_snoc.
  - inversion Happ; subst.
    constructor; auto; unfold order_ids, pickup_codes; simpl;
      rewrite map_update_where; auto; intros r; apply Hk.
  - destruct (mem_string (Notification.notification_id n) (notification_ids d))
      eqn:E; [discriminate|].
    inversion Happ; subst. apply mem_string_false in E.
    constructor; auto. unfold notification_ids in *; simpl.
    rewrite map_app. now apply NoDup_snoc.
  - inversion Happ; subst. constructor; auto.
    unfold notification_ids; simpl. now rewrite map_update_where.
  - inversion Happ; subst. constructor; auto.
    unfold notification_ids; simpl. now apply NoDup_map_filter.
Qed.

Lemma apply_change_pickup_codes (c : change) (d d' : Database) :
  keeps_keys c -> apply_change c d = Some d' ->
  NoDup (pickup_codes d) ->
  NoDup (pickup_codes d')
  /\ exists later, order_ids d' = (order_ids d ++ later)%list.
Proof.
  intros Hk Happ Hp. destruct c; simpl in *;
    try (inversion Happ; subst; split; [assumption | exists []; now rewrite app_nil_r]).
  - destruct (mem_Z (SurpriseBag.id b) (bag_ids d)); [discriminate|].
    inversion Happ; subst. split; [assumption | exists []; now rewrite app_nil_r].
  - destruct (mem_string (Order.order_id o) (order_ids d)); [discriminate|].
    destruct (mem_string (Order.pickup_code o) (pickup_codes d)) eqn:E2;
      [discriminate|].
    inversion Happ; subst. apply mem_string_false in E2.
    unfold order_ids, pickup_codes in *; simpl. rewrite !map_app. split.
    + now apply NoDup_snoc.
    + now exists [Order.order_id o].
  - inversion Happ; subst. unfold order_ids, pickup_codes; simpl.
    rewrite !map_update_where by (intros r; apply Hk).
    split; [assumption | exists []; now rewrite app_nil_r].
  - destruct (mem_string (Notification.notification_id n) (notification_ids d));
      [discriminate|].
    inversion Happ; subst. split; [assumption | exists []; now rewrite app_nil_r].
Qed.

Lemma apply_change_tables (c : change) (d d' : Database) :
  apply_change c d = Some d' ->
  surprise_bags d' = bags_after c (surprise_bags d)
  /\ orders d' = orders_after c (orders d)
  /\ notifications d' = notifications_after c (notifications d)
  /\ users d' = users d
  /\ business_owners d' = business_owners d.
Proof.
  destruct c; simpl; intros H;
    repeat match type of H with
           | context [if ?x then _ else _] => destruct x; [discriminate|]
           end;
    inversion H; subst; simpl; auto.
Qed.

Lemma flush_tables (changes : list change) :
  forall (d d' : Database),
    flush changes d = Some d' ->
    surprise_bags d' = fold_left (fun l c => bags_after c l) changes (surprise_bags d)
    /\ orders d' = fold_left (fun l c => orders_after c l) changes (orders d)
    /\ notifications d'
       = fold_left (fun l c => notifications_after c l) changes (notifications d)
    /\ users d' = users d
    /\ business_owners d' = business_owners d.
Proof.
  induction changes as [|c cs IH]; simpl; intros d d' H.
  - inversion H; subst; auto.
  - destruct (apply_change c d) as [d1|] eqn:E; [|discriminate].
    apply apply_change_tables in E. destruct E as (E1 & E2 & E3 & E4 & E5).
    apply IH in H. destruct H as (H1 & H2 & H3 & H4 & H5).
    rewrite <- E1, <- E2, <- E3, <- E4, <- E5. auto.
Qed.

Lemma commit_tables (changes : list change) (w w' : World) :
  commit changes w = Some w' ->
  surprise_bags (db w')
  = fold_left (fun l c => bags_after c l) changes (surprise_bags (db w))
  /\ orders (db w')
     = fold_left (fun l c => orders_after c l) changes (orders (db w))
  /\ notifications (db w')
     = fold_left (fun l c => notifications_after c l) changes (notifications (db w))
  /\ uuid_drawn w' = uuid_drawn w.
Proof.
  unfold commit. intros H.
  destruct (flush changes (db w)) as [d'|] eqn:E; [|discriminate].
  inversion H; subst. simpl. apply flush_tables in E. tauto.
Qed.

Lemma db_evolves_constraints (d d' : Database) :
  db_evolves d d' -> constraints_hold d -> constraints_hold d'.
Proof.
  induction 1 as [d | d changes d1 d' Hkeys Hflush _ IH]; [auto|].
  intros Hd. apply IH. clear IH.
  revert d Hflush Hd. induction Hkeys as [|c cs Hc _ IHcs]; simpl; intros d Hflush Hd.
  - now inversion Hflush; subst.
  - destruct (apply_change c d) as [d2|] eqn:E; [|discriminate].
    eapply IHcs; eauto using apply_change_constraints.
Qed.

Lemma db_evolves_pickup_codes (d d' : Database) :
  db_evolves d d' -> NoDup (pickup_codes d) ->
  NoDup (pickup_codes d')
  /\ exists later, order_ids d' = (order_ids d ++ later)%list.
Proof.
  induction 1 as [d | d changes d1 d' Hkeys Hflush _ IH].
  - intros H. split; [assumption | exists []; now rewrite app_nil_r].
  - intros Hd.
    assert (H1 : NoDup (pickup_codes d1)
                 /\ exists later, order_ids d1 = (order_ids d ++ later)%list).
    { clear IH. revert d Hflush Hd.
      induction Hkeys as [|c cs Hc _ IHcs]; simpl; intros d Hflush Hd.
      - inversion Hflush; subst. split; [assumption | exists []; now rewrite app_nil_r].
      - destruct (apply_change c d) as [d2|] eqn:E; [|discriminate].
        destruct (apply_change_pickup_codes c d d2 Hc E Hd) as [Hd2 [l2 Hl2]].
        destruct (IHcs d2 Hflush Hd2) as [Hd1 [l1 Hl1]].
        split; [assumption|]. exists (l2 ++ l1)%list.
        now rewrite Hl1, Hl2, app_assoc. }
    destruct H1 as [Hd1 [l1 Hl1]]. destruct (IH Hd1) as [Hd' [l' Hl']].
    split; [assumption|]. exists (l1 ++ l')%list.
    now rewrite Hl', Hl1, app_assoc.
Qed.

Lemma db_evolves_trans (d1 d2 d3 : Database) :
  db_evolves d1 d2 -> db_evolves d2 d3 -> db_evolves d1 d3.
Proof.
  induction 1; auto. intros H3. econstructor; eauto.
Qed.

Lemma commit_evolves (changes : list change) (w w1 : World) :
  Forall keeps_keys changes -> commit changes w = Some w1 ->
  db_evolves (db w) (db w1).
Proof.
  unfold commit. intros Hk H.
  destruct (flush changes (db w)) as [d1|] eqn:E; [|discriminate].
  inversion H; subst. simpl. econstructor; eauto. constructor.
Qed.

(** ** What every operation preserves *)

Lemma regenerate_db (fuel : nat) :
  forall (w : World) (code : string) (c : string) (w' : World),
    regenerate uuid4 fuel w code = Some (c, w') ->
    db w' = db w /\ pickup_code_taken w c = false.
Proof.
  induction fuel as [|fuel IH]; intros w code c w'; simpl;
    destruct (pickup_code_taken w code) eqn:E; try discriminate.
  - intros H; inversion H; subst; auto.
  - intros H. apply IH in H. exact H.
  - intros H; inversion H; subst; auto.
Qed.

Lemma generate_pickup_code_db (fuel : nat) (w : World) (c : string) (w' : World) :
  generate_pickup_code uuid4 fuel w = Some (c, w') ->
  db w' = db w /\ pickup_code_taken w c = false.
Proof.
  unfold generate_pickup_code, draw_uuid. intros H.
  apply regenerate_db in H. exact H.
Qed.

Lemma keeps_keys_insert_notifications (l : list Notification.t) :
  Forall keeps_keys (map InsertNotification l).
Proof. induction l; simpl; constructor; simpl; auto. Qed.

Lemma new_bag_notifications_db (now : datetime) (db_bag : SurpriseBag.t)
  (db_business : BusinessOwner.t) (customers : list User.t) :
  forall (w : World),
    db (snd (new_bag_notifications uuid4 now db_bag db_business customers w)) = db w.
Proof.
  induction customers as [|c l IH]; intros w; simpl; [reflexivity|].
  destruct (new_bag_notifications uuid4 now db_bag db_business l
              {| db := db w; uuid_drawn := S (uuid_drawn w) |}) as [more w2] eqn:E.
  simpl. specialize (IH {| db := db w; uuid_drawn := S (uuid_drawn w) |}).
  now rewrite E in IH.
Qed.

Ltac split_matches H :=
  repeat match type of H with
         | context [match ?x with _ => _ end] => destruct x eqn:?
         end.

Ltac keys_kept :=
  simpl; repeat constructor; simpl; auto using keeps_keys_insert_notifications.

Ltac use_commits :=
  repeat match goal with
         | H : commit ?cs ?w = Some ?w1 |- _ =>
             apply commit_evolves in H; [simpl in H | solve [keys_kept]]
         end.

Lemma create_order_evolves (fuel : nat) (now : datetime) (w : World)
  (order : OrderCreate.t) (customer_id : Z) (r : result Order.t) (w' : World) :
  create_order uuid4 fuel now w order customer_id = Some (r, w') ->
  db_evolves (db w) (db w').
Proof.
  unfold create_order. intros H.
  destruct (get_surprise_bag w (OrderCreate.bag_id order)) as [b|];
    [|inversion H; constructor].
  destruct (negb (SurpriseBag.is_active b)); [inversion H; constructor|].
  destruct (SurpriseBag.quantity_available b <=? SurpriseBag.quantity_sold b);
    [inversion H; constructor|].
  destruct (generate_pickup_code uuid4 fuel w) as [[code w1]|] eqn:G;
    [|discriminate].
  apply generate_pickup_code_db in G. destruct G as [G _].
  unfold draw_uuid in H. simpl in H. rewrite G in H.
  split_matches H; inversion H; subst; use_commits; simpl;
    eauto using db_evolves_trans, db_evolves_refl.
Qed.

Lemma delete_order_evolves (now : datetime) (w : World) (order_id : string)
  (customer_id : Z) :
  db_evolves (db w) (db (snd (delete_order uuid4 now w order_id customer_id))).
Proof.
  unfold delete_order.
  destruct (find (owned_order order_id customer_id) (orders (db w))) as [o|];
    [|constructor].
  destruct (negb (OrderStatus.eqb (Order.status o) OrderStatus.pending));
    [constructor|].
  unfold draw_uuid.
  destruct (get_surprise_bag w (Order.bag_id o)) as [b|]; cbv zeta;
    match goal with |- context [commit ?cs w] =>
      destruct (commit cs w) as [w1|] eqn:C1 end; cbv beta iota zeta;
    try (simpl; constructor);
    match goal with |- context [commit ?cs ?x] =>
      destruct (commit cs x) as [w2|] eqn:C2 end; simpl;
    use_commits; eauto using db_evolves_trans, db_evolves_refl.
Qed.

Lemma update_order_status_evolves (now : datetime) (w : World) (order_id : string)
  (customer_id : Z) (status : OrderStatus.t) :
  db_evolves (db w)
    (db (snd (update_order_status uuid4 format_status now w order_id
                customer_id status))).
Proof.
  unfold update_order_status.
  destruct (find (owned_order order_id customer_id) (orders (db w))) as [o|];
    [|constructor].
  unfold draw_uuid. cbv zeta.
  match goal with |- context [commit ?cs w] =>
    destruct (commit cs w) as [w1|] eqn:C1 end; cbv beta iota zeta;
    try (simpl; constructor);
    match goal with |- context [commit ?cs ?x] =>
      destruct (commit cs x) as [w2|] eqn:C2 end; simpl;
    use_commits; eauto using db_evolves_trans, db_evolves_refl.
Qed.

Lemma create_surprise_bag_evolves (now : datetime) (w : World)
  (bag : SurpriseBagCreate.t) (business_id : Z) :
  db_evolves (db w) (db (snd (create_surprise_bag uuid4 now w bag business_id))).
Proof.
  unfold create_surprise_bag.
  destruct (find (fun b => BusinessOwner.owner_id b =? business_id)
              (business_owners (db w))) as [db_business|]; [|constructor].
  destruct (Qle_bool (SurpriseBagCreate.original_price bag)
              (SurpriseBagCreate.discount_price bag)); [constructor|].
  destruct (SurpriseBagCreate.pickup_end bag <=? SurpriseBagCreate.pickup_start bag);
    [constructor|].
  cbv zeta.
  destruct (fits_integer (SurpriseBagCreate.quantity_available bag));
    cbn [negb]; [|constructor].
  match goal with |- context [commit ?cs w] =>
    destruct (commit cs w) as [w1|] eqn:C1 end; [|constructor].
  match goal with |- context [new_bag_notifications ?u ?n ?b ?o ?c ?x] =>
    pose proof (new_bag_notifications_db n b o c x) as Hdb;
    destruct (new_bag_notifications u n b o c x) as [pending w2] eqn:N end.
  simpl in Hdb.
  match goal with |- context [commit ?cs w2] =>
    destruct (commit cs w2) as [w3|] eqn:C2 end; simpl;
    use_commits; rewrite ?Hdb in *;
    eauto using db_evolves_trans, db_evolves_refl.
Qed.

Lemma update_surprise_bag_evolves (w : World) (bag_id business_id : Z)
  (bag_update : SurpriseBagCreate.t) :
  db_evolves (db w) (db (snd (update_surprise_bag w bag_id business_id bag_update))).
Proof.
  unfold update_surprise_bag.
  destruct (find (owned_bag bag_id business_id) (surprise_bags (db w))) as [b|];
    [|constructor].
  destruct (fits_integer (SurpriseBagCreate.quantity_available bag_update));
    cbn [negb]; [|constructor].
  match goal with |- context [commit ?cs w] =>
    destruct (commit cs w) as [w1|] eqn:C1 end; simpl;
    use_commits; eauto using db_evolves_refl.
Qed.

Lemma delete_surprise_bag_evolves (w : World) (bag_id business_id : Z) :
  db_evolves (db w) (db (snd (delete_surprise_bag w bag_id business_id))).
Proof.
  unfold delete_surprise_bag.
  destruct (find (owned_bag bag_id business_id) (surprise_bags (db w))) as [b|];
    [|constructor].
  cbv zeta.
  match goal with |- context [if ?c then _ else _] => destruct c end;
    [constructor|].
  match goal with |- context [commit ?cs w] =>
    destruct (commit cs w) as [w1|] eqn:C1 end; simpl;
    use_commits; eauto using db_evolves_refl.
Qed.

Lemma mark_notification_as_read_evolves (w : World) (notification_id : string)
  (user_id : Z) :
  db_evolves (db w) (db (snd (mark_notification_as_read w notification_id user_id))).
Proof.
  unfold mark_notification_as_read.
  destruct (find (owned_notification notification_id user_id)
              (notifications (db w))) as [n|]; [|constructor].
  match goal with |- context [commit ?cs w] =>
    destruct (commit cs w) as [w1|] eqn:C1 end; simpl;
    use_commits; eauto using db_evolves_refl.
Qed.

Lemma delete_notification_evolves (w : World) (notification_id : string)
  (user_id : Z) :
  db_evolves (db w) (db (snd (delete_notification w notification_id user_id))).
Proof.
  unfold delete_notification.
  destruct (find (owned_notification notification_id user_id)
              (notifications (db w))) as [n|]; [|constructor].
  match goal with |- context [commit ?cs w] =>
    destruct (commit cs w) as [w1|] eqn:C1 end; simpl;
    use_commits; eauto using db_evolves_refl.
Qed.

Lemma step_evolves (w : World) (op : Op) (w' : World) :
  step uuid4 format_status w op w' -> db_evolves (db w) (db w').
Proof.
  intros [fuel now H]. destruct op; simpl in H.
  - destruct (create_order uuid4 fuel now w order customer_id) as [[r w1]|] eqn:E;
      [|discriminate].
    inversion H; subst. eapply create_order_evolves; eauto.
  - inversion H; subst. apply delete_order_evolves.
  - inversion H; subst. apply update_order_status_evolves.
  - inversion H; subst. apply create_surprise_bag_evolves.
  - inversion H; subst. apply update_surprise_bag_evolves.
  - inversion H; subst. apply delete_surprise_bag_evolves.
  - inversion H; subst. apply mark_notification_as_read_evolves.
  - inversion H; subst. apply delete_notification_evolves.
Qed.

(** The declared constraints survive every operation. *)
Lemma step_constraints (w : World) (op : Op) (w' : World) :
  step uuid4 format_status w op w' ->
  constraints_hold (db w) -> constraints_hold (db w').
Proof. intros H. apply db_evolves_constraints. now apply step_evolves in H. Qed.

(** C3. Along any run of service operations that starts where no two
    orders share a pickup code, every world visited has pairwise distinct
    pickup codes and still holds every order the start had (orders are
    never removed, cancelled ones included); and whenever [create_order]
    returns an order, its pickup code is that of no order stored before and
    the order is appended to the table. *)
Theorem pickup_codes_pairwise_distinct :
  forall (w0 : World) (ops : list Op) (ws : list World),
    NoDup (pickup_codes (db w0)) ->
    execution uuid4 format_status w0 ops ws ->
    Forall (fun w =>
              NoDup (pickup_codes (db w))
              /\ exists later,
                   order_ids (db w) = (order_ids (db w0) ++ later)%list) ws
    /\ (forall w fuel now order customer_id o w',
          In w (w0 :: ws) ->
          create_order uuid4 fuel now w order customer_id = Some (Return o, w') ->
          ~ In (Order.pickup_code o) (pickup_codes (db w))
          /\ orders (db w') = (orders (db w) ++ [o])%list).
Proof.
  intros w0 ops ws Hnd Hexec. split.
  - revert Hnd. induction Hexec as [w | w op w1 ops ws Hstep _ IH]; intros Hnd;
      [constructor|].
    apply step_evolves in Hstep.
    destruct (db_evolves_pickup_codes _ _ Hstep Hnd) as [Hnd1 [l1 Hl1]].
    constructor.
    + split; [assumption | now exists l1].
    + specialize (IH Hnd1). eapply Forall_impl; [|exact IH].
      intros x [Hx [l Hl]]. split; [assumption|].
      exists (l1 ++ l)%list. now rewrite Hl, Hl1, app_assoc.
  - intros w fuel now order customer_id o w' _ H.
    unfold create_order in H.
    destruct (get_surprise_bag w (OrderCreate.bag_id order)) as [b|];
      [|discriminate].
    destruct (negb (SurpriseBag.is_active b)); [discriminate|].
    destruct (SurpriseBag.quantity_available b <=? SurpriseBag.quantity_sold b);
      [discriminate|].
    destruct (generate_pickup_code uuid4 fuel w) as [[code w1]|] eqn:G;
      [|discriminate].
    apply generate_pickup_code_db in G. destruct G as [Gdb Gfree].
    rewrite pickup_code_taken_mem in Gfree. apply mem_string_false in Gfree.
    unfold draw_uuid in H. cbv zeta beta iota in H.
    match type of H with context [commit ?cs ?x] =>
      destruct (commit cs x) as [w2|] eqn:C1 end; [|discriminate].
    match type of H with context [commit ?cs ?x] =>
      destruct (commit cs x) as [w3|] eqn:C2 end; [|discriminate].
    inversion H; subst.
    apply commit_tables in C1, C2. simpl in C1, C2.
    destruct C1 as (_ & C1 & _). destruct C2 as (_ & C2 & _).
    rewrite C2, C1, Gdb. auto.
Qed.

(** ** The capacity invariant *)

Lemma stock_after_set (rows : list SurpriseBag.t) (b : SurpriseBag.t)
  (f : SurpriseBag.t -> SurpriseBag.t) :
  NoDup (map SurpriseBag.id rows) -> In b rows ->
  Forall within_stock rows -> within_stock (f b) ->
  Forall within_stock
    (update_where (fun r => SurpriseBag.id r =? SurpriseBag.id b) f rows).
Proof.
  intros Hnd Hb Hrows Hfb. apply Forall_update_where; [assumption|].
  intros r Hr E. apply Z.eqb_eq in E.
  assert (r = b) by (eapply unique_key_row; eauto). now subst.
Qed.

Lemma create_order_stock (fuel : nat) (now : datetime) (w : World)
  (order : OrderCreate.t) (customer_id : Z) (r : result Order.t) (w' : World) :
  create_order uuid4 fuel now w order customer_id = Some (r, w') ->
  NoDup (bag_ids (db w)) -> stock_invariant w -> stock_invariant w'.
Proof.
  unfold create_order, stock_invariant, bag_ids. intros H Hnd Hstock.
  destruct (get_surprise_bag w (OrderCreate.bag_id order)) as [b|] eqn:Hb;
    [|now inversion H; subst].
  destruct (negb (SurpriseBag.is_active b)); [now inversion H; subst|].
  destruct (SurpriseBag.quantity_available b <=? SurpriseBag.quantity_sold b) eqn:Hroom;
    [now inversion H; subst|].
  destruct (generate_pickup_code uuid4 fuel w) as [[code w1]|] eqn:G;
    [|discriminate].
  apply generate_pickup_code_db in G. destruct G as [Gdb _].
  apply Z.leb_gt in Hroom. unfold get_surprise_bag in Hb.
  apply find_some in Hb. destruct Hb as [Hin _].
  assert (Hset : Forall within_stock
            (update_where (fun r => SurpriseBag.id r =? SurpriseBag.id b)
               (SurpriseBag.set_quantity_sold (SurpriseBag.quantity_sold b + 1))
               (surprise_bags (db w)))).
  { apply stock_after_set; auto.
    rewrite Forall_forall in Hstock. specialize (Hstock b Hin).
    unfold within_stock in *. simpl. lia. }
  unfold draw_uuid in H. cbv zeta beta iota in H.
  match type of H with context [commit ?cs ?x] =>
    destruct (commit cs x) as [w2|] eqn:C1 end;
    [|inversion H; subst; simpl; now rewrite Gdb].
  apply commit_tables in C1. simpl in C1. destruct C1 as (C1 & _).
  rewrite Gdb in C1.
  match type of H with context [commit ?cs ?x] =>
    destruct (commit cs x) as [w3|] eqn:C2 end;
    [|inversion H; subst; simpl; now rewrite C1].
  apply commit_tables in C2. simpl in C2. destruct C2 as (C2 & _).
  inversion H; subst. now rewrite C2, C1.
Qed.

Lemma delete_order_stock (now : datetime) (w : World) (order_id : string)
  (customer_id : Z) :
  keeps_stock w (CancelOrder order_id customer_id) ->
  NoDup (bag_ids (db w)) -> stock_invariant w ->
  stock_invariant (snd (delete_order uuid4 now w order_id customer_id)).
Proof.
  unfold keeps_stock, delete_order, stock_invariant, bag_ids.
  intros Hguard Hnd Hstock.
  destruct (find (owned_order order_id customer_id) (orders (db w))) as [o|] eqn:Ho;
    [|assumption].
  destruct (OrderStatus.eqb (Order.status o) OrderStatus.pending) eqn:Hp;
    [|assumption].
  apply OrderStatus_eqb_eq in Hp. cbn [negb].
  specialize (Hguard o). unfold draw_uuid.
  destruct (get_surprise_bag w (Order.bag_id o)) as [b|] eqn:Hb; cbv zeta.
  - specialize (Hguard b eq_refl Hp eq_refl).
    unfold get_surprise_bag in Hb. apply find_some in Hb. destruct Hb as [Hin _].
    assert (Hset : Forall within_stock
              (update_where (fun r => SurpriseBag.id r =? SurpriseBag.id b)
                 (SurpriseBag.set_quantity_sold (SurpriseBag.quantity_sold b - 1))
                 (surprise_bags (db w)))).
    { apply stock_after_set; auto.
      rewrite Forall_forall in Hstock. specialize (Hstock b Hin).
      unfold within_stock in *. simpl. lia. }
    match goal with |- context [commit ?cs w] =>
      destruct (commit cs w) as [w1|] eqn:C1 end; [|assumption].
    apply commit_tables in C1. simpl in C1. destruct C1 as (C1 & _).
    cbv beta iota zeta.
    match goal with |- context [commit ?cs ?x] =>
      destruct (commit cs x) as [w2|] eqn:C2 end; simpl; [|now rewrite C1].
    apply commit_tables in C2. simpl in C2. destruct C2 as (C2 & _).
    now rewrite C2, C1.
  - match goal with |- context [commit ?cs w] =>
      destruct (commit cs w) as [w1|] eqn:C1 end; [|assumption].
    apply commit_tables in C1. simpl in C1. destruct C1 as (C1 & _).
    cbv beta iota zeta.
    match goal with |- context [commit ?cs ?x] =>
      destruct (commit cs x) as [w2|] eqn:C2 end; simpl; [|now rewrite C1].
    apply commit_tables in C2. simpl in C2. destruct C2 as (C2 & _).
    now rewrite C2, C1.
Qed.

Lemma update_order_status_bags (now : datetime) (w : World) (order_id : string)
  (customer_id : Z) (status : OrderStatus.t) :
  surprise_bags
    (db (snd (update_order_status uuid4 format_status now w order_id
                customer_id status)))
  = surprise_bags (db w).
Proof.
  unfold update_order_status.
  destruct (find (owned_order order_id customer_id) (orders (db w))) as [o|];
    [|reflexivity].
  unfold draw_uuid. cbv zeta.
  match goal with |- context [commit ?cs w] =>
    destruct (commit cs w) as [w1|] eqn:C1 end; [|reflexivity].
  apply commit_tables in C1. simpl in C1. destruct C1 as (C1 & _).
  cbv beta iota zeta.
  match goal with |- context [commit ?cs ?x] =>
    destruct (commit cs x) as [w2|] eqn:C2 end; simpl; [|assumption].
  apply commit_tables in C2. simpl in C2. destruct C2 as (C2 & _).
  now rewrite C2, C1.
Qed.

Lemma bags_after_insert_notifications (l : list Notification.t) :
  forall rows,
    fold_left (fun r c => bags_after c r) (map InsertNotification l) rows = rows.
Proof. induction l as [|n l IH]; simpl; auto. Qed.

Lemma create_surprise_bag_stock (now : datetime) (w : World)
  (bag : SurpriseBagCreate.t) (business_id : Z) :
  keeps_stock w (CreateListing bag business_id) ->
  stock_invariant w ->
  stock_invariant (snd (create_surprise_bag uuid4 now w bag business_id)).
Proof.
  unfold keeps_stock, create_surprise_bag, stock_invariant.
  intros Hvalid Hstock.
  destruct (find (fun b => BusinessOwner.owner_id b =? business_id)
              (business_owners (db w))) as [db_business|]; [|assumption].
  destruct (Qle_bool (SurpriseBagCreate.original_price bag)
              (SurpriseBagCreate.discount_price bag)); [assumption|].
  destruct (SurpriseBagCreate.pickup_end bag <=? SurpriseBagCreate.pickup_start bag);
    [assumption|].
  cbv zeta.
  destruct (fits_integer (SurpriseBagCreate.quantity_available bag));
    cbn [negb]; [|assumption].
  match goal with |- context [commit ?cs w] =>
    destruct (commit cs w) as [w1|] eqn:C1 end; [|assumption].
  apply commit_tables in C1. simpl in C1. destruct C1 as (C1 & _).
  assert (Hnew : Forall within_stock (surprise_bags (db w1))).
  { rewrite C1. apply Forall_app. split; [assumption|].
    constructor; [|constructor]. unfold within_stock; simpl.
    unfold SurpriseBagCreate.valid in Hvalid.
    apply andb_true_iff in Hvalid. destruct Hvalid as [_ Hq].
    apply Z.leb_le in Hq. lia. }
  match goal with |- context [new_bag_notifications ?u ?n ?b ?o ?c ?x] =>
    pose proof (new_bag_notifications_db n b o c x) as Hdb;
    destruct (new_bag_notifications u n b o c x) as [pending w2] eqn:N end.
  simpl in Hdb.
  match goal with |- context [commit ?cs w2] =>
    destruct (commit cs w2) as [w3|] eqn:C2 end; simpl; [|now rewrite Hdb].
  apply commit_tables in C2. destruct C2 as (C2 & _).
  rewrite bags_after_insert_notifications in C2. now rewrite C2, Hdb.
Qed.

Lemma owned_bag_found (bag_id business_id : Z) (rows : list SurpriseBag.t)
  (b : SurpriseBag.t) :
  find (owned_bag bag_id business_id) rows = Some b ->
  In b rows /\ SurpriseBag.id b = bag_id /\ SurpriseBag.business_id b = business_id.
Proof.
  intros H. apply find_some in H. destruct H as [Hin H].
  unfold owned_bag in H. apply andb_true_iff in H. destruct H as [H1 H2].
  apply Z.eqb_eq in H1, H2. auto.
Qed.

Lemma update_surprise_bag_stock (w : World) (bag_id business_id : Z)
  (bag_update : SurpriseBagCreate.t) :
  keeps_stock w (UpdateListing bag_id business_id bag_update) ->
  NoDup (bag_ids (db w)) -> stock_invariant w ->
  stock_invariant (snd (update_surprise_bag w bag_id business_id bag_update)).
Proof.
  unfold keeps_stock, stock_invariant, bag_ids. intros Hguard Hnd Hstock.
  destruct (find (owned_bag bag_id business_id) (surprise_bags (db w)))
    as [b|] eqn:Hb.
  - destruct (fits_integer (SurpriseBagCreate.quantity_available bag_update))
      eqn:Hfits.
    + rewrite (update_surprise_bag_accepts _ _ _ _ _ Hb Hfits). simpl.
      specialize (Hguard b eq_refl).
      apply owned_bag_found in Hb. destruct Hb as [Hin _].
      apply stock_after_set; auto.
      rewrite Forall_forall in Hstock. specialize (Hstock b Hin).
      unfold within_stock in *. simpl. lia.
    + unfold update_surprise_bag. now rewrite Hb, Hfits.
  - unfold update_surprise_bag. now rewrite Hb.
Qed.

Lemma delete_surprise_bag_stock (w : World) (bag_id business_id : Z) :
  NoDup (bag_ids (db w)) -> stock_invariant w ->
  stock_invariant (snd (delete_surprise_bag w bag_id business_id)).
Proof.
  unfold delete_surprise_bag, stock_invariant, bag_ids. intros Hnd Hstock.
  destruct (find (owned_bag bag_id business_id) (surprise_bags (db w)))
    as [b|] eqn:Hb; [|assumption].
  cbv zeta.
  match goal with |- context [if ?c then _ else _] => destruct c end;
    [assumption|].
  match goal with |- context [commit ?cs w] =>
    destruct (commit cs w) as [w1|] eqn:C1 end; simpl; [|assumption].
  apply commit_tables in C1. simpl in C1. destruct C1 as (C1 & _). rewrite C1.
  apply owned_bag_found in Hb. destruct Hb as [Hin _].
  apply stock_after_set; auto.
  rewrite Forall_forall in Hstock. exact (Hstock b Hin).
Qed.

Lemma mark_notification_as_read_bags (w : World) (notification_id : string)
  (user_id : Z) :
  surprise_bags (db (snd (mark_notification_as_read w notification_id user_id)))
  = surprise_bags (db w).
Proof.
  unfold mark_notification_as_read.
  destruct (find (owned_notification notification_id user_id)
              (notifications (db w))) as [n|]; [|reflexivity].
  match goal with |- context [commit ?cs w] =>
    destruct (commit cs w) as [w1|] eqn:C1 end; simpl; [|reflexivity].
  apply commit_tables in C1. simpl in C1. tauto.
Qed.

Lemma delete_notification_bags (w : World) (notification_id : string)
  (user_id : Z) :
  surprise_bags (db (snd (delete_notification w notification_id user_id)))
  = surprise_bags (db w).
Proof.
  unfold delete_notification.
  destruct (find (owned_notification notification_id user_id)
              (notifications (db w))) as [n|]; [|reflexivity].
  match goal with |- context [commit ?cs w] =>
    destruct (commit cs w) as [w1|] eqn:C1 end; simpl; [|reflexivity].
  apply commit_tables in C1. simpl in C1. tauto.
Qed.

Lemma step_valid_state (w : World) (op : Op) (w' : World) :
  keeps_stock w op -> step uuid4 format_status w op w' ->
  valid_state w -> valid_state w'.
Proof.
  intros Hguard Hstep [Hc Hs]. split; [eapply step_constraints; eauto|].
  pose proof (bag_ids_unique _ Hc) as Hnd.
  destruct Hstep as [fuel now H]. destruct op; simpl in H.
  - destruct (create_order uuid4 fuel now w order customer_id) as [[r w1]|] eqn:E;
      [|discriminate].
    inversion H; subst. eapply create_order_stock; eauto.
  - inversion H; subst. now apply delete_order_stock.
  - inversion H; subst. unfold stock_invariant.
    now rewrite update_order_status_bags.
  - inversion H; subst. now apply create_surprise_bag_stock.
  - inversion H; subst. now apply update_surprise_bag_stock.
  - inversion H; subst. now apply delete_surprise_bag_stock.
  - inversion H; subst. unfold stock_invariant.
    now rewrite mark_notification_as_read_bags.
  - inversion H; subst. unfold stock_invariant.
    now rewrite delete_notification_bags.
Qed.

(** C2, as the code has it.  From a valid state (declared keys unique,
    [0 <= quantity_sold <= quantity_available] on every listing), the
    invariant holds after each operation of a run in which every listing is
    created from a schema-valid payload, every listing update asks for at
    least as many units as the listing has sold, and every cancellation of
    a pending order finds at least one unit sold on the order's listing.
    Order placement, status updates, listing deletion and the notification
    operations need no side condition. *)
Theorem stock_invariant_along_guarded_runs :
  forall (w0 : World) (ops : list Op) (ws : list World),
    valid_state w0 ->
    guarded_execution uuid4 format_status w0 ops ws ->
    Forall (fun w => valid_state w
                     /\ forall L, In L (surprise_bags (db w)) ->
                          0 <= SurpriseBag.quantity_sold L
                               <= SurpriseBag.quantity_available L) ws.
Proof.
  intros w0 ops ws Hvalid Hexec. revert Hvalid.
  induction Hexec as [w | w op w1 ops ws Hguard Hstep _ IH]; intros Hvalid;
    [constructor|].
  pose proof (step_valid_state _ _ _ Hguard Hstep Hvalid) as Hv1.
  constructor; [|now apply IH].
  split; [assumption|]. destruct Hv1 as [_ Hs].
  unfold stock_invariant in Hs. rewrite Forall_forall in Hs. exact Hs.
Qed.

(** ** Cancel, then order again *)

(** C6, as the code has it.  On an active listing that is sold out, once
    the owner of a pending order on it has cancelled that order, the
    listing's [quantity_sold] is one lower and the next [create_order] on
    the listing returns an order (the pickup-code loop finding an unused
    code within [fuel] runs and the uuids drawn as primary keys being
    unused). *)
Theorem cancel_then_reorder :
  forall (fuel : nat) (now later : datetime) (w : World) (order_id : string)
         (customer_id : Z) (o : Order.t) (b : SurpriseBag.t)
         (order : OrderCreate.t) (next_customer : Z) (k : nat) (w1 : World),
    find (owned_order order_id customer_id) (orders (db w)) = Some o ->
    Order.status o = OrderStatus.pending ->
    get_surprise_bag w (Order.bag_id o) = Some b ->
    SurpriseBag.is_active b = true ->
    SurpriseBag.quantity_sold b = SurpriseBag.quantity_available b ->
    OrderCreate.bag_id order = Order.bag_id o ->
    unused_notification_id w (uuid4 (uuid_drawn w)) ->
    w1 = snd (delete_order uuid4 now w order_id customer_id) ->
    first_unused uuid4 w1 k -> (k <= fuel)%nat ->
    unused_order_id w1 (uuid4 (uuid_drawn w1 + S k)%nat) ->
    unused_notification_id w1 (uuid4 (uuid_drawn w1 + S (S k))%nat) ->
    delete_order uuid4 now w order_id customer_id
    = (Return {| message := "Order cancelled" |}, w1)
    /\ (exists b1,
          get_surprise_bag w1 (Order.bag_id o) = Some b1
          /\ SurpriseBag.quantity_sold b1 = SurpriseBag.quantity_sold b - 1
          /\ SurpriseBag.quantity_available b1 = SurpriseBag.quantity_available b)
    /\ (exists o2 w2,
          create_order uuid4 fuel later w1 order next_customer = Some (Return o2, w2)
          /\ Order.status o2 = OrderStatus.pending
          /\ Order.bag_id o2 = Order.bag_id o
          /\ exists b2,
               get_surprise_bag w2 (Order.bag_id o) = Some b2
               /\ SurpriseBag.quantity_sold b2 = SurpriseBag.quantity_sold b).
Proof.
  intros fuel now later w order_id customer_id o b order next_customer k w1
         Hfind Hpending Hbag Hactive Hsold Horder Hnid Hw1 Hfirst Hfuel Hoid2 Hnid2.
  destruct (delete_order_pending now w order_id customer_id o Hfind Hpending)
    as (r & w' & Hdel & Hb1 & _ & _ & _ & _ & Hnote).
  rewrite Hdel in Hw1. simpl in Hw1. subst w'.
  destruct (Hnote Hnid) as [Hr _]. subst r.
  specialize (Hb1 b Hbag).
  split; [assumption|]. split.
  - eexists. split; [exact Hb1|]. split; reflexivity.
  - rewrite <- Horder in Hb1.
    destruct (create_order_success fuel later w1 order next_customer _ k Hb1)
      as (o2 & n & w2 & Hcreate & Hb2 & _ & _ & Hst & _ & _ & Hbid & _);
      auto.
    { simpl. lia. }
    exists o2, w2. split; [assumption|]. split; [assumption|].
    split; [congruence|]. rewrite <- Horder. eexists. split; [exact Hb2|].
    simpl. lia.
Qed.

End Properties.

(** * The theorems at sample inputs *)

Ltac unused := apply mem_string_false; reflexivity.


Lemma pickup_code_loop_runs_until_unused_witness :
  generate_pickup_code Demo.uuid4 5 Demo.colliding
  = Some ("c1b2c3d4", drawn 3 Demo.colliding)
  /\ generate_pickup_code Demo.uuid4 1 Demo.colliding = None
  /\ forall fuel, generate_pickup_code Demo.stuck_uuid4 fuel Demo.colliding = None.
Proof.
  assert (Hfirst : first_unused Demo.uuid4 Demo.colliding 2).
  { split; [intros i Hi; destruct i as [|[|i]]; [reflexivity | reflexivity | lia]
           | reflexivity]. }
  split; [|split].
  - exact (proj1 (pickup_code_loop_runs_until_unused Demo.uuid4 Demo.colliding)
             2%nat Hfirst 5%nat).
  - exact (proj1 (pickup_code_loop_runs_until_unused Demo.uuid4 Demo.colliding)
             2%nat Hfirst 1%nat).
  - apply (proj2 (pickup_code_loop_runs_until_unused Demo.stuck_uuid4 Demo.colliding)).
    intros i. reflexivity.
Defined.


(** C4 as stated fails: on [Demo.colliding], with a generator that keeps
    returning a uuid whose first eight characters are taken, no number of
    runs of the loop body lets [create_order] return, be it with a conflict
    error. *)
Lemma pickup_code_retry_has_no_bound :
  ~ exists bound : nat,
      create_order Demo.stuck_uuid4 bound 9 Demo.colliding Demo.one_pastry 3 <> None.
Proof.
  intros [bound H]. apply H. unfold create_order. simpl.
  rewrite generate_pickup_code_never; [reflexivity|].
  intros i. reflexivity.
Qed.


Ltac run_step :=
  eapply step_intro with (fuel := 5%nat) (now := 9); vm_compute; reflexivity.

Ltac run_script :=
  repeat (eapply execution_cons; [run_step|]); apply execution_nil.

Lemma start_is_valid : valid_state Demo.start.
Proof.
  split.
  - constructor; constructor.
  - constructor.
Qed.

(** C2 as stated fails, twice over, on runs from [Demo.start] (no listing,
    no order).  After [Demo.oversell] the listing has one unit sold and
    none available; after [Demo.recancel] it has minus one unit sold. *)
Lemma stock_invariant_can_break :
  valid_state Demo.start
  /\ (exists ws w L,
        execution Demo.uuid4 Demo.format_status Demo.start Demo.oversell ws
        /\ last ws Demo.start = w
        /\ In L (surprise_bags (db w))
        /\ SurpriseBag.quantity_sold L = 1
        /\ SurpriseBag.quantity_available L = 0)
  /\ (exists ws w L,
        execution Demo.uuid4 Demo.format_status Demo.start Demo.recancel ws
        /\ last ws Demo.start = w
        /\ In L (surprise_bags (db w))
        /\ SurpriseBag.quantity_sold L = -1).
Proof.
  split; [exact start_is_valid|]. split.
  - eexists _, _, _. split; [unfold Demo.oversell; run_script|].
    split; [reflexivity|]. simpl. split; [left; reflexivity|].
    split; reflexivity.
  - eexists _, _, _. split; [unfold Demo.recancel; run_script|].
    split; [reflexivity|]. simpl. split; [left; reflexivity|]. reflexivity.
Qed.

Ltac check_guard :=
  first
    [ exact I
    | reflexivity
    | let o := fresh "o" in
      let b := fresh "b" in
      let Ho := fresh "Ho" in
      let Hb := fresh "Hb" in
      intros o b Ho _ Hb; vm_compute in Ho; inversion Ho; subst o;
      vm_compute in Hb; inversion Hb; subst b; vm_compute; discriminate
    | let b := fresh "b" in
      let Hb := fresh "Hb" in
      intros b Hb; vm_compute in Hb; inversion Hb; subst b;
      vm_compute; discriminate ].

Lemma stock_invariant_along_guarded_runs_witness :
  exists ws,
    guarded_execution Demo.uuid4 Demo.format_status Demo.start Demo.scenario ws
    /\ Forall (fun w => valid_state w
                        /\ forall L, In L (surprise_bags (db w)) ->
                             0 <= SurpriseBag.quantity_sold L
                                  <= SurpriseBag.quantity_available L) ws
    /\ List.length ws = 6%nat.
Proof.
  eexists. split; [|split].
  - unfold Demo.scenario.
    repeat (eapply guarded_cons; [check_guard | run_step |]). apply guarded_nil.
  - apply (stock_invariant_along_guarded_runs Demo.uuid4 Demo.format_status
             Demo.start Demo.scenario); [exact start_is_valid|].
    unfold Demo.scenario.
    repeat (eapply guarded_cons; [check_guard | run_step |]). apply guarded_nil.
  - reflexivity.
Defined.

Lemma pickup_codes_pairwise_distinct_witness :
  exists ws,
    execution Demo.uuid4 Demo.format_status Demo.start Demo.scenario ws
    /\ Forall (fun w =>
                 NoDup (pickup_codes (db w))
                 /\ exists later,
                      order_ids (db w) = (order_ids (db Demo.start) ++ later)%list) ws
    /\ map (fun w => pickup_codes (db w)) ws
       = [[]; ["c1b2c3d4"]; ["c1b2c3d4"]; ["c1b2c3d4"];
          ["c1b2c3d4"; "g1b2c3d4"]; ["c1b2c3d4"; "g1b2c3d4"]].
Proof.
  eexists. split; [|split].
  - unfold Demo.scenario. run_script.
  - apply (proj1 (pickup_codes_pairwise_distinct Demo.uuid4 Demo.format_status
                    Demo.start Demo.scenario _ (NoDup_nil _)
                    ltac:(unfold Demo.scenario; run_script))).
  - reflexivity.
Defined.


Lemma update_order_status_outcomes_witness :
  update_order_status Demo.uuid4 Demo.format_status 9 Demo.sold_out "o-1" 3
    OrderStatus.confirmed
  = (Raise (HTTPException 404 "Order not found or not authorized"), Demo.sold_out)
  /\ exists n w',
       update_order_status Demo.uuid4 Demo.format_status 9 Demo.confirmed_sale
         "o-1" 1 OrderStatus.pending
       = (Return (Order.set_updated_at 9
                    (Demo.order_of "o-1" "zzzzzzzz" 1 OrderStatus.pending)), w')
       /\ notifications (db w') = [n]
       /\ Notification.type n = NotificationType.order_update
       /\ Notification.user_id n = 1.
Proof.
  split.
  - apply (proj1 (update_order_status_outcomes Demo.uuid4 Demo.format_status 9
                    Demo.sold_out "o-1" 3 OrderStatus.confirmed)).
    intros o [<- | []] [_ H]. discriminate.
  - destruct (proj2 (update_order_status_outcomes Demo.uuid4 Demo.format_status 9
                       Demo.confirmed_sale "o-1" 1 OrderStatus.pending)
                (Demo.order_of "o-1" "zzzzzzzz" 1 OrderStatus.confirmed) eq_refl)
      as (n & w' & Hupd & _ & _ & _ & _ & Hn & Ht & Hu & _); [unused|].
    exists n, w'. repeat split; assumption.
Defined.

Lemma ownership_conflated_with_existence_witness :
  read_order Demo.inbox "o-1" Demo.alice
  = Return (Demo.order_of "o-1" "zzzzzzzz" 1 OrderStatus.pending)
  /\ read_order Demo.inbox "o-1" Demo.carol
     = Raise (HTTPException 404 "Order not found or not authorized")
  /\ read_order Demo.inbox "o-9" Demo.carol
     = Raise (HTTPException 404 "Order not found or not authorized")
  /\ (exists m w', mark_notification_as_read Demo.inbox "n-1" 1 = (Return m, w'))
  /\ mark_notification_as_read Demo.inbox "n-1" 3
     = (Raise (HTTPException 404 "Notification not found or not authorized"),
        Demo.inbox)
  /\ delete_notification Demo.inbox "n-9" 3
     = (Raise (HTTPException 404 "Notification not found or not authorized"),
        Demo.inbox).
Proof.
  pose proof (ownership_conflated_with_existence Demo.inbox Demo.alice)
    as (Ha & _ & Hna & _).
  pose proof (ownership_conflated_with_existence Demo.inbox Demo.carol)
    as (Hc & Hc0 & Hnc & Hnc0).
  assert (Hnd : NoDup (notification_ids (db Demo.inbox))).
  { repeat constructor; simpl; intuition discriminate. }
  split; [|split; [|split; [|split; [|split]]]].
  - apply (Ha "o-1" _ eq_refl). reflexivity.
  - apply (Hc "o-1" (Demo.order_of "o-1" "zzzzzzzz" 1 OrderStatus.pending) eq_refl).
    simpl. discriminate.
  - apply Hc0. reflexivity.
  - apply (Hna Hnd (Demo.note_for "n-1" 1)); [left; reflexivity | reflexivity].
  - apply (Hnc Hnd (Demo.note_for "n-1" 1)); [left; reflexivity |].
    simpl. discriminate.
  - apply (Hnc0 "n-9"). simpl. intuition discriminate.
Defined.

(** C9 as stated fails for a caller without a business profile: with a
    discount above the original price and a pickup window that ends before
    it starts, the answer is 404 "Business not found", not a validation
    error. *)
Lemma create_surprise_bag_not_found_before_validation :
  (SurpriseBagCreate.discount_price Demo.nonsense
   >= SurpriseBagCreate.original_price Demo.nonsense)%Q
  /\ SurpriseBagCreate.pickup_end Demo.nonsense
     <= SurpriseBagCreate.pickup_start Demo.nonsense
  /\ create_surprise_bag Demo.uuid4 9 Demo.no_business Demo.nonsense 2
     = (Raise (HTTPException 404 "Business not found"), Demo.no_business).
Proof.
  split; [apply Qle_bool_iff; reflexivity|].
  split; [simpl; lia | reflexivity].
Qed.

Lemma create_surprise_bag_validation_witness :
  create_surprise_bag Demo.uuid4 9 Demo.start Demo.nonsense 2
  = (Raise (HTTPException 400 "Discount price must be less than original price"),
     Demo.start)
  /\ (exists detail,
        create_surprise_bag Demo.uuid4 9 Demo.start Demo.nonsense 2
        = (Raise (HTTPException 400 detail), Demo.start))
  /\ create_surprise_bag Demo.uuid4 9 Demo.no_business Demo.pastries 2
     = (Raise (HTTPException 404 "Business not found"), Demo.no_business).
Proof.
  pose proof (create_surprise_bag_validation Demo.uuid4 9 Demo.start Demo.nonsense 2)
    as [_ H].
  destruct (H Demo.bakery eq_refl) as [Hprice Htime].
  split; [|split].
  - apply Hprice. apply Qle_bool_iff. reflexivity.
  - apply Htime. simpl. lia.
  - apply (proj1 (create_surprise_bag_validation Demo.uuid4 9 Demo.no_business
                    Demo.pastries 2)).
    reflexivity.
Defined.

(** C6 as stated fails on a listing that has been taken down.  After
    [Demo.retire], a run from [Demo.start], the listing is sold out (one of
    one) and inactive and Alice's order on it is pending; her cancellation
    succeeds and brings [quantity_sold] to zero, and the next [create_order]
    on the listing answers 404, whatever the fuel. *)
Lemma reorder_fails_on_retired_listing :
  exists ws w b o w1,
    execution Demo.uuid4 Demo.format_status Demo.start Demo.retire ws
    /\ last ws Demo.start = w
    /\ get_surprise_bag w 1 = Some b
    /\ SurpriseBag.quantity_sold b = SurpriseBag.quantity_available b
    /\ find (owned_order Demo.first_order 1) (orders (db w)) = Some o
    /\ Order.status o = OrderStatus.pending
    /\ Order.bag_id o = 1
    /\ delete_order Demo.uuid4 9 w Demo.first_order 1
       = (Return {| message := "Order cancelled" |}, w1)
    /\ option_map SurpriseBag.quantity_sold (get_surprise_bag w1 1) = Some 0
    /\ forall fuel,
         create_order Demo.uuid4 fuel 9 w1 Demo.one_pastry 3
         = Some (Raise (HTTPException 404 "Surprise bag not found or not available"),
                 w1).
Proof.
  eexists _, _, _, _, _. split; [unfold Demo.retire; run_script|].
  split; [reflexivity|]. split; [reflexivity|]. split; [reflexivity|].
  split; [reflexivity|]. split; [reflexivity|]. split; [reflexivity|].
  split; [vm_compute; reflexivity|]. split; [reflexivity|].
  intros fuel. reflexivity.
Qed.

Lemma cancel_then_reorder_witness :
  exists w1 o2 w2,
    delete_order Demo.uuid4 9 Demo.sold_out "o-1" 1
    = (Return {| message := "Order cancelled" |}, w1)
    /\ option_map SurpriseBag.quantity_sold (get_surprise_bag w1 1) = Some 0
    /\ create_order Demo.uuid4 0 10 w1 Demo.one_pastry 3 = Some (Return o2, w2)
    /\ Order.status o2 = OrderStatus.pending
    /\ option_map SurpriseBag.quantity_sold (get_surprise_bag w2 1) = Some 1.
Proof.
  destruct (cancel_then_reorder Demo.uuid4 0 9 10 Demo.sold_out "o-1" 1
              (Demo.order_of "o-1" "zzzzzzzz" 1 OrderStatus.pending)
              (Demo.listing 1 1 true) Demo.one_pastry 3 0%nat
              (snd (delete_order Demo.uuid4 9 Demo.sold_out "o-1" 1)))
    as (Hdel & (b1 & Hb1 & Hq1 & _) & (o2 & w2 & Hcreate & Hst & _ & b2 & Hb2 & Hq2)).
  - reflexivity.
  - reflexivity.
  - reflexivity.
  - reflexivity.
  - reflexivity.
  - reflexivity.
  - unused.
  - reflexivity.
  - split; [intros i Hi; lia | reflexivity].
  - lia.
  - unused.
  - unused.
  - exists (snd (delete_order Demo.uuid4 9 Demo.sold_out "o-1" 1)), o2, w2.
    split; [exact Hdel|].
    split; [transitivity (Some (SurpriseBag.quantity_sold b1));
            [exact (f_equal (option_map SurpriseBag.quantity_sold) Hb1)
            | f_equal; exact Hq1]|].
    split; [exact Hcreate|]. split; [exact Hst|].
    transitivity (Some (SurpriseBag.quantity_sold b2));
      [exact (f_equal (option_map SurpriseBag.quantity_sold) Hb2)
      | f_equal; exact Hq2].
Defined.

(** C10. A listing created through [create_surprise_bag] and sold once
    through [create_order] (the run [CreateListing; PlaceOrder] from
    [Demo.start]) satisfies the rules of creation; [update_surprise_bag]
    by its owner, with a payload the schema accepts, then succeeds and
    stores a discount above the original price, a pickup window that ends
    before it starts, and fewer units available than sold. *)
Theorem update_surprise_bag_skips_validation :
  exists ws w b b' w',
    execution Demo.uuid4 Demo.format_status Demo.start
      [CreateListing Demo.pastries 2; PlaceOrder Demo.one_pastry 1] ws
    /\ last ws Demo.start = w
    /\ find (owned_bag 1 2) (surprise_bags (db w)) = Some b
    /\ (SurpriseBag.discount_price b < SurpriseBag.original_price b)%Q
    /\ SurpriseBag.pickup_start b < SurpriseBag.pickup_end b
    /\ within_stock b
    /\ SurpriseBagCreate.valid Demo.nonsense = true
    /\ update_surprise_bag w 1 2 Demo.nonsense = (Return b', w')
    /\ get_surprise_bag w' 1 = Some b'
    /\ (SurpriseBag.discount_price b' >= SurpriseBag.original_price b')%Q
    /\ SurpriseBag.pickup_end b' <= SurpriseBag.pickup_start b'
    /\ SurpriseBag.quantity_available b' < SurpriseBag.quantity_sold b'.
Proof.
  eexists _, _, _, _, _. split; [run_script|].
  split; [reflexivity|]. split; [reflexivity|].
  split; [reflexivity|]. split; [reflexivity|].
  split; [unfold within_stock; simpl; lia|].
  split; [reflexivity|].
  split; [apply update_surprise_bag_accepts; reflexivity|].
  split; [reflexivity|].
  split; [apply Qle_bool_iff; reflexivity|].
  split; [simpl; lia | reflexivity].
Qed.

(** * Further properties of the services *)

(** ** Pages *)

Lemma page_In {A : Type} (skip limit : Z) (l : list A) (x : A) :
  In x (offset_limit skip limit l) -> In x l.
Proof.
  unfold offset_limit. intros H.
  assert (Hs : In x (skipn (Z.to_nat skip) l)).
  { destruct (limit <? 0); [exact H|].
    rewrite <- (firstn_skipn (Z.to_nat limit) (skipn (Z.to_nat skip) l)).
    apply in_or_app. now left. }
  rewrite <- (firstn_skipn (Z.to_nat skip) l). apply in_or_app. now right.
Qed.

Lemma page_all {A : Type} (places : nat) (l : list A) :
  (List.length l <= places)%nat -> offset_limit 0 (Z.of_nat places) l = l.
Proof.
  intros H. unfold offset_limit. cbn [Z.to_nat skipn].
  assert (E : (Z.of_nat places <? 0) = false) by (apply Z.ltb_ge; lia).
  rewrite E, Nat2Z.id. now apply firstn_all2.
Qed.

(** ** Taking a listing down *)

Lemma no_active_order_count (bag_id : Z) (rows : list Order.t) :
  (0 <? Z.of_nat (List.length (filter (active_order_on bag_id) rows))) = false
  <-> (forall o, In o rows -> Order.bag_id o = bag_id ->
         Order.status o = OrderStatus.cancelled
         \/ Order.status o = OrderStatus.completed).
Proof.
  split.
  - intros H o Hin Hbag. apply Z.ltb_ge in H.
    destruct (filter (active_order_on bag_id) rows) as [|x l] eqn:E;
      [|simpl in H; lia].
    assert (Hf : active_order_on bag_id o = false).
    { destruct (active_order_on bag_id o) eqn:Ha; [|reflexivity].
      assert (Hx : In o (filter (active_order_on bag_id) rows))
        by (apply filter_In; auto).
      rewrite E in Hx. contradiction. }
    unfold active_order_on in Hf. rewrite Hbag, Z.eqb_refl in Hf. simpl in Hf.
    destruct (Order.status o); simpl in Hf; try discriminate; auto.
  - intros H. apply Z.ltb_ge.
    destruct (filter (active_order_on bag_id) rows) as [|x l] eqn:E;
      [simpl; lia|].
    assert (Hx : In x (filter (active_order_on bag_id) rows))
      by (rewrite E; now left).
    apply filter_In in Hx. destruct Hx as [Hin Ha].
    unfold active_order_on in Ha. apply andb_true_iff in Ha.
    destruct Ha as [Hb Hs]. apply Z.eqb_eq in Hb.
    destruct (H x Hin Hb) as [Hc | Hc]; rewrite Hc in Hs; discriminate.
Qed.

Lemma update_where_twice {A : Type} (p : A -> bool) (f : A -> A) (rows : list A) :
  (forall r, p (f r) = p r) -> (forall r, f (f r) = f r) ->
  update_where p f (update_where p f rows) = update_where p f rows.
Proof.
  intros Hp Hf. unfold update_where. rewrite map_map. apply map_ext.
  intros r. destruct (p r) eqn:E; [now rewrite Hp, E, Hf | now rewrite E].
Qed.

Lemma delete_surprise_bag_succeeds (w : World) (bag_id business_id : Z)
  (b : SurpriseBag.t) :
  find (owned_bag bag_id business_id) (surprise_bags (db w)) = Some b ->
  (forall o, In o (orders (db w)) -> Order.bag_id o = bag_id ->
     Order.status o = OrderStatus.cancelled
     \/ Order.status o = OrderStatus.completed) ->
  delete_surprise_bag w bag_id business_id
  = (Return {| message := "Surprise bag deactivated" |},
     with_db w
       {| users := users (db w); business_owners := business_owners (db w);
          surprise_bags :=
            update_where (fun r => SurpriseBag.id r =? bag_id)
              (SurpriseBag.set_is_active false) (surprise_bags (db w));
          orders := orders (db w); notifications := notifications (db w);
          surprise_bags_id_seq := surprise_bags_id_seq (db w) |}).
Proof.
  intros Hb Hnone. pose proof (owned_bag_found _ _ _ _ Hb) as (_ & Hid & _).
  apply (proj2 (no_active_order_count _ _)) in Hnone.
  unfold delete_surprise_bag. rewrite Hb, Hnone.
  unfold commit, with_db. simpl. now rewrite Hid.
Qed.


Lemma delete_surprise_bag_returned (w : World) (bag_id business_id : Z)
  (m : Message) (w' : World) :
  delete_surprise_bag w bag_id business_id = (Return m, w') ->
  surprise_bags (db w')
  = update_where (fun r => SurpriseBag.id r =? bag_id)
      (SurpriseBag.set_is_active false) (surprise_bags (db w))
  /\ orders (db w') = orders (db w)
  /\ (forall o, In o (orders (db w)) -> Order.bag_id o = bag_id ->
        Order.status o = OrderStatus.cancelled
        \/ Order.status o = OrderStatus.completed)
  /\ exists b, find (owned_bag bag_id business_id) (surprise_bags (db w)) = Some b.
Proof.
  unfold delete_surprise_bag. intros H.
  destruct (find (owned_bag bag_id business_id) (surprise_bags (db w)))
    as [b|] eqn:Hb; [|discriminate].
  pose proof (owned_bag_found _ _ _ _ Hb) as (_ & Hid & _).
  destruct (0 <? Z.of_nat (List.length (filter (active_order_on bag_id)
                                         (orders (db w))))) eqn:E;
    [discriminate|].
  pose proof (proj1 (no_active_order_count _ _) E) as E'.
  unfold commit, with_db in H. simpl in H. inversion H; subst. simpl.
  repeat split; eauto.
Qed.

Section MoreProperties.

Variable uuid4 : nat -> string.
Variable format_status : OrderStatus.t -> string.

(** X4. Once [delete_surprise_bag] has succeeded on a listing, every row
    with that id is inactive, the listing is on no page of
    [get_surprise_bags], every [create_order] on it answers 404 whatever
    the fuel and the customer, and a second [delete_surprise_bag] by the
    same business succeeds again and changes nothing. *)
Theorem deleted_listing_is_gone :
  forall (w : World) (bag_id business_id : Z) (m : Message) (w' : World),
    delete_surprise_bag w bag_id business_id = (Return m, w') ->
    (forall r, In r (surprise_bags (db w')) -> SurpriseBag.id r = bag_id ->
       SurpriseBag.is_active r = false)
    /\ (forall skip limit r, In r (get_surprise_bags w' skip limit) ->
          SurpriseBag.id r <> bag_id)
    /\ (forall fuel now order customer_id,
          OrderCreate.bag_id order = bag_id ->
          create_order uuid4 fuel now w' order customer_id
          = Some (Raise (HTTPException 404
                           "Surprise bag not found or not available"), w'))
    /\ delete_surprise_bag w' bag_id business_id = (Return m, w').
Proof.
  intros w bag_id business_id m w' H.
  pose proof H as Hm.
  apply delete_surprise_bag_returned in H.
  destruct H as (Hbags & Horders & Hnone & b & Hb).
  assert (Hoff : forall r, In r (surprise_bags (db w')) ->
                   SurpriseBag.id r = bag_id -> SurpriseBag.is_active r = false).
  { intros r Hin Hid. rewrite Hbags in Hin. unfold update_where in Hin.
    apply in_map_iff in Hin. destruct Hin as (r0 & Hr & _).
    destruct (SurpriseBag.id r0 =? bag_id) eqn:E; subst r; [reflexivity|].
    apply Z.eqb_neq in E. contradiction. }
  split; [exact Hoff|]. split; [|split].
  - intros skip limit r Hin Hid.
    unfold get_surprise_bags in Hin. apply page_In in Hin.
    apply filter_In in Hin. destruct Hin as [Hin Hon].
    rewrite (Hoff r Hin Hid) in Hon. discriminate.
  - intros fuel now order customer_id Hbag. unfold create_order. rewrite Hbag.
    destruct (get_surprise_bag w' bag_id) as [r|] eqn:Hr; [|reflexivity].
    pose proof (get_surprise_bag_id _ _ _ Hr) as Hid.
    unfold get_surprise_bag in Hr. apply find_some in Hr. destruct Hr as [Hin _].
    now rewrite (Hoff r Hin Hid).
  - assert (Hm' : m = {| message := "Surprise bag deactivated" |}).
    { unfold delete_surprise_bag in Hm. rewrite Hb in Hm.
      destruct (0 <? Z.of_nat (List.length (filter (active_order_on bag_id)
                                             (orders (db w))))); [discriminate|].
      unfold commit in Hm. simpl in Hm. now inversion Hm. }
    assert (Hb' : find (owned_bag bag_id business_id) (surprise_bags (db w'))
                  = Some (SurpriseBag.set_is_active false b)).
    { rewrite Hbags. rewrite find_update_where by reflexivity.
      rewrite Hb. simpl. pose proof (owned_bag_found _ _ _ _ Hb) as (_ & Hid & _).
      rewrite Hid, Z.eqb_refl. reflexivity. }
    rewrite (delete_surprise_bag_succeeds w' bag_id business_id _ Hb')
      by (rewrite Horders; exact Hnone).
    rewrite Hm'. f_equal.
    pose proof (delete_surprise_bag_succeeds w bag_id business_id _ Hb Hnone) as Hw.
    rewrite Hm in Hw. inversion Hw as [[Hm2 Hw']].
    unfold with_db. simpl. f_equal. f_equal.
    now rewrite update_where_twice by reflexivity.
Qed.

(** ** What a finished [create_order] has done *)

Lemma commit_insert_notification (n : Notification.t) (w : World) :
  commit [InsertNotification n] w
  = if mem_string (Notification.notification_id n) (notification_ids (db w))
    then None
    else Some (with_db w
                 {| users := users (db w); business_owners := business_owners (db w);
                    surprise_bags := surprise_bags (db w); orders := orders (db w);
                    notifications := notifications (db w) ++ [n];
                    surprise_bags_id_seq := surprise_bags_id_seq (db w) |}).
Proof.
  unfold commit. simpl.
  destruct (mem_string (Notification.notification_id n) (notification_ids (db w)));
    reflexivity.
Qed.

Lemma commit_sale (pk : Z) (v : Z) (o : Order.t) (w : World) :
  commit [SetBag pk (SurpriseBag.set_quantity_sold v); InsertOrder o] w
  = if mem_string (Order.order_id o) (order_ids (db w))
       || mem_string (Order.pickup_code o) (pickup_codes (db w))
    then None
    else Some (with_db w
                 {| users := users (db w); business_owners := business_owners (db w);
                    surprise_bags :=
                      update_where (fun b => SurpriseBag.id b =? pk)
                        (SurpriseBag.set_quantity_sold v) (surprise_bags (db w));
                    orders := orders (db w) ++ [o];
                    notifications := notifications (db w);
                    surprise_bags_id_seq := surprise_bags_id_seq (db w) |}).
Proof.
  unfold commit. simpl. unfold order_ids, pickup_codes. simpl.
  destruct (mem_string (Order.order_id o) (map Order.order_id (orders (db w)))
            || mem_string (Order.pickup_code o)
                 (map Order.pickup_code (orders (db w)))); reflexivity.
Qed.

(** The steps of [create_order] once the listing has passed the checks and
    the loop has produced [pickup_code] in world [w1]. *)
Lemma create_order_unfolded (fuel : nat) (now : datetime) (w : World)
  (order : OrderCreate.t) (customer_id : Z) (b : SurpriseBag.t)
  (pickup_code : string) (w1 : World) :
  get_surprise_bag w (OrderCreate.bag_id order) = Some b ->
  SurpriseBag.is_active b = true ->
  SurpriseBag.quantity_sold b < SurpriseBag.quantity_available b ->
  generate_pickup_code uuid4 fuel w = Some (pickup_code, w1) ->
  let db_order :=
    new_order_row (uuid4 (uuid_drawn w1)) customer_id order pickup_code now in
  let notification :=
    order_confirmation_for (uuid4 (S (uuid_drawn w1))) customer_id b pickup_code
      db_order now in
  let sold :=
    {| users := users (db w); business_owners := business_owners (db w);
       surprise_bags :=
         update_where (fun r => SurpriseBag.id r =? OrderCreate.bag_id order)
           (SurpriseBag.set_quantity_sold (SurpriseBag.quantity_sold b + 1))
           (surprise_bags (db w));
       orders := orders (db w) ++ [db_order];
       notifications := notifications (db w);
       surprise_bags_id_seq := surprise_bags_id_seq (db w) |} in
  create_order uuid4 fuel now w order customer_id
  = if mem_string (Order.order_id db_order) (order_ids (db w))
       || mem_string pickup_code (pickup_codes (db w))
    then Some (Raise IntegrityError,
               {| db := db w; uuid_drawn := S (uuid_drawn w1) |})
    else if mem_string (Notification.notification_id notification)
              (notification_ids (db w))
    then Some (Raise IntegrityError,
               {| db := sold; uuid_drawn := S (S (uuid_drawn w1)) |})
    else Some (Return db_order,
               {| db := {| users := users (db w);
                           business_owners := business_owners (db w);
                           surprise_bags := surprise_bags sold;
                           orders := orders sold;
                           notifications := notifications (db w) ++ [notification];
                           surprise_bags_id_seq := surprise_bags_id_seq (db w) |};
                  uuid_drawn := S (S (uuid_drawn w1)) |}).
Proof.
  intros Hb Hon Hroom Hgen. cbv zeta.
  pose proof (get_surprise_bag_id _ _ _ Hb) as Hid.
  pose proof (generate_pickup_code_db _ _ _ _ _ Hgen) as [Hdb _].
  unfold create_order. rewrite Hb, Hon. simpl negb. cbv iota.
  assert (E : (SurpriseBag.quantity_available b <=? SurpriseBag.quantity_sold b) = false)
    by (apply Z.leb_gt; lia).
  rewrite E, Hgen. unfold draw_uuid. cbv zeta beta iota.
  rewrite commit_sale. simpl. rewrite Hdb, Hid.
  destruct (mem_string (uuid4 (uuid_drawn w1)) (order_ids (db w))
            || mem_string pickup_code (pickup_codes (db w))); [reflexivity|].
  rewrite commit_insert_notification. unfold with_db, notification_ids. simpl.
  destruct (mem_string (uuid4 (S (uuid_drawn w1)))
              (map Notification.notification_id (notifications (db w))));
    reflexivity.
Qed.

Lemma mem_string_true (x : string) (l : list string) :
  mem_string x l = true <-> In x l.
Proof.
  split.
  - intros H. destruct (in_dec string_dec x l) as [Hin | Hin]; [assumption|].
    apply mem_string_false in Hin. congruence.
  - intros H. destruct (mem_string x l) eqn:E; [reflexivity|].
    apply mem_string_false in E. contradiction.
Qed.

Lemma create_order_returned (fuel : nat) (now : datetime) (w : World)
  (order : OrderCreate.t) (customer_id : Z) (o : Order.t) (w' : World) :
  create_order uuid4 fuel now w order customer_id = Some (Return o, w') ->
  exists b pickup_code w1,
    get_surprise_bag w (OrderCreate.bag_id order) = Some b
    /\ SurpriseBag.is_active b = true
    /\ SurpriseBag.quantity_sold b < SurpriseBag.quantity_available b
    /\ generate_pickup_code uuid4 fuel w = Some (pickup_code, w1)
    /\ ~ In (uuid4 (uuid_drawn w1)) (order_ids (db w))
    /\ o = new_order_row (uuid4 (uuid_drawn w1)) customer_id order pickup_code now
    /\ surprise_bags (db w')
       = update_where (fun r => SurpriseBag.id r =? OrderCreate.bag_id order)
           (SurpriseBag.set_quantity_sold (SurpriseBag.quantity_sold b + 1))
           (surprise_bags (db w))
    /\ orders (db w') = (orders (db w) ++ [o])%list
    /\ notifications (db w')
       = (notifications (db w)
          ++ [order_confirmation_for (uuid4 (S (uuid_drawn w1))) customer_id b
                pickup_code o now])%list
    /\ users (db w') = users (db w)
    /\ business_owners (db w') = business_owners (db w).
Proof.
  intros H. pose proof H as H0. unfold create_order in H.
  destruct (get_surprise_bag w (OrderCreate.bag_id order)) as [b|] eqn:Hb;
    [|discriminate].
  destruct (SurpriseBag.is_active b) eqn:Hon; [|discriminate]. simpl in H.
  destruct (SurpriseBag.quantity_available b <=? SurpriseBag.quantity_sold b)
    eqn:Hroom; [discriminate|].
  apply Z.leb_gt in Hroom.
  destruct (generate_pickup_code uuid4 fuel w) as [[pickup_code w1]|] eqn:Hgen;
    [|discriminate].
  clear H.
  rewrite (create_order_unfolded fuel now w order customer_id b pickup_code w1
             Hb Hon Hroom Hgen) in H0.
  cbv zeta in H0.
  destruct (mem_string
              (Order.order_id
                 (new_order_row (uuid4 (uuid_drawn w1)) customer_id order
                    pickup_code now)) (order_ids (db w))) eqn:E1;
    [discriminate|].
  destruct (mem_string pickup_code (pickup_codes (db w))); [discriminate|].
  simpl in H0.
  match type of H0 with context [if ?c then _ else _] => destruct c end;
    [discriminate|].
  inversion H0; subst. simpl.
  apply mem_string_false in E1.
  exists b, pickup_code, w1. repeat split; auto.
Qed.

Lemma find_snoc_fresh {A : Type} (p : A -> bool) (rows : list A) (x : A) :
  find p rows = None -> p x = true -> find p (rows ++ [x]) = Some x.
Proof.
  induction rows as [|r rows IH]; simpl; intros Hnone Hx.
  - now rewrite Hx.
  - destruct (p r); [discriminate | auto].
Qed.

Lemma get_order_unknown (w : World) (order_id : string) :
  ~ In order_id (order_ids (db w)) -> get_order w order_id = None.
Proof.
  intros Hno. unfold get_order.
  destruct (find (fun o => String.eqb (Order.order_id o) order_id) (orders (db w)))
    as [x|] eqn:E; [|reflexivity].
  apply find_some in E. destruct E as [Hin E]. apply String.eqb_eq in E.
  exfalso. apply Hno. unfold order_ids. rewrite <- E. now apply in_map.
Qed.

(** X5. Whenever [create_order] returns an order, the order can be read
    back: [get_order] finds it under its id, [read_order] returns it to the
    customer who placed it and answers 404 to anyone else, and the
    customer's notifications hold an [order_confirmation] that refers to
    the order. *)
Theorem placed_order_can_be_read_back :
  forall (fuel : nat) (now : datetime) (w : World) (order : OrderCreate.t)
         (customer_id : Z) (o : Order.t) (w' : World),
    create_order uuid4 fuel now w order customer_id = Some (Return o, w') ->
    get_order w' (Order.order_id o) = Some o
    /\ (forall current_user,
          User.id current_user = customer_id ->
          read_order w' (Order.order_id o) current_user = Return o)
    /\ (forall current_user,
          User.id current_user <> customer_id ->
          read_order w' (Order.order_id o) current_user
          = Raise (HTTPException 404 "Order not found or not authorized"))
    /\ exists n,
         In n (get_notifications w' customer_id 0
                 (Z.of_nat (List.length (notifications (db w')))))
         /\ Notification.type n = NotificationType.order_confirmation
         /\ Notification.related_entity_type n = RelatedEntityType.order
         /\ Notification.related_entity_id n = Order.order_id o.
Proof.
  intros fuel now w order customer_id o w' H.
  apply create_order_returned in H.
  destruct H as (b & code & w1 & _ & _ & _ & _ & Hfresh & Ho & _ & Horders
                 & Hnotes & _).
  assert (Hget : get_order w' (Order.order_id o) = Some o).
  { unfold get_order. rewrite Horders. apply find_snoc_fresh.
    - apply get_order_unknown. now subst o.
    - apply String.eqb_refl. }
  assert (Hc : Order.customer_id o = Some customer_id) by (now subst o).
  split; [exact Hget|]. split; [|split].
  - intros u Hu. unfold read_order, customer_is. rewrite Hget, Hc, Hu.
    now rewrite Z.eqb_refl.
  - intros u Hu. unfold read_order, customer_is. rewrite Hget, Hc.
    assert (E : (customer_id =? User.id u) = false) by (apply Z.eqb_neq; congruence).
    now rewrite E.
  - eexists. split; [|split; [|split]].
    + unfold get_notifications.
      rewrite page_all by apply filter_length_le.
      apply filter_In. split.
      * rewrite Hnotes. apply in_or_app. right. left. reflexivity.
      * simpl. apply Z.eqb_refl.
    + reflexivity.
    + reflexivity.
    + reflexivity.
Qed.

(** X6. Whenever [create_order] returns an order on a listing,
    [delete_surprise_bag] on that listing cannot succeed in the world it
    leaves: the business that owns the listing gets 400 "Cannot delete
    surprise bag with active orders", any other business gets 404, and the
    world is unchanged. *)
Theorem placed_order_blocks_listing_deletion :
  forall (fuel : nat) (now : datetime) (w : World) (order : OrderCreate.t)
         (customer_id : Z) (o : Order.t) (w' : World) (business_id : Z),
    create_order uuid4 fuel now w order customer_id = Some (Return o, w') ->
    delete_surprise_bag w' (OrderCreate.bag_id order) business_id
    = (Raise
         (match find (owned_bag (OrderCreate.bag_id order) business_id)
                  (surprise_bags (db w')) with
          | Some _ =>
              HTTPException 400 "Cannot delete surprise bag with active orders"
          | None =>
              HTTPException 404 "Surprise bag not found or not authorized"
          end), w').
Proof.
  intros fuel now w order customer_id o w' business_id H.
  apply create_order_returned in H.
  destruct H as (b & code & w1 & _ & _ & _ & _ & _ & Ho & _ & Horders & _).
  unfold delete_surprise_bag.
  destruct (find (owned_bag (OrderCreate.bag_id order) business_id)
              (surprise_bags (db w'))) as [r|]; [|reflexivity].
  destruct (0 <? Z.of_nat
                   (List.length (filter (active_order_on (OrderCreate.bag_id order))
                                   (orders (db w'))))) eqn:E; [reflexivity|].
  pose proof (proj1 (no_active_order_count _ _) E) as E'.
  assert (Hin : In o (orders (db w'))).
  { rewrite Horders. apply in_or_app. right. now left. }
  destruct (E' o Hin) as [Hc | Hc]; subst o; simpl in *;
    try reflexivity; discriminate.
Qed.

(** X7. [create_order] commits the sale before it stores the notification:
    when the listing passes the checks, the loop ends on an unused pickup
    code and the order's uuid is unused, but the uuid drawn for the
    notification is already a notification's key, the call raises
    [IntegrityError] and nevertheless leaves the order stored as [pending]
    and the listing's [quantity_sold] one higher, with no notification
    added. *)
Theorem create_order_commits_before_notifying :
  forall (fuel : nat) (now : datetime) (w : World) (order : OrderCreate.t)
         (customer_id : Z) (b : SurpriseBag.t) (k : nat),
    get_surprise_bag w (OrderCreate.bag_id order) = Some b ->
    SurpriseBag.is_active b = true ->
    SurpriseBag.quantity_sold b < SurpriseBag.quantity_available b ->
    first_unused uuid4 w k -> (k <= fuel)%nat ->
    unused_order_id w (uuid4 (uuid_drawn w + S k)%nat) ->
    In (uuid4 (uuid_drawn w + S (S k))%nat) (notification_ids (db w)) ->
    exists o w',
      create_order uuid4 fuel now w order customer_id
      = Some (Raise IntegrityError, w')
      /\ orders (db w') = (orders (db w) ++ [o])%list
      /\ Order.status o = OrderStatus.pending
      /\ Order.customer_id o = Some customer_id
      /\ Order.bag_id o = OrderCreate.bag_id order
      /\ get_surprise_bag w' (OrderCreate.bag_id order)
         = Some (SurpriseBag.set_quantity_sold (SurpriseBag.quantity_sold b + 1) b)
      /\ notifications (db w') = notifications (db w).
Proof.
  intros fuel now w order customer_id b k Hb Hon Hroom Hfirst Hfuel Hoid Hnid.
  pose proof (generate_pickup_code_first_unused uuid4 w k fuel Hfirst) as Hgen.
  assert (Ek : (k <=? fuel)%nat = true) by (apply Nat.leb_le; lia).
  rewrite Ek in Hgen.
  rewrite (create_order_unfolded fuel now w order customer_id b _ _ Hb Hon Hroom Hgen).
  cbv zeta. unfold drawn. simpl.
  apply mem_string_false in Hoid. rewrite Hoid.
  assert (Hcode : mem_string (candidate uuid4 w k) (pickup_codes (db w)) = false).
  { rewrite <- pickup_code_taken_mem. apply Hfirst. }
  rewrite Hcode. simpl.
  replace (S (uuid_drawn w + S k))%nat with (uuid_drawn w + S (S k))%nat by lia.
  apply mem_string_true in Hnid. rewrite Hnid.
  eexists _, _. split; [reflexivity|]. simpl. repeat split.
  unfold get_surprise_bag. simpl.
  apply find_bag_after_set_same; [reflexivity | exact Hb].
Qed.

(** ** Status changes *)

Lemma update_order_status_unfolded (now : datetime) (w : World)
  (order_id : string) (customer_id : Z) (status : OrderStatus.t) (o : Order.t) :
  find (owned_order order_id customer_id) (orders (db w)) = Some o ->
  let assign x := Order.set_updated_at now (Order.set_status status x) in
  let updated :=
    update_where (fun x => String.eqb (Order.order_id x) order_id) assign
      (orders (db w)) in
  let notification :=
    order_update_for (uuid4 (uuid_drawn w)) customer_id "Order Status Updated"
      ("Your order status has been updated to '" ++ format_status status ++ "'.")%string
      order_id now in
  update_order_status uuid4 format_status now w order_id customer_id status
  = if mem_string (uuid4 (uuid_drawn w)) (notification_ids (db w))
    then (Raise IntegrityError,
          {| db := {| users := users (db w);
                      business_owners := business_owners (db w);
                      surprise_bags := surprise_bags (db w);
                      orders := updated;
                      notifications := notifications (db w);
                      surprise_bags_id_seq := surprise_bags_id_seq (db w) |};
             uuid_drawn := S (uuid_drawn w) |})
    else (Return (assign o),
          {| db := {| users := users (db w);
                      business_owners := business_owners (db w);
                      surprise_bags := surprise_bags (db w);
                      orders := updated;
                      notifications := notifications (db w) ++ [notification];
                      surprise_bags_id_seq := surprise_bags_id_seq (db w) |};
             uuid_drawn := S (uuid_drawn w) |}).
Proof.
  intros Hfind. cbv zeta.
  destruct (owned_order_found _ _ _ _ Hfind) as [_ [Hoid _]]. subst order_id.
  unfold update_order_status. rewrite Hfind.
  unfold commit, draw_uuid, with_db. simpl. unfold notification_ids. simpl.
  destruct (mem_string (uuid4 (uuid_drawn w))
              (map Notification.notification_id (notifications (db w))));
    reflexivity.
Qed.

Lemma delete_order_unfolded (now : datetime) (w : World) (order_id : string)
  (customer_id : Z) (o : Order.t) :
  find (owned_order order_id customer_id) (orders (db w)) = Some o ->
  Order.status o = OrderStatus.pending ->
  let assign x :=
    Order.set_updated_at now (Order.set_status OrderStatus.cancelled x) in
  let first_commit :=
    {| users := users (db w); business_owners := business_owners (db w);
       surprise_bags :=
         match get_surprise_bag w (Order.bag_id o) with
         | Some b =>
             update_where (fun r => SurpriseBag.id r =? Order.bag_id o)
               (SurpriseBag.set_quantity_sold (SurpriseBag.quantity_sold b - 1))
               (surprise_bags (db w))
         | None => surprise_bags (db w)
         end;
       orders :=
         update_where (fun x => String.eqb (Order.order_id x) order_id) assign
           (orders (db w));
       notifications := notifications (db w);
       surprise_bags_id_seq := surprise_bags_id_seq (db w) |} in
  let notification :=
    order_update_for (uuid4 (uuid_drawn w)) customer_id "Order Cancelled"
      "Your order has been cancelled." order_id now in
  delete_order uuid4 now w order_id customer_id
  = if mem_string (uuid4 (uuid_drawn w)) (notification_ids (db w))
    then (Raise IntegrityError,
          {| db := first_commit; uuid_drawn := S (uuid_drawn w) |})
    else (Return {| message := "Order cancelled" |},
          {| db := {| users := users (db w);
                      business_owners := business_owners (db w);
                      surprise_bags := surprise_bags first_commit;
                      orders := orders first_commit;
                      notifications := notifications (db w) ++ [notification];
                      surprise_bags_id_seq := surprise_bags_id_seq (db w) |};
             uuid_drawn := S (uuid_drawn w) |}).
Proof.
  intros Hfind Hpending. cbv zeta.
  destruct (owned_order_found _ _ _ _ Hfind) as [_ [Hoid _]]. subst order_id.
  unfold delete_order. rewrite Hfind, Hpending. cbn [negb OrderStatus.eqb].
  destruct (get_surprise_bag w (Order.bag_id o)) as [b|] eqn:Hbag.
  - pose proof (get_surprise_bag_id _ _ _ Hbag) as Hid.
    unfold commit, draw_uuid, with_db. simpl. unfold notification_ids. simpl.
    rewrite Hid.
    destruct (mem_string (uuid4 (uuid_drawn w))
                (map Notification.notification_id (notifications (db w))));
      reflexivity.
  - unfold commit, draw_uuid, with_db. simpl. unfold notification_ids. simpl.
    destruct (mem_string (uuid4 (uuid_drawn w))
                (map Notification.notification_id (notifications (db w))));
      reflexivity.
Qed.

(** X8. [update_order_status] and [delete_order] commit the status change
    before they store the notification: when the uuid drawn for the
    notification is already a notification's key, either call raises
    [IntegrityError] and nevertheless leaves the order with its new status
    and [updated_at] (and, for a cancellation, the listing's
    [quantity_sold] one lower), with no notification added. *)
Theorem status_change_commits_before_notifying :
  forall (now : datetime) (w : World) (order_id : string) (customer_id : Z)
         (status : OrderStatus.t) (o : Order.t),
    find (owned_order order_id customer_id) (orders (db w)) = Some o ->
    In (uuid4 (uuid_drawn w)) (notification_ids (db w)) ->
    (exists w',
       update_order_status uuid4 format_status now w order_id customer_id status
       = (Raise IntegrityError, w')
       /\ find (owned_order order_id customer_id) (orders (db w'))
          = Some (Order.set_updated_at now (Order.set_status status o))
       /\ notifications (db w') = notifications (db w))
    /\ (Order.status o = OrderStatus.pending ->
        exists w',
          delete_order uuid4 now w order_id customer_id
          = (Raise IntegrityError, w')
          /\ find (owned_order order_id customer_id) (orders (db w'))
             = Some (Order.set_updated_at now
                       (Order.set_status OrderStatus.cancelled o))
          /\ (forall b, get_surprise_bag w (Order.bag_id o) = Some b ->
                get_surprise_bag w' (Order.bag_id o)
                = Some (SurpriseBag.set_quantity_sold
                          (SurpriseBag.quantity_sold b - 1) b))
          /\ notifications (db w') = notifications (db w)).
Proof.
  intros now w order_id customer_id status o Hfind Hused.
  apply mem_string_true in Hused.
  pose proof (owned_order_found _ _ _ _ Hfind) as (_ & Hoid & _).
  split.
  - rewrite (update_order_status_unfolded now w order_id customer_id status o Hfind).
    cbv zeta. rewrite Hused. eexists. split; [reflexivity|]. simpl.
    split; [|reflexivity]. subst order_id.
    now apply find_owned_order_after_assign.
  - intros Hpending.
    rewrite (delete_order_unfolded now w order_id customer_id o Hfind Hpending).
    cbv zeta. rewrite Hused. eexists. split; [reflexivity|]. simpl.
    split; [|split; [|reflexivity]].
    + subst order_id. now apply find_owned_order_after_assign.
    + intros b Hb. rewrite Hb. unfold get_surprise_bag. simpl.
      apply find_bag_after_set_same; [reflexivity | exact Hb].
Qed.

(** X9. A cancellation cannot be repeated: in the world a [delete_order] of
    a pending order leaves behind (whether it answered or raised on the
    notification), a second [delete_order] of the same order answers 400
    "Can only delete pending orders" and changes nothing, so the listing's
    [quantity_sold] is not lowered twice. *)
Theorem cancelled_order_cannot_be_cancelled_again :
  forall (now later : datetime) (w : World) (order_id : string)
         (customer_id : Z) (o : Order.t) (w' : World),
    find (owned_order order_id customer_id) (orders (db w)) = Some o ->
    Order.status o = OrderStatus.pending ->
    w' = snd (delete_order uuid4 now w order_id customer_id) ->
    delete_order uuid4 later w' order_id customer_id
    = (Raise (HTTPException 400 "Can only delete pending orders"), w').
Proof.
  intros now later w order_id customer_id o w' Hfind Hpending Hw'.
  destruct (delete_order_pending uuid4 now w order_id customer_id o Hfind Hpending)
    as (r & w1 & Hdel & _ & _ & _ & Hfound & _).
  rewrite Hdel in Hw'. simpl in Hw'. subst w1.
  unfold delete_order. rewrite Hfound. reflexivity.
Qed.

(** ** Creating a listing *)

Lemma new_bag_notifications_rows (now : datetime) (db_bag : SurpriseBag.t)
  (db_business : BusinessOwner.t) (customers : list User.t) :
  forall (w : World) (l : list Notification.t) (w' : World),
    new_bag_notifications uuid4 now db_bag db_business customers w = (l, w') ->
    w' = drawn (List.length customers) w
    /\ map Notification.notification_id l
       = map uuid4 (seq (uuid_drawn w) (List.length customers))
    /\ map Notification.user_id l = map User.id customers
    /\ Forall (fun n =>
                 Notification.type n = NotificationType.new_bag
                 /\ Notification.related_entity_type n = RelatedEntityType.bag
                 /\ Notification.related_entity_id n
                    = str_of_int (SurpriseBag.id db_bag)
                 /\ Notification.is_read n = false) l.
Proof.
  induction customers as [|c customers IH]; intros w l w' H; simpl in H.
  - injection H as Hl Hw. subst l w'. unfold drawn. simpl. rewrite Nat.add_0_r.
    destruct w; simpl; auto.
  - unfold draw_uuid in H. simpl in H.
    destruct (new_bag_notifications uuid4 now db_bag db_business customers
                {| db := db w; uuid_drawn := S (uuid_drawn w) |})
      as [more w2] eqn:E.
    inversion H; subst. clear H.
    destruct (IH _ _ _ E) as (Hw & Hids & Husers & Hall). simpl in *.
    split; [|split; [|split]].
    + rewrite Hw. unfold drawn. simpl. f_equal. lia.
    + now rewrite Hids.
    + now rewrite Husers.
    + constructor; auto.
Qed.

Lemma flush_insert_notifications (l : list Notification.t) :
  forall (d : Database),
    NoDup (notification_ids d ++ map Notification.notification_id l) ->
    flush (map InsertNotification l) d
    = Some {| users := users d; business_owners := business_owners d;
              surprise_bags := surprise_bags d; orders := orders d;
              notifications := notifications d ++ l;
              surprise_bags_id_seq := surprise_bags_id_seq d |}.
Proof.
  induction l as [|n l IH]; intros d Hnd; simpl.
  - rewrite app_nil_r. now destruct d.
  - assert (Hn : mem_string (Notification.notification_id n) (notification_ids d)
                 = false).
    { apply mem_string_false. intros Hin. simpl in Hnd.
      apply NoDup_remove_2 in Hnd. apply Hnd. apply in_or_app. now left. }
    rewrite Hn. rewrite IH.
    + simpl. now rewrite <- app_assoc.
    + unfold notification_ids. simpl. rewrite map_app, <- app_assoc. exact Hnd.
Qed.

Lemma flush_insert_notifications_clash (l : list Notification.t) :
  forall (d : Database),
    NoDup (notification_ids d) ->
    ~ NoDup (notification_ids d ++ map Notification.notification_id l) ->
    flush (map InsertNotification l) d = None.
Proof.
  induction l as [|n l IH]; intros d Hd Hnd; simpl.
  - exfalso. apply Hnd. simpl. now rewrite app_nil_r.
  - destruct (mem_string (Notification.notification_id n) (notification_ids d))
      eqn:Hn; [reflexivity|].
    apply mem_string_false in Hn. apply IH.
    + unfold notification_ids in *. simpl. rewrite map_app. now apply NoDup_snoc.
    + unfold notification_ids in *. simpl. rewrite map_app, <- app_assoc.
      exact Hnd.
Qed.

Lemma create_surprise_bag_unfolded (now : datetime) (w : World)
  (bag : SurpriseBagCreate.t) (business_id : Z) (db_business : BusinessOwner.t) :
  find (fun b => BusinessOwner.owner_id b =? business_id) (business_owners (db w))
  = Some db_business ->
  (SurpriseBagCreate.discount_price bag < SurpriseBagCreate.original_price bag)%Q ->
  SurpriseBagCreate.pickup_start bag < SurpriseBagCreate.pickup_end bag ->
  fits_integer (SurpriseBagCreate.quantity_available bag) = true ->
  ~ In (surprise_bags_id_seq (db w) + 1) (bag_ids (db w)) ->
  let db_bag := new_bag_row (surprise_bags_id_seq (db w) + 1) business_id now bag in
  let customers :=
    filter (fun u => UserRole.eqb (User.role u) UserRole.customer) (users (db w)) in
  let listed :=
    {| users := users (db w); business_owners := business_owners (db w);
       surprise_bags := surprise_bags (db w) ++ [db_bag];
       orders := orders (db w); notifications := notifications (db w);
       surprise_bags_id_seq := surprise_bags_id_seq (db w) + 1 |} in
  let pending :=
    fst (new_bag_notifications uuid4 now db_bag db_business customers
           {| db := listed; uuid_drawn := uuid_drawn w |}) in
  create_surprise_bag uuid4 now w bag business_id
  = match flush (map InsertNotification pending) listed with
    | Some d' =>
        (Return db_bag,
         {| db := d'; uuid_drawn := (uuid_drawn w + List.length customers)%nat |})
    | None =>
        (Raise IntegrityError,
         {| db := listed;
            uuid_drawn := (uuid_drawn w + List.length customers)%nat |})
    end.
Proof.
  intros Hbiz Hprice Htime Hfits Hpk. cbv zeta.
  unfold create_surprise_bag. rewrite Hbiz.
  assert (E1 : Qle_bool (SurpriseBagCreate.original_price bag)
                 (SurpriseBagCreate.discount_price bag) = false).
  { destruct (Qle_bool (SurpriseBagCreate.original_price bag)
                (SurpriseBagCreate.discount_price bag)) eqn:E; [|reflexivity].
    apply Qle_bool_iff in E. exfalso. eapply Qlt_not_le; eauto. }
  assert (E2 : (SurpriseBagCreate.pickup_end bag <=? SurpriseBagCreate.pickup_start bag)
               = false) by (apply Z.leb_gt; lia).
  rewrite E1, E2, Hfits. cbn [negb]. apply mem_Z_false in Hpk.
  unfold commit at 1. simpl. rewrite Hpk. unfold with_db. simpl.
  replace (Z.max (surprise_bags_id_seq (db w)) (surprise_bags_id_seq (db w) + 1))
    with (surprise_bags_id_seq (db w) + 1) by lia.
  match goal with |- context [new_bag_notifications ?u ?n ?b ?o ?c ?x] =>
    destruct (new_bag_notifications u n b o c x) as [pending w2] eqn:N end.
  pose proof (new_bag_notifications_rows _ _ _ _ _ _ _ N) as (Hw2 & _).
  simpl. unfold commit. rewrite Hw2. simpl.
  destruct (flush (map InsertNotification pending) _); reflexivity.
Qed.

(** X10. When the caller has a business profile, the prices and the pickup
    window are in order, the quantity fits the [Integer] column, the next
    listing id is free and the uuids to be drawn are distinct and unused,
    [create_surprise_bag] stores the listing (id from the sequence, prices
    rounded to two decimals, nothing sold, active) and appends exactly one
    unread [new_bag] notification per user whose role is customer, in the
    order of the users table and whether or not the account is active; it
    draws one uuid per such user and touches no order. *)
Theorem create_surprise_bag_notifies_every_customer :
  forall (now : datetime) (w : World) (bag : SurpriseBagCreate.t)
         (business_id : Z) (db_business : BusinessOwner.t),
    find (fun b => BusinessOwner.owner_id b =? business_id)
         (business_owners (db w)) = Some db_business ->
    (SurpriseBagCreate.discount_price bag < SurpriseBagCreate.original_price bag)%Q ->
    SurpriseBagCreate.pickup_start bag < SurpriseBagCreate.pickup_end bag ->
    fits_integer (SurpriseBagCreate.quantity_available bag) = true ->
    ~ In (surprise_bags_id_seq (db w) + 1) (bag_ids (db w)) ->
    NoDup (notification_ids (db w)
           ++ map uuid4
                (seq (uuid_drawn w)
                   (List.length
                      (filter (fun u => UserRole.eqb (User.role u) UserRole.customer)
                         (users (db w)))))) ->
    exists db_bag l w',
      create_surprise_bag uuid4 now w bag business_id = (Return db_bag, w')
      /\ surprise_bags (db w') = (surprise_bags (db w) ++ [db_bag])%list
      /\ SurpriseBag.id db_bag = surprise_bags_id_seq (db w) + 1
      /\ SurpriseBag.business_id db_bag = business_id
      /\ SurpriseBag.quantity_sold db_bag = 0
      /\ SurpriseBag.quantity_available db_bag
         = SurpriseBagCreate.quantity_available bag
      /\ SurpriseBag.original_price db_bag
         = numeric_10_2 (SurpriseBagCreate.original_price bag)
      /\ SurpriseBag.discount_price db_bag
         = numeric_10_2 (SurpriseBagCreate.discount_price bag)
      /\ SurpriseBag.is_active db_bag = true
      /\ notifications (db w') = (notifications (db w) ++ l)%list
      /\ map Notification.user_id l
         = map User.id
             (filter (fun u => UserRole.eqb (User.role u) UserRole.customer)
                (users (db w)))
      /\ Forall (fun n =>
                   Notification.type n = NotificationType.new_bag
                   /\ Notification.related_entity_type n = RelatedEntityType.bag
                   /\ Notification.related_entity_id n
                      = str_of_int (SurpriseBag.id db_bag)
                   /\ Notification.is_read n = false) l
      /\ orders (db w') = orders (db w)
      /\ uuid_drawn w'
         = (uuid_drawn w
            + List.length
                (filter (fun u => UserRole.eqb (User.role u) UserRole.customer)
                   (users (db w))))%nat.
Proof.
  intros now w bag business_id db_business Hbiz Hprice Htime Hfits Hpk Hnd.
  rewrite (create_surprise_bag_unfolded now w bag business_id db_business
             Hbiz Hprice Htime Hfits Hpk).
  cbv zeta.
  match goal with |- context [new_bag_notifications ?u ?n ?b ?o ?c ?x] =>
    destruct (new_bag_notifications u n b o c x) as [pending w2] eqn:N end.
  pose proof (new_bag_notifications_rows _ _ _ _ _ _ _ N)
    as (_ & Hids & Husers & Hall).
  simpl fst. rewrite flush_insert_notifications.
  - eexists _, pending, _. split; [reflexivity|]. simpl. repeat split; auto.
  - unfold notification_ids at 1. simpl. rewrite Hids. exact Hnd.
Qed.

(** X11. [create_surprise_bag] commits the listing before it stores the
    broadcast: when the caller has a business profile, the prices and the
    pickup window are in order, the quantity fits the [Integer] column and
    the next listing id is free, but one of the uuids drawn for the
    notifications is already in use or drawn twice, the call raises
    [IntegrityError], no notification is added, and the listing is stored
    all the same. *)
Theorem create_surprise_bag_commits_before_notifying :
  forall (now : datetime) (w : World) (bag : SurpriseBagCreate.t)
         (business_id : Z) (db_business : BusinessOwner.t),
    find (fun b => BusinessOwner.owner_id b =? business_id)
         (business_owners (db w)) = Some db_business ->
    (SurpriseBagCreate.discount_price bag < SurpriseBagCreate.original_price bag)%Q ->
    SurpriseBagCreate.pickup_start bag < SurpriseBagCreate.pickup_end bag ->
    fits_integer (SurpriseBagCreate.quantity_available bag) = true ->
    ~ In (surprise_bags_id_seq (db w) + 1) (bag_ids (db w)) ->
    NoDup (notification_ids (db w)) ->
    ~ NoDup (notification_ids (db w)
             ++ map uuid4
                  (seq (uuid_drawn w)
                     (List.length
                        (filter (fun u => UserRole.eqb (User.role u) UserRole.customer)
                           (users (db w)))))) ->
    exists w',
      create_surprise_bag uuid4 now w bag business_id = (Raise IntegrityError, w')
      /\ surprise_bags (db w')
         = (surprise_bags (db w)
            ++ [new_bag_row (surprise_bags_id_seq (db w) + 1) business_id now bag])%list
      /\ notifications (db w') = notifications (db w)
      /\ orders (db w') = orders (db w).
Proof.
  intros now w bag business_id db_business Hbiz Hprice Htime Hfits Hpk Hok Hnd.
  rewrite (create_surprise_bag_unfolded now w bag business_id db_business
             Hbiz Hprice Htime Hfits Hpk).
  cbv zeta.
  match goal with |- context [new_bag_notifications ?u ?n ?b ?o ?c ?x] =>
    destruct (new_bag_notifications u n b o c x) as [pending w2] eqn:N end.
  pose proof (new_bag_notifications_rows _ _ _ _ _ _ _ N)
    as (_ & Hids & _).
  simpl fst. rewrite flush_insert_notifications_clash.
  - eexists. split; [reflexivity|]. simpl. repeat split.
  - exact Hok.
  - unfold notification_ids at 1. simpl. rewrite Hids. exact Hnd.
Qed.

(** ** Updating a listing *)


(** ** Reading and deleting notifications *)

Lemma owned_notification_id (notification_id : string) (user_id : Z)
  (rows : list Notification.t) (n : Notification.t) :
  find (owned_notification notification_id user_id) rows = Some n ->
  In n rows /\ Notification.notification_id n = notification_id
  /\ Notification.user_id n = user_id.
Proof.
  intros H. apply find_some in H. destruct H as [Hin H].
  unfold owned_notification in H. apply andb_true_iff in H.
  destruct H as [H1 H2]. apply String.eqb_eq in H1. apply Z.eqb_eq in H2. auto.
Qed.

Lemma mark_notification_as_read_unfolded (w : World) (notification_id : string)
  (user_id : Z) (n : Notification.t) :
  find (owned_notification notification_id user_id) (notifications (db w)) = Some n ->
  mark_notification_as_read w notification_id user_id
  = (Return {| message := "Notification marked as read" |},
     with_db w
       {| users := users (db w); business_owners := business_owners (db w);
          surprise_bags := surprise_bags (db w); orders := orders (db w);
          notifications :=
            update_where
              (fun m => String.eqb (Notification.notification_id m) notification_id)
              (Notification.set_is_read true) (notifications (db w));
          surprise_bags_id_seq := surprise_bags_id_seq (db w) |}).
Proof.
  intros H. pose proof (owned_notification_id _ _ _ _ H) as (_ & Hid & _).
  unfold mark_notification_as_read. rewrite H. unfold commit. simpl.
  now rewrite Hid.
Qed.

Lemma delete_notification_unfolded (w : World) (notification_id : string)
  (user_id : Z) (n : Notification.t) :
  find (owned_notification notification_id user_id) (notifications (db w)) = Some n ->
  delete_notification w notification_id user_id
  = (Return {| message := "Notification deleted" |},
     with_db w
       {| users := users (db w); business_owners := business_owners (db w);
          surprise_bags := surprise_bags (db w); orders := orders (db w);
          notifications :=
            filter
              (fun m => negb (String.eqb (Notification.notification_id m)
                                notification_id))
              (notifications (db w));
          surprise_bags_id_seq := surprise_bags_id_seq (db w) |}).
Proof.
  intros H. pose proof (owned_notification_id _ _ _ _ H) as (_ & Hid & _).
  unfold delete_notification. rewrite H. unfold commit. simpl.
  now rewrite Hid.
Qed.

(** X13. When the caller owns the notification,
    [mark_notification_as_read] answers "Notification marked as read";
    afterwards the notification is found with [is_read] set and every other
    column as before, notifications with another id are exactly those
    stored before, the table has as many rows as before, orders, listings
    and the uuid counter are untouched, and marking it again gives the same
    answer and the same world. *)
Theorem mark_notification_as_read_effect :
  forall (w : World) (notification_id : string) (user_id : Z) (n : Notification.t),
    find (owned_notification notification_id user_id) (notifications (db w))
    = Some n ->
    exists w',
      mark_notification_as_read w notification_id user_id
      = (Return {| message := "Notification marked as read" |}, w')
      /\ find (owned_notification notification_id user_id) (notifications (db w'))
         = Some (Notification.set_is_read true n)
      /\ (forall m, Notification.notification_id m <> notification_id ->
            (In m (notifications (db w')) <-> In m (notifications (db w))))
      /\ List.length (notifications (db w')) = List.length (notifications (db w))
      /\ orders (db w') = orders (db w)
      /\ surprise_bags (db w') = surprise_bags (db w)
      /\ uuid_drawn w' = uuid_drawn w
      /\ mark_notification_as_read w' notification_id user_id
         = (Return {| message := "Notification marked as read" |}, w').
Proof.
  intros w notification_id user_id n Hn.
  pose proof (owned_notification_id _ _ _ _ Hn) as (_ & Hid & _).
  rewrite (mark_notification_as_read_unfolded w notification_id user_id n Hn).
  eexists. split; [reflexivity|]. unfold with_db. simpl.
  assert (Hfound :
    find (owned_notification notification_id user_id)
      (update_where
         (fun m => String.eqb (Notification.notification_id m) notification_id)
         (Notification.set_is_read true) (notifications (db w)))
    = Some (Notification.set_is_read true n)).
  { rewrite find_update_where by reflexivity. rewrite Hn. simpl.
    now rewrite Hid, String.eqb_refl. }
  split; [exact Hfound|]. split; [|split; [|split; [|split; [|split]]]].
  - intros m Hm. unfold update_where. rewrite in_map_iff. split.
    + intros (r & Hr & Hin).
      destruct (String.eqb (Notification.notification_id r) notification_id) eqn:E.
      * apply String.eqb_eq in E. subst m. simpl in Hm. contradiction.
      * now subst m.
    + intros Hin. exists m. split; [|assumption].
      assert (E : String.eqb (Notification.notification_id m) notification_id = false)
        by (now apply String.eqb_neq).
      now rewrite E.
  - apply update_where_length.
  - reflexivity.
  - reflexivity.
  - reflexivity.
  - match goal with |- mark_notification_as_read ?x _ _ = _ =>
      rewrite (mark_notification_as_read_unfolded x notification_id user_id _ Hfound)
    end.
    unfold with_db. simpl. rewrite update_where_twice by reflexivity. reflexivity.
Qed.

(** X14. When the caller owns the notification, [delete_notification]
    answers "Notification deleted"; afterwards no notification has that id,
    notifications with another id are exactly those stored before, orders
    and listings are untouched, and marking or deleting that id again
    answers 404 to any user and changes nothing. *)
Theorem delete_notification_effect :
  forall (w : World) (notification_id : string) (user_id : Z) (n : Notification.t),
    find (owned_notification notification_id user_id) (notifications (db w))
    = Some n ->
    exists w',
      delete_notification w notification_id user_id
      = (Return {| message := "Notification deleted" |}, w')
      /\ ~ In notification_id (notification_ids (db w'))
      /\ (forall m, Notification.notification_id m <> notification_id ->
            (In m (notifications (db w')) <-> In m (notifications (db w))))
      /\ orders (db w') = orders (db w)
      /\ surprise_bags (db w') = surprise_bags (db w)
      /\ uuid_drawn w' = uuid_drawn w
      /\ (forall anyone,
            mark_notification_as_read w' notification_id anyone
            = (Raise (HTTPException 404 "Notification not found or not authorized"),
               w')
            /\ delete_notification w' notification_id anyone
               = (Raise (HTTPException 404 "Notification not found or not authorized"),
                  w')).
Proof.
  intros w notification_id user_id n Hn.
  rewrite (delete_notification_unfolded w notification_id user_id n Hn).
  eexists. split; [reflexivity|]. unfold with_db.
  assert (Hgone : ~ In notification_id
                      (notification_ids
                         (db {| db :=
                                  {| users := users (db w);
                                     business_owners := business_owners (db w);
                                     surprise_bags := surprise_bags (db w);
                                     orders := orders (db w);
                                     notifications :=
                                       filter
                                         (fun m =>
                                            negb (String.eqb
                                                    (Notification.notification_id m)
                                                    notification_id))
                                         (notifications (db w));
                                     surprise_bags_id_seq :=
                                       surprise_bags_id_seq (db w) |};
                                uuid_drawn := uuid_drawn w |}))).
  { unfold notification_ids. simpl. intros Hin. apply in_map_iff in Hin.
    destruct Hin as (m & Hm & Hf). apply filter_In in Hf. destruct Hf as [_ Hf].
    rewrite Hm, String.eqb_refl in Hf. discriminate. }
  split; [exact Hgone|]. split; [|split; [|split; [|split]]].
  - intros m Hm. simpl. rewrite filter_In. split; [tauto|].
    intros Hin. split; [assumption|].
    assert (E : String.eqb (Notification.notification_id m) notification_id = false)
      by (now apply String.eqb_neq).
    now rewrite E.
  - reflexivity.
  - reflexivity.
  - reflexivity.
  - intros anyone. unfold mark_notification_as_read, delete_notification.
    now rewrite (owned_notification_absent _ notification_id anyone Hgone).
Qed.

(** ** What no operation of the service layer does *)

Lemma same_order_but_status_refl (o : Order.t) : same_order_but_status o o.
Proof. unfold same_order_but_status. repeat split. Qed.

Lemma same_order_but_status_trans (a b c : Order.t) :
  same_order_but_status a b -> same_order_but_status b c ->
  same_order_but_status a c.
Proof.
  unfold same_order_but_status.
  intros (A1 & A2 & A3 & A4 & A5 & A6 & A7 & A8)
         (B1 & B2 & B3 & B4 & B5 & B6 & B7 & B8).
  repeat split; congruence.
Qed.

Lemma keeps_rows_refl (d : Database) : keeps_rows d d.
Proof.
  unfold keeps_rows. repeat split; auto.
  - intros b Hb. exists b. auto.
  - intros o Ho. exists o. split; [assumption | apply same_order_but_status_refl].
Qed.

Lemma keeps_rows_trans (a b c : Database) :
  keeps_rows a b -> keeps_rows b c -> keeps_rows a c.
Proof.
  intros (A1 & A2 & A3 & A4) (B1 & B2 & B3 & B4).
  unfold keeps_rows. split; [congruence|]. split; [congruence|]. split.
  - intros x Hx. destruct (A3 x Hx) as (y & Hy & E1 & E2 & E3).
    destruct (B3 y Hy) as (z & Hz & F1 & F2 & F3).
    exists z. repeat split; congruence.
  - intros x Hx. destruct (A4 x Hx) as (y & Hy & E).
    destruct (B4 y Hy) as (z & Hz & F).
    exists z. split; [assumption|]. eapply same_order_but_status_trans; eauto.
Qed.

Lemma in_update_where {A : Type} (p : A -> bool) (f : A -> A) (rows : list A) (r : A) :
  In r rows -> In (if p r then f r else r) (update_where p f rows).
Proof.
  intros H. unfold update_where. apply in_map_iff. exists r. auto.
Qed.

Lemma apply_change_keeps_rows (c : change) (d d' : Database) :
  gentle c -> apply_change c d = Some d' -> keeps_rows d d'.
Proof.
  intros Hg H. pose proof (apply_change_tables c d d' H) as (Hb & Ho & _ & Hu & Hbo).
  unfold keeps_rows. split; [assumption|]. split; [assumption|]. split.
  - intros b Hin. rewrite Hb. destruct c; simpl in *;
      try (exists b; repeat split; assumption).
    + exists b. repeat split; auto. apply in_or_app. now left.
    + eexists. split; [apply in_update_where; exact Hin|].
      destruct (SurpriseBag.id b =? pk); [apply Hg | repeat split].
  - intros o Hin. rewrite Ho. destruct c; simpl in *;
      try (exists o; split; [assumption | apply same_order_but_status_refl]).
    + exists o. split; [apply in_or_app; now left | apply same_order_but_status_refl].
    + eexists. split; [apply in_update_where; exact Hin|].
      destruct (String.eqb (Order.order_id o) pk);
        [apply Hg | apply same_order_but_status_refl].
Qed.

Lemma flush_keeps_rows (changes : list change) :
  forall (d d' : Database),
    Forall gentle changes -> flush changes d = Some d' -> keeps_rows d d'.
Proof.
  induction changes as [|c cs IH]; simpl; intros d d' Hg H.
  - inversion H; subst. apply keeps_rows_refl.
  - inversion Hg as [|? ? Hc Hcs]; subst.
    destruct (apply_change c d) as [d1|] eqn:E; [|discriminate].
    eapply keeps_rows_trans; [eapply apply_change_keeps_rows; eauto|].
    now apply IH.
Qed.

Lemma db_path_keeps_rows (d d' : Database) : db_path d d' -> keeps_rows d d'.
Proof.
  induction 1 as [d | d changes d1 d' Hg Hflush _ IH].
  - apply keeps_rows_refl.
  - eapply keeps_rows_trans; [eapply flush_keeps_rows; eauto | exact IH].
Qed.

Lemma db_path_trans (d1 d2 d3 : Database) :
  db_path d1 d2 -> db_path d2 d3 -> db_path d1 d3.
Proof. induction 1; auto. intros H3. econstructor; eauto. Qed.

Lemma commit_path (changes : list change) (w w1 : World) :
  Forall gentle changes -> commit changes w = Some w1 -> db_path (db w) (db w1).
Proof.
  unfold commit. intros Hg H.
  destruct (flush changes (db w)) as [d1|] eqn:E; [|discriminate].
  inversion H; subst. simpl. econstructor; eauto. constructor.
Qed.

Lemma gentle_insert_notifications (l : list Notification.t) :
  Forall gentle (map InsertNotification l).
Proof. induction l; simpl; constructor; simpl; auto. Qed.

Ltac all_gentle :=
  simpl; repeat constructor; simpl; auto using gentle_insert_notifications;
  try (intros; unfold same_order_but_status, same_notification_but_read;
       repeat split; reflexivity).

Ltac along_commits :=
  repeat match goal with
         | H : commit ?cs ?w = Some ?w1 |- _ =>
             apply commit_path in H; [simpl in H | solve [all_gentle]]
         end.

Ltac two_commits w :=
  match goal with |- context [commit ?cs w] =>
    destruct (commit cs w) as [?w1|] eqn:?C1 end; cbv beta iota zeta;
  try (simpl; constructor);
  match goal with |- context [commit ?cs ?x] =>
    destruct (commit cs x) as [?w2|] eqn:?C2 end; simpl;
  along_commits; eauto using db_path_trans, db_path_refl.

Ltac one_commit w :=
  match goal with |- context [commit ?cs w] =>
    destruct (commit cs w) as [?w1|] eqn:?C1 end; simpl;
  along_commits; eauto using db_path_refl.

Lemma step_path (w : World) (op : Op) (w' : World) :
  step uuid4 format_status w op w' -> db_path (db w) (db w').
Proof.
  intros [fuel now H]. destruct op; simpl in H.
  - destruct (create_order uuid4 fuel now w order customer_id) as [[r w1]|] eqn:E;
      [|discriminate].
    inversion H; subst. clear H. unfold create_order in E.
    destruct (get_surprise_bag w (OrderCreate.bag_id order)) as [b|];
      [|inversion E; constructor].
    destruct (negb (SurpriseBag.is_active b)); [inversion E; constructor|].
    destruct (SurpriseBag.quantity_available b <=? SurpriseBag.quantity_sold b);
      [inversion E; constructor|].
    destruct (generate_pickup_code uuid4 fuel w) as [[code w1]|] eqn:G;
      [|discriminate].
    apply generate_pickup_code_db in G. destruct G as [G _].
    unfold draw_uuid in E. cbv beta iota zeta in E.
    match type of E with context [commit ?cs ?x] =>
      destruct (commit cs x) as [w2|] eqn:C1 end;
      [|inversion E; subst; simpl; rewrite G; constructor].
    match type of E with context [commit ?cs ?x] =>
      destruct (commit cs x) as [w3|] eqn:C2 end;
      inversion E; subst; along_commits; rewrite ?G in *; simpl;
      eauto using db_path_trans, db_path_refl.
  - inversion H; subst. clear H. unfold delete_order.
    destruct (find (owned_order order_id customer_id) (orders (db w))) as [o|];
      [|constructor].
    destruct (negb (OrderStatus.eqb (Order.status o) OrderStatus.pending));
      [constructor|].
    unfold draw_uuid.
    destruct (get_surprise_bag w (Order.bag_id o)) as [b|]; cbv zeta;
      two_commits w.
  - inversion H; subst. clear H. unfold update_order_status.
    destruct (find (owned_order order_id customer_id) (orders (db w))) as [o|];
      [|constructor].
    unfold draw_uuid. cbv zeta. two_commits w.
  - inversion H; subst. clear H. unfold create_surprise_bag.
    destruct (find (fun b => BusinessOwner.owner_id b =? business_id)
                (business_owners (db w))) as [db_business|]; [|constructor].
    destruct (Qle_bool (SurpriseBagCreate.original_price bag)
                (SurpriseBagCreate.discount_price bag)); [constructor|].
    destruct (SurpriseBagCreate.pickup_end bag <=? SurpriseBagCreate.pickup_start bag);
      [constructor|].
    cbv zeta.
    destruct (fits_integer (SurpriseBagCreate.quantity_available bag));
      cbn [negb]; [|constructor].
    match goal with |- context [commit ?cs w] =>
      destruct (commit cs w) as [w1|] eqn:C1 end; [|constructor].
    match goal with |- context [new_bag_notifications ?u ?n ?b ?o ?c ?x] =>
      pose proof (new_bag_notifications_db u n b o c x) as Hdb;
      destruct (new_bag_notifications u n b o c x) as [pending w2] eqn:N end.
    simpl in Hdb.
    match goal with |- context [commit ?cs w2] =>
      destruct (commit cs w2) as [w3|] eqn:C2 end; simpl;
      along_commits; rewrite ?Hdb in *;
      eauto using db_path_trans, db_path_refl.
  - inversion H; subst. clear H. unfold update_surprise_bag.
    destruct (find (owned_bag bag_id business_id) (surprise_bags (db w))) as [b|];
      [|constructor].
    destruct (fits_integer (SurpriseBagCreate.quantity_available bag_update));
      cbn [negb]; [|constructor].
    one_commit w.
  - inversion H; subst. clear H. unfold delete_surprise_bag.
    destruct (find (owned_bag bag_id business_id) (surprise_bags (db w))) as [b|];
      [|constructor].
    cbv zeta.
    match goal with |- context [if ?c then _ else _] => destruct c end;
      [constructor|].
    one_commit w.
  - inversion H; subst. clear H. unfold mark_notification_as_read.
    destruct (find (owned_notification notification_id user_id)
                (notifications (db w))) as [n|]; [|constructor].
    one_commit w.
  - inversion H; subst. clear H. unfold delete_notification.
    destruct (find (owned_notification notification_id user_id)
                (notifications (db w))) as [n|]; [|constructor].
    one_commit w.
Qed.

Lemma execution_keeps_rows (w0 : World) (ops : list Op) (ws : list World) :
  execution uuid4 format_status w0 ops ws ->
  Forall (fun w => keeps_rows (db w0) (db w)) ws.
Proof.
  induction 1 as [w | w op w1 ops ws Hstep _ IH]; [constructor|].
  apply step_path, db_path_keeps_rows in Hstep.
  constructor; [assumption|].
  eapply Forall_impl; [|exact IH].
  intros x Hx. eapply keeps_rows_trans; eauto.
Qed.

(** X15. Along any run of the service operations, every order stored at
    the start is still stored in every world visited, with the same id,
    customer, listing, price, pickup code, creation time, rating and
    feedback: an operation changes at most an order's status and
    [updated_at], and none removes an order. *)
Theorem orders_keep_their_terms :
  forall (w0 : World) (ops : list Op) (ws : list World),
    execution uuid4 format_status w0 ops ws ->
    Forall (fun w =>
              forall o, In o (orders (db w0)) ->
                exists o', In o' (orders (db w)) /\ same_order_but_status o o') ws.
Proof.
  intros w0 ops ws H. apply execution_keeps_rows in H.
  eapply Forall_impl; [|exact H]. intros w Hk. apply Hk.
Qed.

(** X16. Along any run of the service operations the users and the
    business-owner profiles are never written, and every listing stored at
    the start is still stored in every world visited with the same id,
    business and creation time: listings are never removed nor handed to
    another business. *)
Theorem listings_and_accounts_persist :
  forall (w0 : World) (ops : list Op) (ws : list World),
    execution uuid4 format_status w0 ops ws ->
    Forall (fun w =>
              users (db w) = users (db w0)
              /\ business_owners (db w) = business_owners (db w0)
              /\ forall b, In b (surprise_bags (db w0)) ->
                   exists b', In b' (surprise_bags (db w))
                              /\ SurpriseBag.id b' = SurpriseBag.id b
                              /\ SurpriseBag.business_id b' = SurpriseBag.business_id b
                              /\ SurpriseBag.created_at b' = SurpriseBag.created_at b)
           ws.
Proof.
  intros w0 ops ws H. apply execution_keeps_rows in H.
  eapply Forall_impl; [|exact H]. intros w (H1 & H2 & H3 & _). auto.
Qed.

End MoreProperties.

(** ** Accounts *)

Section AccountProperties.

Variable get_password_hash : string -> string.

Lemma find_email_none (w : World) (email : string) :
  find (fun u => String.eqb (User.email u) email) (users (db w)) = None
  <-> ~ In email (user_emails (db w)).
Proof.
  split.
  - intros H Hin. unfold user_emails in Hin. apply in_map_iff in Hin.
    destruct Hin as (u & Hu & Hin). pose proof (find_none _ _ H u Hin) as Hf.
    simpl in Hf. rewrite Hu, String.eqb_refl in Hf. discriminate.
  - intros H.
    destruct (find (fun u => String.eqb (User.email u) email) (users (db w)))
      as [u|] eqn:E; [|reflexivity].
    apply find_some in E. destruct E as [Hin E]. apply String.eqb_eq in E.
    exfalso. apply H. unfold user_emails. rewrite <- E. now apply in_map.
Qed.

(** X17. [create_user] answers 400 "Email already registered" and changes
    nothing when a stored user has the email.  Otherwise, the id handed out
    being unused, it appends one active user with the given email, name,
    phone and role whose [password_hash] is the hash of the password, and
    writes no other table; an id already in use is the flush's
    [IntegrityError] with nothing stored.  Whatever the outcome, pairwise
    distinct emails stay pairwise distinct. *)
Theorem create_user_outcomes :
  forall (new_id : Z) (now : datetime) (w : World) (user : UserCreate.t),
    (In (UserCreate.email user) (user_emails (db w)) ->
     create_user get_password_hash new_id now w user
     = (Raise (HTTPException 400 "Email already registered"), w))
    /\ (~ In (UserCreate.email user) (user_emails (db w)) ->
        In new_id (user_ids (db w)) ->
        create_user get_password_hash new_id now w user
        = (Raise IntegrityError, w))
    /\ (~ In (UserCreate.email user) (user_emails (db w)) ->
        ~ In new_id (user_ids (db w)) ->
        exists u w',
          create_user get_password_hash new_id now w user = (Return u, w')
          /\ users (db w') = (users (db w) ++ [u])%list
          /\ User.id u = new_id
          /\ User.email u = UserCreate.email user
          /\ User.password_hash u = get_password_hash (UserCreate.password user)
          /\ User.name u = UserCreate.name user
          /\ User.phone u = UserCreate.phone user
          /\ User.role u = UserCreate.role user
          /\ User.is_active u = true
          /\ business_owners (db w') = business_owners (db w)
          /\ surprise_bags (db w') = surprise_bags (db w)
          /\ orders (db w') = orders (db w)
          /\ notifications (db w') = notifications (db w)
          /\ uuid_drawn w' = uuid_drawn w)
    /\ (NoDup (user_emails (db w)) ->
        NoDup (user_emails
                 (db (snd (create_user get_password_hash new_id now w user))))).
Proof.
  intros new_id now w user.
  assert (Htaken : In (UserCreate.email user) (user_emails (db w)) ->
            create_user get_password_hash new_id now w user
            = (Raise (HTTPException 400 "Email already registered"), w)).
  { intros Hin. unfold create_user.
    destruct (find (fun u => String.eqb (User.email u) (UserCreate.email user))
                (users (db w))) as [u|] eqn:E; [reflexivity|].
    apply find_email_none in E. contradiction. }
  assert (Hclash : ~ In (UserCreate.email user) (user_emails (db w)) ->
            In new_id (user_ids (db w)) ->
            create_user get_password_hash new_id now w user
            = (Raise IntegrityError, w)).
  { intros Hfree Hid. unfold create_user.
    rewrite (proj2 (find_email_none w _) Hfree).
    unfold commit_accounts. simpl.
    assert (E : mem_Z new_id (user_ids (db w)) = true).
    { destruct (mem_Z new_id (user_ids (db w))) eqn:E; [reflexivity|].
      apply mem_Z_false in E. contradiction. }
    now rewrite E. }
  split; [exact Htaken|]. split; [exact Hclash|]. split.
  - intros Hfree Hid. unfold create_user.
    rewrite (proj2 (find_email_none w _) Hfree).
    unfold commit_accounts. simpl.
    apply mem_Z_false in Hid. apply mem_string_false in Hfree.
    rewrite Hid, Hfree. simpl.
    eexists _, _. split; [reflexivity|]. simpl. repeat split.
  - intros Hnd.
    destruct (in_dec string_dec (UserCreate.email user) (user_emails (db w)))
      as [Hin | Hfree]; [now rewrite (Htaken Hin)|].
    destruct (in_dec Z.eq_dec new_id (user_ids (db w))) as [Hid | Hid];
      [now rewrite (Hclash Hfree Hid)|].
    unfold create_user. rewrite (proj2 (find_email_none w _) Hfree).
    unfold commit_accounts. simpl.
    pose proof Hid as Hid'. pose proof Hfree as Hfree'.
    apply mem_Z_false in Hid'. apply mem_string_false in Hfree'.
    rewrite Hid', Hfree'. simpl. unfold user_emails in *. simpl.
    rewrite map_app. now apply NoDup_snoc.
Qed.

Lemma get_user_by_id_found (w : World) (user_id : Z) (u : User.t) :
  get_user_by_id w user_id = Some u -> In u (users (db w)) /\ User.id u = user_id.
Proof.
  unfold get_user_by_id. intros H. apply find_some in H.
  destruct H as [Hin H]. apply Z.eqb_eq in H. auto.
Qed.

Lemma delete_user_unfolded (w : World) (user_id : Z) (u : User.t) :
  get_user_by_id w user_id = Some u ->
  delete_user w user_id
  = (Return {| message := "User deactivated" |},
     with_db w
       (with_users (db w)
          (update_where (fun x => User.id x =? user_id) (User_set_is_active false)
             (users (db w))))).
Proof.
  intros H. pose proof (get_user_by_id_found _ _ _ H) as [_ Hid].
  unfold delete_user. rewrite H. unfold commit_accounts. simpl. now rewrite Hid.
Qed.

(** X18. [delete_user] answers 404 when no user has the id.  Otherwise it
    answers "User deactivated" and only clears [is_active] of that user:
    no row is removed, ids and emails are as before, other users, listings,
    orders and notifications are untouched.  The email therefore stays
    taken (a later [create_user] with it answers 400), and deleting the
    user again gives the same answer and the same world. *)
Theorem delete_user_outcomes :
  forall (w : World) (user_id : Z),
    (get_user_by_id w user_id = None ->
     delete_user w user_id = (Raise (HTTPException 404 "User not found"), w))
    /\ (forall u,
          get_user_by_id w user_id = Some u ->
          exists w',
            delete_user w user_id = (Return {| message := "User deactivated" |}, w')
            /\ get_user_by_id w' user_id = Some (User_set_is_active false u)
            /\ (forall other, other <> user_id ->
                  get_user_by_id w' other = get_user_by_id w other)
            /\ user_ids (db w') = user_ids (db w)
            /\ user_emails (db w') = user_emails (db w)
            /\ business_owners (db w') = business_owners (db w)
            /\ surprise_bags (db w') = surprise_bags (db w)
            /\ orders (db w') = orders (db w)
            /\ notifications (db w') = notifications (db w)
            /\ (forall new_id now user,
                  UserCreate.email user = User.email u ->
                  create_user get_password_hash new_id now w' user
                  = (Raise (HTTPException 400 "Email already registered"), w'))
            /\ delete_user w' user_id
               = (Return {| message := "User deactivated" |}, w')).
Proof.
  intros w user_id. split.
  - intros H. unfold delete_user. now rewrite H.
  - intros u Hu. pose proof (get_user_by_id_found _ _ _ Hu) as [Hin Hid].
    rewrite (delete_user_unfolded w user_id u Hu).
    eexists. split; [reflexivity|]. unfold with_db, with_users. simpl.
    assert (Hfound :
      get_user_by_id
        {| db := {| users :=
                      update_where (fun x => User.id x =? user_id)
                        (User_set_is_active false) (users (db w));
                    business_owners := business_owners (db w);
                    surprise_bags := surprise_bags (db w);
                    orders := orders (db w);
                    notifications := notifications (db w);
                    surprise_bags_id_seq := surprise_bags_id_seq (db w) |};
           uuid_drawn := uuid_drawn w |} user_id
      = Some (User_set_is_active false u)).
    { unfold get_user_by_id in *. simpl.
      rewrite find_update_where by reflexivity. rewrite Hu. simpl.
      now rewrite Hid, Z.eqb_refl. }
    assert (Hemails :
      map User.email
        (update_where (fun x => User.id x =? user_id) (User_set_is_active false)
           (users (db w))) = map User.email (users (db w)))
      by (now apply map_update_where).
    split; [exact Hfound|]. split; [|split; [|split; [|split; [|split; [|split;
      [|split; [|split]]]]]]].
    + intros other Hother. unfold get_user_by_id. simpl.
      rewrite find_update_where by reflexivity.
      destruct (find (fun x => User.id x =? other) (users (db w))) as [x|] eqn:Hx;
        simpl; [|reflexivity].
      apply find_some in Hx. destruct Hx as [_ Hx]. apply Z.eqb_eq in Hx.
      assert (E : (User.id x =? user_id) = false) by (apply Z.eqb_neq; congruence).
      now rewrite E.
    + unfold user_ids. simpl. now apply map_update_where.
    + unfold user_emails. simpl. exact Hemails.
    + reflexivity.
    + reflexivity.
    + reflexivity.
    + reflexivity.
    + intros new_id now user Hemail. unfold create_user. simpl.
      destruct (find (fun x => String.eqb (User.email x) (UserCreate.email user))
                  (update_where (fun x => User.id x =? user_id)
                     (User_set_is_active false) (users (db w)))) as [x|] eqn:E;
        [reflexivity|].
      exfalso.
      assert (Hmem : In (User.email u)
                       (map User.email
                          (update_where (fun x => User.id x =? user_id)
                             (User_set_is_active false) (users (db w))))).
      { rewrite Hemails. now apply in_map. }
      apply in_map_iff in Hmem. destruct Hmem as (y & Hy & Hyin).
      pose proof (find_none _ _ E y Hyin) as Hf. simpl in Hf.
      rewrite Hy, Hemail, String.eqb_refl in Hf. discriminate.
    + match goal with |- delete_user ?x _ = _ =>
        rewrite (delete_user_unfolded x user_id _ Hfound) end.
      unfold with_db, with_users. simpl.
      now rewrite update_where_twice by reflexivity.
Qed.

Lemma get_business_owner_found (w : World) (user_id : Z) (b : BusinessOwner.t) :
  get_business_owner w user_id = Some b ->
  In b (business_owners (db w)) /\ BusinessOwner.owner_id b = user_id.
Proof.
  unfold get_business_owner. intros H. apply find_some in H.
  destruct H as [Hin H]. apply Z.eqb_eq in H. auto.
Qed.

Lemma get_business_owner_none (w : World) (user_id : Z) :
  get_business_owner w user_id = None <-> ~ In user_id (business_owner_ids (db w)).
Proof.
  split.
  - intros H Hin. unfold business_owner_ids in Hin. apply in_map_iff in Hin.
    destruct Hin as (b & Hb & Hin). pose proof (find_none _ _ H b Hin) as Hf.
    simpl in Hf. rewrite Hb, Z.eqb_refl in Hf. discriminate.
  - intros H. destruct (get_business_owner w user_id) as [b|] eqn:E; [|reflexivity].
    apply get_business_owner_found in E. destruct E as [Hin E].
    exfalso. apply H. unfold business_owner_ids. rewrite <- E. now apply in_map.
Qed.

(** X19. [create_business_owner] answers 403 when the user is missing or is
    not a business owner; whether the account is active is not looked at.
    For a business-owner user without a profile it appends an unverified
    profile keyed by the user's id, which [get_business_owner] then finds,
    and writes nothing else; for one who already has a profile the insert
    violates the primary key: [IntegrityError], nothing stored. *)
Theorem create_business_owner_outcomes :
  forall (now : datetime) (w : World) (business_owner : BusinessOwnerCreate.t)
         (user_id : Z),
    (get_user_by_id w user_id = None ->
     create_business_owner now w business_owner user_id
     = (Raise (HTTPException 403 "User must be a business owner"), w))
    /\ (forall u,
          get_user_by_id w user_id = Some u ->
          (User.role u = UserRole.customer ->
           create_business_owner now w business_owner user_id
           = (Raise (HTTPException 403 "User must be a business owner"), w))
          /\ (User.role u = UserRole.business_owner ->
              In user_id (business_owner_ids (db w)) ->
              create_business_owner now w business_owner user_id
              = (Raise IntegrityError, w))
          /\ (User.role u = UserRole.business_owner ->
              ~ In user_id (business_owner_ids (db w)) ->
              exists b w',
                create_business_owner now w business_owner user_id = (Return b, w')
                /\ business_owners (db w') = (business_owners (db w) ++ [b])%list
                /\ get_business_owner w' user_id = Some b
                /\ BusinessOwner.owner_id b = user_id
                /\ BusinessOwner.is_verified b = false
                /\ BusinessOwner.business_name b
                   = BusinessOwnerCreate.business_name business_owner
                /\ BusinessOwner.address b
                   = BusinessOwnerCreate.address business_owner
                /\ users (db w') = users (db w)
                /\ surprise_bags (db w') = surprise_bags (db w)
                /\ orders (db w') = orders (db w)
                /\ notifications (db w') = notifications (db w))).
Proof.
  intros now w business_owner user_id. split.
  - intros H. unfold create_business_owner. now rewrite H.
  - intros u Hu. split; [|split].
    + intros Hrole. unfold create_business_owner. now rewrite Hu, Hrole.
    + intros Hrole Hin. unfold create_business_owner. rewrite Hu, Hrole. simpl.
      unfold commit_accounts. simpl.
      assert (E : mem_Z user_id (business_owner_ids (db w)) = true).
      { destruct (mem_Z user_id (business_owner_ids (db w))) eqn:E; [reflexivity|].
        apply mem_Z_false in E. contradiction. }
      now rewrite E.
    + intros Hrole Hfree. unfold create_business_owner. rewrite Hu, Hrole. simpl.
      unfold commit_accounts. simpl.
      pose proof Hfree as Hfree'. apply mem_Z_false in Hfree'. rewrite Hfree'.
      eexists _, _. split; [reflexivity|]. simpl.
      split; [reflexivity|]. split; [|repeat split].
      unfold get_business_owner. simpl. apply find_snoc_fresh.
      * now apply get_business_owner_none.
      * simpl. apply Z.eqb_refl.
Qed.

Lemma find_user_after_deactivation (user_id : Z) (rows : list User.t) (u : User.t) :
  find (fun x => User.id x =? user_id) rows = Some u ->
  find (fun x => User.id x =? user_id)
       (update_where (fun x => User.id x =? User.id u) (User_set_is_active false) rows)
  = Some (User_set_is_active false u).
Proof.
  intros H. rewrite find_update_where by reflexivity. rewrite H. simpl.
  now rewrite Z.eqb_refl.
Qed.

(** X20. [delete_business_owner] answers 404 when the user has no profile.
    Otherwise it answers after clearing [is_verified] of the profile and
    [is_active] of the user (when there is one): the profile row stays, so
    [get_business_owner] and the business lookup of [create_surprise_bag]
    still find it, and the listings and orders of the business are left
    exactly as they were, active ones included. *)
Theorem delete_business_owner_outcomes :
  forall (w : World) (user_id : Z),
    (get_business_owner w user_id = None ->
     delete_business_owner w user_id
     = (Raise (HTTPException 404 "Business owner not found"), w))
    /\ (forall b,
          get_business_owner w user_id = Some b ->
          exists w',
            delete_business_owner w user_id
            = (Return {| message := "Business owner and associated user deactivated" |},
               w')
            /\ get_business_owner w' user_id
               = Some (BusinessOwner_set_is_verified false b)
            /\ business_owner_ids (db w') = business_owner_ids (db w)
            /\ (forall u, get_user_by_id w user_id = Some u ->
                  get_user_by_id w' user_id = Some (User_set_is_active false u))
            /\ user_ids (db w') = user_ids (db w)
            /\ user_emails (db w') = user_emails (db w)
            /\ surprise_bags (db w') = surprise_bags (db w)
            /\ orders (db w') = orders (db w)
            /\ notifications (db w') = notifications (db w)).
Proof.
  intros w user_id. split.
  - intros H. unfold delete_business_owner. now rewrite H.
  - intros b Hb. pose proof (get_business_owner_found _ _ _ Hb) as [_ Hid].
    assert (Hprofile :
      find (fun x => BusinessOwner.owner_id x =? user_id)
        (update_where (fun x => BusinessOwner.owner_id x =? BusinessOwner.owner_id b)
           (BusinessOwner_set_is_verified false) (business_owners (db w)))
      = Some (BusinessOwner_set_is_verified false b)).
    { rewrite find_update_where by reflexivity.
      unfold get_business_owner in Hb. rewrite Hb. simpl.
      now rewrite Z.eqb_refl. }
    unfold delete_business_owner. rewrite Hb.
    destruct (get_user_by_id w user_id) as [u|] eqn:Hu.
    + unfold commit_accounts. simpl.
      eexists. split; [reflexivity|]. simpl.
      split; [exact Hprofile|]. split; [|split; [|split; [|split]]].
      * unfold business_owner_ids. simpl. now apply map_update_where.
      * intros u0 Hu0. inversion Hu0; subst u0.
        unfold get_user_by_id in *. simpl.
        now apply find_user_after_deactivation.
      * unfold user_ids. simpl. now apply map_update_where.
      * unfold user_emails. simpl. now apply map_update_where.
      * repeat split.
    + unfold commit_accounts. simpl.
      eexists. split; [reflexivity|]. simpl.
      split; [exact Hprofile|]. split; [|split; [|split; [|split]]].
      * unfold business_owner_ids. simpl. now apply map_update_where.
      * intros u0 Hu0. discriminate.
      * reflexivity.
      * reflexivity.
      * repeat split.
Qed.

End AccountProperties.

(** ** The role checks of the endpoints *)

Section EndpointProperties.

Variable uuid4 : nat -> string.
Variable format_status : OrderStatus.t -> string.

Lemma create_order_bags (fuel : nat) (now : datetime) (w : World)
  (order : OrderCreate.t) (customer_id : Z) (r : result Order.t) (w' : World) :
  create_order uuid4 fuel now w order customer_id = Some (r, w') ->
  surprise_bags (db w') = surprise_bags (db w)
  \/ exists pk v,
       surprise_bags (db w')
       = update_where (fun b => SurpriseBag.id b =? pk)
           (SurpriseBag.set_quantity_sold v) (surprise_bags (db w)).
Proof.
  unfold create_order. intros H.
  destruct (get_surprise_bag w (OrderCreate.bag_id order)) as [b|];
    [|inversion H; subst; now left].
  destruct (negb (SurpriseBag.is_active b)); [inversion H; subst; now left|].
  destruct (SurpriseBag.quantity_available b <=? SurpriseBag.quantity_sold b);
    [inversion H; subst; now left|].
  destruct (generate_pickup_code uuid4 fuel w) as [[code w1]|] eqn:G;
    [|discriminate].
  apply generate_pickup_code_db in G. destruct G as [Gdb _].
  unfold draw_uuid in H. cbv zeta beta iota in H.
  match type of H with context [commit ?cs ?x] =>
    destruct (commit cs x) as [w2|] eqn:C1 end;
    [|inversion H; subst; simpl; rewrite Gdb; now left].
  apply commit_tables in C1. simpl in C1. destruct C1 as (C1 & _).
  rewrite Gdb in C1.
  match type of H with context [commit ?cs ?x] =>
    destruct (commit cs x) as [w3|] eqn:C2 end.
  - apply commit_tables in C2. simpl in C2. destruct C2 as (C2 & _).
    inversion H; subst. right. eexists _, _. rewrite C2. exact C1.
  - inversion H; subst. simpl. right. eexists _, _. exact C1.
Qed.

Lemma delete_order_bags (now : datetime) (w : World) (order_id : string)
  (customer_id : Z) :
  surprise_bags (db (snd (delete_order uuid4 now w order_id customer_id)))
  = surprise_bags (db w)
  \/ exists pk v,
       surprise_bags (db (snd (delete_order uuid4 now w order_id customer_id)))
       = update_where (fun b => SurpriseBag.id b =? pk)
           (SurpriseBag.set_quantity_sold v) (surprise_bags (db w)).
Proof.
  unfold delete_order.
  destruct (find (owned_order order_id customer_id) (orders (db w))) as [o|];
    [|now left].
  destruct (negb (OrderStatus.eqb (Order.status o) OrderStatus.pending));
    [now left|].
  unfold draw_uuid.
  destruct (get_surprise_bag w (Order.bag_id o)) as [b|]; cbv zeta.
  - match goal with |- context [commit ?cs w] =>
      destruct (commit cs w) as [w1|] eqn:C1 end; [|now left].
    apply commit_tables in C1. simpl in C1. destruct C1 as (C1 & _).
    cbv beta iota zeta.
    match goal with |- context [commit ?cs ?x] =>
      destruct (commit cs x) as [w2|] eqn:C2 end; simpl.
    + apply commit_tables in C2. simpl in C2. destruct C2 as (C2 & _).
      right. eexists _, _. rewrite C2. exact C1.
    + right. eexists _, _. exact C1.
  - match goal with |- context [commit ?cs w] =>
      destruct (commit cs w) as [w1|] eqn:C1 end; [|now left].
    apply commit_tables in C1. simpl in C1. destruct C1 as (C1 & _).
    cbv beta iota zeta.
    match goal with |- context [commit ?cs ?x] =>
      destruct (commit cs x) as [w2|] eqn:C2 end; simpl.
    + apply commit_tables in C2. simpl in C2. destruct C2 as (C2 & _).
      left. now rewrite C2.
    + now left.
Qed.

Lemma create_surprise_bag_bags (now : datetime) (w : World)
  (bag : SurpriseBagCreate.t) (business_id : Z) :
  surprise_bags (db (snd (create_surprise_bag uuid4 now w bag business_id)))
  = surprise_bags (db w)
  \/ exists b,
       surprise_bags (db (snd (create_surprise_bag uuid4 now w bag business_id)))
       = (surprise_bags (db w) ++ [b])%list.
Proof.
  unfold create_surprise_bag.
  destruct (find (fun b => BusinessOwner.owner_id b =? business_id)
              (business_owners (db w))) as [db_business|]; [|now left].
  destruct (Qle_bool (SurpriseBagCreate.original_price bag)
              (SurpriseBagCreate.discount_price bag)); [now left|].
  destruct (SurpriseBagCreate.pickup_end bag <=? SurpriseBagCreate.pickup_start bag);
    [now left|].
  cbv zeta.
  destruct (fits_integer (SurpriseBagCreate.quantity_available bag));
    cbn [negb]; [|now left].
  match goal with |- context [commit ?cs w] =>
    destruct (commit cs w) as [w1|] eqn:C1 end; [|now left].
  apply commit_tables in C1. simpl in C1. destruct C1 as (C1 & _).
  match goal with |- context [new_bag_notifications ?u ?n ?b ?o ?c ?x] =>
    pose proof (new_bag_notifications_db u n b o c x) as Hdb;
    destruct (new_bag_notifications u n b o c x) as [pending w2] eqn:N end.
  simpl in Hdb.
  match goal with |- context [commit ?cs w2] =>
    destruct (commit cs w2) as [w3|] eqn:C2 end; simpl.
  - apply commit_tables in C2. destruct C2 as (C2 & _).
    rewrite bags_after_insert_notifications in C2.
    right. eexists. rewrite C2, Hdb. exact C1.
  - right. eexists. rewrite Hdb. exact C1.
Qed.

Lemma map_forget_sold (pk v : Z) (rows : list SurpriseBag.t) :
  map (SurpriseBag.set_quantity_sold 0)
      (update_where (fun b => SurpriseBag.id b =? pk)
         (SurpriseBag.set_quantity_sold v) rows)
  = map (SurpriseBag.set_quantity_sold 0) rows.
Proof.
  unfold update_where. rewrite map_map. apply map_ext.
  intros b. destruct (SurpriseBag.id b =? pk); reflexivity.
Qed.

(** X21. The role checks of the endpoints protect the listings.  A request
    by a caller whose role is customer leaves every listing as it was up to
    [quantity_sold], and adds and removes none: customers move stock but
    cannot edit, create or take down a listing.  A request by a caller
    whose role is business owner leaves the [quantity_sold] of every
    existing listing as it was: business owners cannot move stock. *)
Theorem role_checks_protect_listings :
  forall (fuel : nat) (now : datetime) (r : Request) (current_user : User.t)
         (w w' : World),
    serve uuid4 format_status fuel now r current_user w = Some w' ->
    (User.role current_user = UserRole.customer ->
     map (SurpriseBag.set_quantity_sold 0) (surprise_bags (db w'))
     = map (SurpriseBag.set_quantity_sold 0) (surprise_bags (db w)))
    /\ (User.role current_user = UserRole.business_owner ->
        map SurpriseBag.quantity_sold
            (firstn (List.length (surprise_bags (db w))) (surprise_bags (db w')))
        = map SurpriseBag.quantity_sold (surprise_bags (db w))).
Proof.
  intros fuel now r current_user w w' H. split; intros Hrole.
  - destruct r; simpl in H;
      unfold create_new_surprise_bag, update_existing_surprise_bag,
        delete_existing_surprise_bag, create_new_order,
        update_order_status_endpoint, delete_existing_order,
        is_business_owner, is_customer in H;
      rewrite ?Hrole in H; simpl in H.
    + now inversion H.
    + now inversion H.
    + now inversion H.
    + destruct (create_order uuid4 fuel now w order (User.id current_user))
        as [[res w1]|] eqn:E; [|discriminate].
      inversion H; subst. apply create_order_bags in E.
      destruct E as [E | (pk & v & E)]; rewrite E;
        [reflexivity | apply map_forget_sold].
    + inversion H; subst. now rewrite update_order_status_bags.
    + inversion H; subst.
      destruct (delete_order_bags now w order_id (User.id current_user))
        as [E | (pk & v & E)]; rewrite E;
        [reflexivity | apply map_forget_sold].
  - destruct r; simpl in H;
      unfold create_new_surprise_bag, update_existing_surprise_bag,
        delete_existing_surprise_bag, create_new_order,
        update_order_status_endpoint, delete_existing_order,
        is_business_owner, is_customer in H;
      rewrite ?Hrole in H; simpl in H.
    + inversion H; subst.
      destruct (create_surprise_bag_bags now w bag (User.id current_user))
        as [E | (b & E)]; rewrite E.
      * now rewrite firstn_all.
      * rewrite firstn_app, Nat.sub_diag, firstn_all. simpl.
        now rewrite app_nil_r.
    + inversion H; subst. unfold update_surprise_bag.
      destruct (find (owned_bag bag_id (User.id current_user))
                  (surprise_bags (db w))) as [b|]; simpl;
        [|now rewrite firstn_all].
      destruct (fits_integer (SurpriseBagCreate.quantity_available bag_update));
        simpl; [|now rewrite firstn_all].
      rewrite <- (update_where_length
                    (fun b0 => SurpriseBag.id b0 =? SurpriseBag.id b)
                    (assign_fields bag_update) (surprise_bags (db w))) at 1.
      rewrite firstn_all. now apply map_update_where.
    + inversion H; subst. unfold delete_surprise_bag.
      destruct (find (owned_bag bag_id (User.id current_user))
                  (surprise_bags (db w))) as [b|]; simpl;
        [|now rewrite firstn_all].
      match goal with |- context [if ?c then _ else _] => destruct c end; simpl;
        [now rewrite firstn_all|].
      rewrite <- (update_where_length
                    (fun b0 => SurpriseBag.id b0 =? SurpriseBag.id b)
                    (SurpriseBag.set_is_active false) (surprise_bags (db w))) at 1.
      rewrite firstn_all. now apply map_update_where.
    + inversion H; subst. now rewrite firstn_all.
    + inversion H; subst. rewrite update_order_status_bags. now rewrite firstn_all.
    + inversion H; subst. now rewrite firstn_all.
Qed.

End EndpointProperties.

(** * The further properties at sample inputs *)


Lemma deleted_listing_is_gone_witness :
  exists w',
    delete_surprise_bag Demo.shop 1 2
    = (Return {| message := "Surprise bag deactivated" |}, w')
    /\ get_surprise_bags w' 0 10 = []
    /\ create_order Demo.uuid4 3 9 w' Demo.one_pastry 1
       = Some (Raise (HTTPException 404 "Surprise bag not found or not available"),
               w')
    /\ delete_surprise_bag w' 1 2
       = (Return {| message := "Surprise bag deactivated" |}, w').
Proof.
  assert (H : exists w',
            delete_surprise_bag Demo.shop 1 2
            = (Return {| message := "Surprise bag deactivated" |}, w'))
    by (eexists; reflexivity).
  destruct H as (w' & H).
  destruct (deleted_listing_is_gone Demo.uuid4 Demo.shop 1 2 _ w' H)
    as (_ & Hpages & Horder & Hagain).
  exists w'. split; [exact H|]. split; [|split; [|exact Hagain]].
  - destruct (get_surprise_bags w' 0 10) as [|r l] eqn:E; [reflexivity|].
    exfalso. apply (Hpages 0 10 r); [rewrite E; now left|].
    assert (Hin : In r (get_surprise_bags w' 0 10)) by (rewrite E; now left).
    unfold get_surprise_bags in Hin. apply page_In in Hin.
    apply filter_In in Hin. destruct Hin as [Hin _].
    inversion H; subst w'. simpl in Hin. destruct Hin as [<- | []]. reflexivity.
  - apply Horder. reflexivity.
Defined.

Lemma placed_order_can_be_read_back_witness :
  exists o w',
    create_order Demo.uuid4 0 9 Demo.shop Demo.one_pastry 1 = Some (Return o, w')
    /\ read_order w' (Order.order_id o) Demo.alice = Return o
    /\ read_order w' (Order.order_id o) Demo.carol
       = Raise (HTTPException 404 "Order not found or not authorized").
Proof.
  assert (H : exists o w',
            create_order Demo.uuid4 0 9 Demo.shop Demo.one_pastry 1
            = Some (Return o, w')) by (eexists _, _; vm_compute; reflexivity).
  destruct H as (o & w' & H).
  destruct (placed_order_can_be_read_back Demo.uuid4 0 9 Demo.shop Demo.one_pastry
              1 o w' H) as (_ & Ha & Hc & _).
  exists o, w'. split; [exact H|]. split.
  - apply Ha. reflexivity.
  - apply Hc. simpl. discriminate.
Defined.

Lemma placed_order_blocks_listing_deletion_witness :
  exists o w',
    create_order Demo.uuid4 0 9 Demo.shop Demo.one_pastry 1 = Some (Return o, w')
    /\ delete_surprise_bag w' 1 2
       = (Raise (HTTPException 400 "Cannot delete surprise bag with active orders"),
          w')
    /\ delete_surprise_bag w' 1 7
       = (Raise (HTTPException 404 "Surprise bag not found or not authorized"), w').
Proof.
  assert (H : exists o w',
            create_order Demo.uuid4 0 9 Demo.shop Demo.one_pastry 1
            = Some (Return o, w')) by (eexists _, _; vm_compute; reflexivity).
  destruct H as (o & w' & H).
  pose proof (placed_order_blocks_listing_deletion Demo.uuid4 0 9 Demo.shop
                Demo.one_pastry 1 o w' 2 H) as H2.
  pose proof (placed_order_blocks_listing_deletion Demo.uuid4 0 9 Demo.shop
                Demo.one_pastry 1 o w' 7 H) as H7.
  exists o, w'. split; [exact H|].
  vm_compute in H. inversion H; subst o w'. split; [exact H2 | exact H7].
Defined.

Lemma create_order_commits_before_notifying_witness :
  exists o w',
    create_order Demo.uuid4 0 9 Demo.shop_with_clash Demo.one_pastry 3
    = Some (Raise IntegrityError, w')
    /\ orders (db w') = [o]
    /\ Order.status o = OrderStatus.pending
    /\ get_surprise_bag w' 1 = Some (Demo.listing 1 1 true)
    /\ notifications (db w') = notifications (db Demo.shop_with_clash).
Proof.
  destruct (create_order_commits_before_notifying Demo.uuid4 0 9
              Demo.shop_with_clash Demo.one_pastry 3 (Demo.listing 1 0 true) 0%nat)
    as (o & w' & H & Ho & Hs & _ & _ & Hb & Hn).
  - reflexivity.
  - reflexivity.
  - simpl; lia.
  - split; [intros i Hi; lia | reflexivity].
  - lia.
  - unused.
  - left. reflexivity.
  - exists o, w'. repeat split; assumption.
Defined.

Lemma status_change_commits_before_notifying_witness :
  (exists w',
     update_order_status Demo.uuid4 Demo.format_status 9 Demo.sold_out_with_clash
       "o-1" 1 OrderStatus.completed = (Raise IntegrityError, w')
     /\ find (owned_order "o-1" 1) (orders (db w'))
        = Some (Order.set_updated_at 9
                  (Demo.order_of "o-1" "zzzzzzzz" 1 OrderStatus.completed)))
  /\ exists w',
       delete_order Demo.uuid4 9 Demo.sold_out_with_clash "o-1" 1
       = (Raise IntegrityError, w')
       /\ get_surprise_bag w' 1 = Some (Demo.listing 1 0 true).
Proof.
  destruct (status_change_commits_before_notifying Demo.uuid4 Demo.format_status 9
              Demo.sold_out_with_clash "o-1" 1 OrderStatus.completed
              (Demo.order_of "o-1" "zzzzzzzz" 1 OrderStatus.pending))
    as ((w1 & H1 & Hf1 & _) & Hdel).
  - reflexivity.
  - left. reflexivity.
  - destruct (Hdel eq_refl) as (w2 & H2 & _ & Hb & _).
    split.
    + exists w1. split; [exact H1 | exact Hf1].
    + exists w2. split; [exact H2|]. apply (Hb (Demo.listing 1 1 true)). reflexivity.
Defined.

Lemma cancelled_order_cannot_be_cancelled_again_witness :
  delete_order Demo.uuid4 10 (snd (delete_order Demo.uuid4 9 Demo.sold_out "o-1" 1))
    "o-1" 1
  = (Raise (HTTPException 400 "Can only delete pending orders"),
     snd (delete_order Demo.uuid4 9 Demo.sold_out "o-1" 1)).
Proof.
  apply (cancelled_order_cannot_be_cancelled_again Demo.uuid4 9 10 Demo.sold_out
           "o-1" 1 (Demo.order_of "o-1" "zzzzzzzz" 1 OrderStatus.pending)).
  - reflexivity.
  - reflexivity.
  - reflexivity.
Defined.

Lemma create_surprise_bag_notifies_every_customer_witness :
  exists db_bag l w',
    create_surprise_bag Demo.uuid4 9 Demo.start Demo.pastries 2 = (Return db_bag, w')
    /\ surprise_bags (db w') = [db_bag]
    /\ SurpriseBag.id db_bag = 1
    /\ SurpriseBag.original_price db_bag = 10 # 1
    /\ notifications (db w') = l
    /\ map Notification.user_id l = [1; 3]
    /\ uuid_drawn w' = 2%nat.
Proof.
  destruct (create_surprise_bag_notifies_every_customer Demo.uuid4 9 Demo.start
              Demo.pastries 2 Demo.bakery)
    as (db_bag & l & w' & H & Hb & Hid & _ & _ & _ & Hp & _ & _ & Hn & Hu & _ & _
        & Hd).
  - reflexivity.
  - reflexivity.
  - simpl; lia.
  - reflexivity.
  - intros [].
  - simpl. repeat constructor; simpl; intuition discriminate.
  - exists db_bag, l, w'. repeat split; assumption.
Defined.

Lemma create_surprise_bag_commits_before_notifying_witness :
  exists w',
    create_surprise_bag Demo.uuid4 9 Demo.start_with_clash Demo.pastries 2
    = (Raise IntegrityError, w')
    /\ List.length (surprise_bags (db w')) = 1%nat
    /\ notifications (db w') = notifications (db Demo.start_with_clash).
Proof.
  destruct (create_surprise_bag_commits_before_notifying Demo.uuid4 9
              Demo.start_with_clash Demo.pastries 2 Demo.bakery)
    as (w' & H & Hb & Hn & _).
  - reflexivity.
  - reflexivity.
  - simpl; lia.
  - reflexivity.
  - intros [].
  - simpl. repeat constructor. intros [].
  - simpl. intros Hnd. inversion Hnd as [|? ? Hnotin _]. apply Hnotin.
    right. left. reflexivity.
  - exists w'. split; [exact H|]. split; [now rewrite Hb | exact Hn].
Defined.


Lemma mark_notification_as_read_effect_witness :
  exists w',
    mark_notification_as_read Demo.inbox "n-1" 1
    = (Return {| message := "Notification marked as read" |}, w')
    /\ find (owned_notification "n-1" 1) (notifications (db w'))
       = Some (Notification.set_is_read true (Demo.note_for "n-1" 1))
    /\ In (Demo.note_for "n-2" 3) (notifications (db w'))
    /\ mark_notification_as_read w' "n-1" 1
       = (Return {| message := "Notification marked as read" |}, w').
Proof.
  destruct (mark_notification_as_read_effect Demo.inbox "n-1" 1
              (Demo.note_for "n-1" 1) eq_refl)
    as (w' & H & Hf & Hrest & _ & _ & _ & _ & Hagain).
  exists w'. split; [exact H|]. split; [exact Hf|]. split; [|exact Hagain].
  apply Hrest; [simpl; discriminate | right; left; reflexivity].
Defined.

Lemma delete_notification_effect_witness :
  exists w',
    delete_notification Demo.inbox "n-1" 1
    = (Return {| message := "Notification deleted" |}, w')
    /\ In (Demo.note_for "n-2" 3) (notifications (db w'))
    /\ mark_notification_as_read w' "n-1" 1
       = (Raise (HTTPException 404 "Notification not found or not authorized"), w').
Proof.
  destruct (delete_notification_effect Demo.inbox "n-1" 1
              (Demo.note_for "n-1" 1) eq_refl)
    as (w' & H & _ & Hrest & _ & _ & _ & Hgone).
  exists w'. split; [exact H|]. split.
  - apply Hrest; [simpl; discriminate | right; left; reflexivity].
  - apply (Hgone 1).
Defined.

Lemma orders_keep_their_terms_witness :
  exists ws,
    execution Demo.uuid4 Demo.format_status Demo.sold_out Demo.aftermath ws
    /\ Forall (fun w =>
                 exists o', In o' (orders (db w))
                            /\ same_order_but_status
                                 (Demo.order_of "o-1" "zzzzzzzz" 1 OrderStatus.pending)
                                 o') ws.
Proof.
  eexists. split; [unfold Demo.aftermath; run_script|].
  eapply Forall_impl;
    [|apply (orders_keep_their_terms Demo.uuid4 Demo.format_status Demo.sold_out
               Demo.aftermath _ ltac:(unfold Demo.aftermath; run_script))].
  intros w H. apply H. left. reflexivity.
Defined.

Lemma listings_and_accounts_persist_witness :
  exists ws,
    execution Demo.uuid4 Demo.format_status Demo.sold_out Demo.aftermath ws
    /\ Forall (fun w =>
                 users (db w) = [Demo.alice; Demo.bob; Demo.carol]
                 /\ business_owners (db w) = [Demo.bakery]) ws.
Proof.
  eexists. split; [unfold Demo.aftermath; run_script|].
  eapply Forall_impl;
    [|apply (listings_and_accounts_persist Demo.uuid4 Demo.format_status
               Demo.sold_out Demo.aftermath _
               ltac:(unfold Demo.aftermath; run_script))].
  intros w (H1 & H2 & _). split; assumption.
Defined.

Lemma create_user_outcomes_witness :
  create_user Demo.hash 4 9 Demo.start Demo.second_alice
  = (Raise (HTTPException 400 "Email already registered"), Demo.start)
  /\ create_user Demo.hash 3 9 Demo.start Demo.dave
     = (Raise IntegrityError, Demo.start)
  /\ exists u w',
       create_user Demo.hash 4 9 Demo.start Demo.dave = (Return u, w')
       /\ users (db w') = [Demo.alice; Demo.bob; Demo.carol; u]
       /\ User.password_hash u = "hash:secret"
       /\ User.is_active u = true.
Proof.
  pose proof (create_user_outcomes Demo.hash 4 9 Demo.start Demo.second_alice)
    as (Htaken & _).
  pose proof (create_user_outcomes Demo.hash 3 9 Demo.start Demo.dave)
    as (_ & Hclash & _).
  pose proof (create_user_outcomes Demo.hash 4 9 Demo.start Demo.dave)
    as (_ & _ & Hok & _).
  split; [|split].
  - apply Htaken. left. reflexivity.
  - apply Hclash; [simpl; intuition discriminate | simpl; auto].
  - destruct Hok as (u & w' & H & Hu & _ & _ & Hp & _ & _ & _ & Ha & _).
    + simpl. intuition discriminate.
    + simpl. intuition discriminate.
    + exists u, w'. repeat split; assumption.
Defined.

Lemma delete_user_outcomes_witness :
  delete_user Demo.start 9 = (Raise (HTTPException 404 "User not found"), Demo.start)
  /\ exists w',
       delete_user Demo.start 1 = (Return {| message := "User deactivated" |}, w')
       /\ get_user_by_id w' 1 = Some (User_set_is_active false Demo.alice)
       /\ create_user Demo.hash 4 9 w' Demo.second_alice
          = (Raise (HTTPException 400 "Email already registered"), w').
Proof.
  split.
  - apply (proj1 (delete_user_outcomes Demo.hash Demo.start 9)). reflexivity.
  - destruct (proj2 (delete_user_outcomes Demo.hash Demo.start 1) Demo.alice eq_refl)
      as (w' & H & Hg & _ & _ & _ & _ & _ & _ & _ & Htaken & _).
    exists w'. split; [exact H|]. split; [exact Hg|].
    apply Htaken. reflexivity.
Defined.

Lemma create_business_owner_outcomes_witness :
  create_business_owner 9 Demo.no_business Demo.cafe 1
  = (Raise (HTTPException 403 "User must be a business owner"), Demo.no_business)
  /\ create_business_owner 9 Demo.start Demo.cafe 2
     = (Raise IntegrityError, Demo.start)
  /\ exists b w',
       create_business_owner 9 Demo.no_business Demo.cafe 2 = (Return b, w')
       /\ get_business_owner w' 2 = Some b
       /\ BusinessOwner.is_verified b = false.
Proof.
  split; [|split].
  - apply (proj1 (proj2 (create_business_owner_outcomes 9 Demo.no_business
                           Demo.cafe 1) Demo.alice eq_refl)).
    reflexivity.
  - apply (proj1 (proj2 (proj2 (create_business_owner_outcomes 9 Demo.start
                                  Demo.cafe 2) Demo.bob eq_refl)));
      [reflexivity | left; reflexivity].
  - destruct (proj2 (proj2 (proj2 (create_business_owner_outcomes 9 Demo.no_business
                                     Demo.cafe 2) Demo.bob eq_refl)))
      as (b & w' & H & _ & Hg & _ & Hv & _); [reflexivity | intros [] |].
    exists b, w'. repeat split; assumption.
Defined.

Lemma delete_business_owner_outcomes_witness :
  delete_business_owner Demo.start 1
  = (Raise (HTTPException 404 "Business owner not found"), Demo.start)
  /\ exists w',
       delete_business_owner Demo.start 2
       = (Return {| message := "Business owner and associated user deactivated" |},
          w')
       /\ get_business_owner w' 2
          = Some (BusinessOwner_set_is_verified false Demo.bakery)
       /\ get_user_by_id w' 2 = Some (User_set_is_active false Demo.bob).
Proof.
  split.
  - apply (proj1 (delete_business_owner_outcomes Demo.start 1)). reflexivity.
  - destruct (proj2 (delete_business_owner_outcomes Demo.start 2) Demo.bakery eq_refl)
      as (w' & H & Hg & _ & Hu & _).
    exists w'. split; [exact H|]. split; [exact Hg|]. apply Hu. reflexivity.
Defined.

Lemma role_checks_protect_listings_witness :
  exists w1 w2,
    serve Demo.uuid4 Demo.format_status 0 9 (PostOrder Demo.one_pastry) Demo.alice
      Demo.shop = Some w1
    /\ map (SurpriseBag.set_quantity_sold 0) (surprise_bags (db w1))
       = [Demo.listing 1 0 true]
    /\ serve Demo.uuid4 Demo.format_status 0 9 (PutSurpriseBag 1 Demo.restocked)
         Demo.bob Demo.sold_out = Some w2
    /\ map SurpriseBag.quantity_sold (surprise_bags (db w2)) = [1].
Proof.
  assert (H1 : exists w1,
             serve Demo.uuid4 Demo.format_status 0 9 (PostOrder Demo.one_pastry)
               Demo.alice Demo.shop = Some w1) by (eexists; vm_compute; reflexivity).
  assert (H2 : exists w2,
             serve Demo.uuid4 Demo.format_status 0 9 (PutSurpriseBag 1 Demo.restocked)
               Demo.bob Demo.sold_out = Some w2) by (eexists; vm_compute; reflexivity).
  destruct H1 as (w1 & H1). destruct H2 as (w2 & H2).
  pose proof (proj1 (role_checks_protect_listings Demo.uuid4 Demo.format_status 0 9
                       _ _ _ _ H1) eq_refl) as Hc.
  pose proof (proj2 (role_checks_protect_listings Demo.uuid4 Demo.format_status 0 9
                       _ _ _ _ H2) eq_refl) as Hb.
  exists w1, w2. split; [exact H1|]. split; [exact Hc|]. split; [exact H2|].
  vm_compute in H2. inversion H2; subst w2. exact Hb.
Defined.
